(** * SaccoSphere front end: request hooks, HTTP client and session state

    A shallow embedding of the data-fetching hooks ([useTransactions],
    [useServices], [useSaccoDirectory], [usePaymentProviders],
    [useMemberships], [useLoans], [useProfile]), of the shared axios client's
    response interceptor and of the [useAuth] hook, followed by the theorems
    that settle the properties stated for them.

    Every asynchronous hook function awaits exactly one HTTP call.  It is
    embedded as two state transformers: [f_start], the synchronous prefix up
    to the [await], and [f_settle], the continuation run on the state that
    is current when the call settles.  React state setters are applied in
    program order. *)

From Stdlib Require Import ZArith String List DecimalString.
From stdpp Require Import base gmap strings list.

Open Scope string_scope.

(** ** JavaScript values as the hooks see them *)

Module Js.

(** Response bodies are parsed JSON; property access on them may also yield
    [undefined].  Numbers are the integers that JavaScript prints in plain
    decimal notation; a string holds the UTF-8 bytes of its text, and
    [utf16_length] below is the [.length] of the source (the functions
    that split or fold text, [chars], [index0] and [Text.toLowerCase],
    are exact on ASCII text).  The fields of an object are listed in the
    object's own enumeration order, with distinct keys. *)
#[warnings="-register-all"]
Inductive value : Type :=
| VUndefined
| VNull
| VBool (b : bool)
| VNum (n : Z)
| VStr (s : string)
| VArr (elems : list value)
| VObj (fields : list (string * value)).

(** ToBoolean. *)
Definition truthy (v : value) : bool :=
  match v with
  | VUndefined | VNull => false
  | VBool b => b
  | VNum n => negb (Z.eqb n 0)
  | VStr s => negb (String.eqb s EmptyString)
  | VArr _ | VObj _ => true
  end.

(** [a || b] *)
Definition or_else (a b : value) : value := if truthy a then a else b.

Definition nullish (v : value) : bool :=
  match v with
  | VUndefined | VNull => true
  | _ => false
  end.

Definition isArray (v : value) : bool :=
  match v with
  | VArr _ => true
  | _ => false
  end.

Definition isString (v : value) : bool :=
  match v with
  | VStr _ => true
  | _ => false
  end.

Fixpoint lookup_field (k : string) (fields : list (string * value)) : value :=
  match fields with
  | [] => VUndefined
  | (k', v) :: rest => if String.eqb k k' then v else lookup_field k rest
  end.

(** [10xxxxxx]: a continuation byte of a UTF-8 sequence. *)
Definition is_continuation (c : Ascii.ascii) : bool :=
  match c with
  | Ascii.Ascii _ _ _ _ _ _ b6 b7 => b7 && negb b6
  end.

(** [11110xxx]: the first byte of a four-byte sequence, that is, of a
    character outside the basic plane. *)
Definition is_lead4 (c : Ascii.ascii) : bool :=
  match c with
  | Ascii.Ascii _ _ _ b3 b4 b5 b6 b7 => b7 && b6 && b5 && b4 && negb b3
  end.

(** The UTF-16 code units of a text given by its UTF-8 bytes: one for each
    byte that starts a character, and a second one for a character
    outside the basic plane (a surrogate pair), counted at the byte that
    follows its first byte. *)
Fixpoint utf16_units (after_lead4 : bool) (s : string) : nat :=
  match s with
  | EmptyString => 0
  | String c rest =>
      if is_continuation c
      then (if after_lead4 then 1 else 0) + utf16_units false rest
      else 1 + utf16_units (is_lead4 c) rest
  end.

(** [s.length] *)
Definition utf16_length (s : string) : nat := utf16_units false s.

(** [v?.k] for the property names the hooks read ([results], [message],
    [error], [detail], [access], ...): none of them is defined on the
    prototypes of strings, numbers, booleans or arrays. *)
Definition opt_get (v : value) (k : string) : value :=
  match v with
  | VObj fields => lookup_field k fields
  | _ => VUndefined
  end.

(** The single-character strings of a string, in order. *)
Fixpoint chars (s : string) : list value :=
  match s with
  | EmptyString => []
  | String c rest => VStr (String c EmptyString) :: chars rest
  end.

(** [v[0]] and [v?.[0]] (the latter also defined on [undefined]). *)
Definition index0 (v : value) : value :=
  match v with
  | VArr (x :: _) => x
  | VStr (String c _) => VStr (String c EmptyString)
  | VObj fields => lookup_field "0" fields
  | _ => VUndefined
  end.

Fixpoint join_strings (sep : string) (l : list string) : string :=
  match l with
  | [] => EmptyString
  | [s] => s
  | s :: rest => s +:+ sep +:+ join_strings sep rest
  end.

Definition string_of_Z (n : Z) : string := NilZero.string_of_int (Z.to_int n).

Definition string_of_nat (n : nat) : string := NilZero.string_of_uint (Nat.to_uint n).

(** ToString, as applied by template literals, [Array.prototype.join],
    [new Error(x)] and [localStorage.setItem]. *)
Fixpoint toString (v : value) : string :=
  match v with
  | VUndefined => "undefined"
  | VNull => "null"
  | VBool true => "true"
  | VBool false => "false"
  | VNum n => string_of_Z n
  | VStr s => s
  | VArr elems =>
      join_strings ","
        (map (fun x => match x with
                       | VUndefined | VNull => EmptyString
                       | _ => toString x
                       end) elems)
  | VObj _ => "[object Object]"
  end.

(** [l.join(sep)]: [undefined] and [null] elements print as the empty
    string. *)
Definition join (sep : string) (l : list value) : string :=
  join_strings sep (map (fun x => if nullish x then EmptyString else toString x) l).

(** [l.flat()], depth one. *)
Definition flat (l : list value) : list value :=
  concat (map (fun x => match x with VArr inner => inner | _ => [x] end) l).

Fixpoint indexed_from (i : nat) (l : list value) : list (string * value) :=
  match l with
  | [] => []
  | x :: rest => (string_of_nat i, x) :: indexed_from (S i) rest
  end.

(** [Object.entries(v)] and [Object.values(v)] for a non-nullish [v]. *)
Definition entries (v : value) : list (string * value) :=
  match v with
  | VObj fields => fields
  | VArr elems => indexed_from 0 elems
  | VStr s => indexed_from 0 (chars s)
  | _ => []
  end.

Definition values (v : value) : list value := map snd (entries v).

(** What is thrown in the hooks: an axios error, another [Error], or any
    other value. *)
Record response : Type := mkResponse {
  status : Z;
  statusText : string;
  data : value
}.

Inductive thrown : Type :=
| AxiosError (code : option string) (resp : option response) (request : bool)
| JsError (message : string)
| ThrownValue (v : value).

(** [axios.isAxiosError(err)] *)
Definition isAxiosError (e : thrown) : bool :=
  match e with
  | AxiosError _ _ _ => true
  | _ => false
  end.

(** [axios.isAxiosError(err) && err.code === 'ERR_CANCELED'] *)
Definition isCanceled (e : thrown) : bool :=
  match e with
  | AxiosError (Some c) _ _ => String.eqb c "ERR_CANCELED"
  | _ => false
  end.

(** The [TypeError] of reading a property of [null] or [undefined]. *)
Definition typeError_read (v : value) (k : string) : thrown :=
  JsError ("Cannot read properties of " +:+ toString v +:+
           " (reading '" +:+ k +:+ "')").

(** [v.k]: throws on [null] and [undefined]. *)
Definition get (v : value) (k : string) : thrown + value :=
  if nullish v then inl (typeError_read v k) else inr (opt_get v k).

(** [new Error(x).message] *)
Definition error_message_of (x : value) : string :=
  match x with
  | VUndefined => EmptyString
  | _ => toString x
  end.

(** How an awaited HTTP call settles, and how a hook function completes. *)
Inductive outcome : Type :=
| Resolved (r : response)
| Rejected (e : thrown).

Inductive completion : Type :=
| Returned (v : value)
| Threw (e : thrown).

Inductive method : Type := GET | POST | PUT.

Record request : Type := mkRequest {
  req_method : method;
  req_url : string;
  req_body : value;
  req_authorization : option string;
  req_signal : option nat
}.

(** The synchronous prefix of a hook function either completes at once or
    issues its HTTP call and suspends. *)
Inductive started : Type :=
| Completed (c : completion)
| Awaiting (req : request).

Definition network_calls (s : started) : list request :=
  match s with
  | Completed _ => []
  | Awaiting req => [req]
  end.

(** [AbortController] objects, by allocation order; the flag is
    [signal.aborted]. *)
Definition new_AbortController (heap : list bool) : list bool * nat :=
  ((heap ++ [false])%list, List.length heap).

Definition abort (c : nat) (heap : list bool) : list bool := <[c := true]> heap.

Definition aborted (c : nat) (heap : list bool) : bool :=
  match heap !! c with
  | Some b => b
  | None => false
  end.

(** [if (ref.current) ref.current.abort()] *)
Definition abort_current (ref : option nat) (heap : list bool) : list bool :=
  match ref with
  | Some c => abort c heap
  | None => heap
  end.

(** The normalisation every list hook applies to a response body:
    [Array.isArray(d) ? d : d.results || []]. *)
Definition normalize (d : value) : thrown + value :=
  if isArray d then inr d
  else match get d "results" with
       | inl e => inl e
       | inr r => inr (or_else r (VArr []))
       end.

End Js.

(** ** [useTransactions] (hooks/useApi.ts) *)

Module UseTransactions.
Import Js.

Record state : Type := mkState {
  transactions : value;
  isLoading : bool;
  error : value;
  isCreating : bool;
  createError : value;
  abortControllerRef : option nat
}.

Definition initial : state := mkState (VArr []) false VNull false VNull None.

Definition setTransactions (v : value) (st : state) : state :=
  mkState v (isLoading st) (error st) (isCreating st) (createError st)
          (abortControllerRef st).

Definition setIsLoading (b : bool) (st : state) : state :=
  mkState (transactions st) b (error st) (isCreating st) (createError st)
          (abortControllerRef st).

Definition setError (v : value) (st : state) : state :=
  mkState (transactions st) (isLoading st) v (isCreating st) (createError st)
          (abortControllerRef st).

Definition setIsCreating (b : bool) (st : state) : state :=
  mkState (transactions st) (isLoading st) (error st) b (createError st)
          (abortControllerRef st).

Definition setCreateError (v : value) (st : state) : state :=
  mkState (transactions st) (isLoading st) (error st) (isCreating st) v
          (abortControllerRef st).

Definition setAbortControllerRef (r : option nat) (st : state) : state :=
  mkState (transactions st) (isLoading st) (error st) (isCreating st)
          (createError st) r.

Definition TRANSACTIONS_ENDPOINT : string := "/payments/transactions/".

(** [fetchMyTransactions], up to the [await]. *)
Definition fetchMyTransactions_start (st : state) (heap : list bool)
  : state * list bool * request :=
  let heap1 := abort_current (abortControllerRef st) heap in
  let '(heap2, c) := new_AbortController heap1 in
  let st1 := setAbortControllerRef (Some c) st in
  let st2 := setIsLoading true st1 in
  let st3 := setError VNull st2 in
  (st3, heap2, mkRequest GET TRANSACTIONS_ENDPOINT VUndefined None (Some c)).

(** The [try] block after the [await]: the state, and what was thrown. *)
Definition fetchMyTransactions_try (o : outcome) (st : state)
  : state * option thrown :=
  match o with
  | Rejected e => (st, Some e)
  | Resolved r =>
      match normalize (data r) with
      | inl e => (st, Some e)
      | inr transactionsData =>
          (setError VNull (setTransactions transactionsData st), None)
      end
  end.

Definition fetchMyTransactions_errorMessage (err : thrown) : value :=
  match err with
  | AxiosError _ (Some r) _ =>
      or_else (or_else (opt_get (data r) "message") (opt_get (data r) "error"))
              (VStr ("Failed to fetch transactions: " +:+ statusText r))
  | AxiosError _ None true =>
      VStr "Network error. Please check your connection."
  | AxiosError _ None false => VStr "Failed to fetch transactions."
  | JsError m => VStr m
  | ThrownValue _ => VStr "Failed to fetch transactions."
  end.

Definition fetchMyTransactions_catch (err : thrown) (st : state) : state :=
  if isCanceled err then st
  else setTransactions (VArr [])
         (setError (fetchMyTransactions_errorMessage err) st).

(** The continuation of [fetchMyTransactions]: [try], [catch], [finally]. *)
Definition fetchMyTransactions_settle (o : outcome) (st : state) : state :=
  let '(st1, exn) := fetchMyTransactions_try o st in
  let st2 := match exn with
             | Some err => fetchMyTransactions_catch err st1
             | None => st1
             end in
  setIsLoading false st2.

Record CreateTransactionData : Type := mkCreateTransactionData {
  provider : string;
  amount : Z;
  reference : string
}.

Definition createTransaction_start (d : CreateTransactionData) (st : state)
  : state * request :=
  let st1 := setIsCreating true st in
  let st2 := setCreateError VNull st1 in
  let payload := VObj [("provider", VStr (provider d));
                       ("amount", VNum (amount d));
                       ("reference", VStr (reference d))] in
  (st2, mkRequest POST TRANSACTIONS_ENDPOINT payload None None).

(** [(prev) => [response.data, ...prev]].  The stored value is an array
    whenever it was written by this updater or by a well-typed fetch; a
    string spreads into its characters; spreading anything else throws
    inside React's render, where the model keeps the previous value. *)
Definition prepend (x : value) (prev : value) : value :=
  match prev with
  | VArr elems => VArr (x :: elems)
  | VStr s => VArr (x :: chars s)
  | _ => prev
  end.

Definition createTransaction_errorMessage (err : thrown) : value :=
  match err with
  | AxiosError _ (Some r) _ =>
      or_else
        (or_else
           (or_else
              (or_else (opt_get (data r) "message") (opt_get (data r) "error"))
              (opt_get (data r) "detail"))
           (VStr (join ", " (flat (values (or_else (data r) (VObj [])))))))
        (VStr ("Failed to create transaction: " +:+ statusText r))
  | AxiosError _ None true =>
      VStr "Network error. Please check your connection."
  | AxiosError _ None false => VStr "Failed to create transaction."
  | JsError m => VStr m
  | ThrownValue _ => VStr "Failed to create transaction."
  end.

Definition createTransaction_settle (o : outcome) (st : state)
  : state * completion :=
  let '(st1, c) :=
    match o with
    | Resolved r =>
        (setCreateError VNull
           (setTransactions (prepend (data r) (transactions st)) st),
         Returned (data r))
    | Rejected err =>
        (setCreateError (createTransaction_errorMessage err) st, Threw err)
    end in
  (setIsCreating false st1, c).

End UseTransactions.

(** ** [useServices] (hooks/useServices.ts) *)

Module UseServices.
Import Js.

Record state : Type := mkState {
  services : value;
  isLoading : bool;
  isError : bool;
  abortControllerRef : option nat
}.

Definition initial : state := mkState (VArr []) false false None.

Definition setServices (v : value) (st : state) : state :=
  mkState v (isLoading st) (isError st) (abortControllerRef st).

Definition setIsLoading (b : bool) (st : state) : state :=
  mkState (services st) b (isError st) (abortControllerRef st).

Definition setIsError (b : bool) (st : state) : state :=
  mkState (services st) (isLoading st) b (abortControllerRef st).

Definition setAbortControllerRef (r : option nat) (st : state) : state :=
  mkState (services st) (isLoading st) (isError st) r.

Definition SERVICES_ENDPOINT : string := "/services/services/".

Definition fetchServices_start (st : state) (heap : list bool)
  : state * list bool * request :=
  let heap1 := abort_current (abortControllerRef st) heap in
  let '(heap2, c) := new_AbortController heap1 in
  let st1 := setAbortControllerRef (Some c) st in
  let st2 := setIsLoading true st1 in
  let st3 := setIsError false st2 in
  (st3, heap2, mkRequest GET SERVICES_ENDPOINT VUndefined None (Some c)).

Definition fetchServices_try (o : outcome) (st : state)
  : state * option thrown :=
  match o with
  | Rejected e => (st, Some e)
  | Resolved r =>
      match normalize (data r) with
      | inl e => (st, Some e)
      | inr servicesData =>
          (setIsError false (setServices servicesData st), None)
      end
  end.

Definition fetchServices_catch (err : thrown) (st : state) : state :=
  if isCanceled err then st
  else setServices (VArr []) (setIsError true st).

Definition fetchServices_settle (o : outcome) (st : state) : state :=
  let '(st1, exn) := fetchServices_try o st in
  let st2 := match exn with
             | Some err => fetchServices_catch err st1
             | None => st1
             end in
  setIsLoading false st2.

End UseServices.

(** ** [useSaccoDirectory] (hooks/useServices.ts, second unit) *)

Module UseSaccoDirectory.
Import Js.

Record state : Type := mkState {
  saccos : value;
  isLoading : bool;
  error : value;
  abortControllerRef : option nat
}.

Definition initial : state := mkState (VArr []) false VNull None.

Definition setSaccos (v : value) (st : state) : state :=
  mkState v (isLoading st) (error st) (abortControllerRef st).

Definition setIsLoading (b : bool) (st : state) : state :=
  mkState (saccos st) b (error st) (abortControllerRef st).

Definition setError (v : value) (st : state) : state :=
  mkState (saccos st) (isLoading st) v (abortControllerRef st).

Definition setAbortControllerRef (r : option nat) (st : state) : state :=
  mkState (saccos st) (isLoading st) (error st) r.

Definition SACCOS_ENDPOINT : string := "/accounts/saccos/".

Definition fetchSaccos_start (st : state) (heap : list bool)
  : state * list bool * request :=
  let heap1 := abort_current (abortControllerRef st) heap in
  let '(heap2, c) := new_AbortController heap1 in
  let st1 := setAbortControllerRef (Some c) st in
  let st2 := setIsLoading true st1 in
  let st3 := setError VNull st2 in
  (st3, heap2, mkRequest GET SACCOS_ENDPOINT VUndefined None (Some c)).

Definition fetchSaccos_try (o : outcome) (st : state)
  : state * option thrown :=
  match o with
  | Rejected e => (st, Some e)
  | Resolved r =>
      match normalize (data r) with
      | inl e => (st, Some e)
      | inr saccosData => (setError VNull (setSaccos saccosData st), None)
      end
  end.

Definition fetchSaccos_errorMessage (err : thrown) : value :=
  match err with
  | AxiosError _ (Some r) _ =>
      or_else (or_else (opt_get (data r) "message") (opt_get (data r) "error"))
              (VStr ("Failed to fetch saccos: " +:+ statusText r))
  | AxiosError _ None true =>
      VStr "Network error. Please check your connection."
  | AxiosError _ None false => VStr "Failed to fetch sacco directory."
  | JsError m => VStr m
  | ThrownValue _ => VStr "Failed to fetch sacco directory."
  end.

Definition fetchSaccos_catch (err : thrown) (st : state) : state :=
  if isCanceled err then st
  else setSaccos (VArr []) (setError (fetchSaccos_errorMessage err) st).

Definition fetchSaccos_settle (o : outcome) (st : state) : state :=
  let '(st1, exn) := fetchSaccos_try o st in
  let st2 := match exn with
             | Some err => fetchSaccos_catch err st1
             | None => st1
             end in
  setIsLoading false st2.

End UseSaccoDirectory.

(** ** [usePaymentProviders] (hooks/usePaymentProviders.ts) *)

Module UsePaymentProviders.
Import Js.

Record state : Type := mkState {
  providers : value;
  isLoading : bool;
  error : value;
  abortControllerRef : option nat
}.

Definition initial : state := mkState (VArr []) false VNull None.

Definition setProviders (v : value) (st : state) : state :=
  mkState v (isLoading st) (error st) (abortControllerRef st).

Definition setIsLoading (b : bool) (st : state) : state :=
  mkState (providers st) b (error st) (abortControllerRef st).

Definition setError (v : value) (st : state) : state :=
  mkState (providers st) (isLoading st) v (abortControllerRef st).

Definition setAbortControllerRef (r : option nat) (st : state) : state :=
  mkState (providers st) (isLoading st) (error st) r.

Definition PROVIDERS_ENDPOINT : string := "/payments/providers/".

Definition fetchProviders_start (st : state) (heap : list bool)
  : state * list bool * request :=
  let heap1 := abort_current (abortControllerRef st) heap in
  let '(heap2, c) := new_AbortController heap1 in
  let st1 := setAbortControllerRef (Some c) st in
  let st2 := setIsLoading true st1 in
  let st3 := setError VNull st2 in
  (st3, heap2, mkRequest GET PROVIDERS_ENDPOINT VUndefined None (Some c)).

Definition fetchProviders_try (o : outcome) (st : state)
  : state * option thrown :=
  match o with
  | Rejected e => (st, Some e)
  | Resolved r =>
      match normalize (data r) with
      | inl e => (st, Some e)
      | inr providersData =>
          (setError VNull (setProviders providersData st), None)
      end
  end.

Definition fetchProviders_errorMessage (err : thrown) : value :=
  match err with
  | AxiosError _ (Some r) _ =>
      or_else (or_else (opt_get (data r) "message") (opt_get (data r) "error"))
              (VStr ("Failed to fetch providers: " +:+ statusText r))
  | AxiosError _ None true =>
      VStr "Network error. Please check your connection."
  | AxiosError _ None false => VStr "Failed to fetch payment providers."
  | JsError m => VStr m
  | ThrownValue _ => VStr "Failed to fetch payment providers."
  end.

Definition fetchProviders_catch (err : thrown) (st : state) : state :=
  if isCanceled err then st
  else setProviders (VArr []) (setError (fetchProviders_errorMessage err) st).

Definition fetchProviders_settle (o : outcome) (st : state) : state :=
  let '(st1, exn) := fetchProviders_try o st in
  let st2 := match exn with
             | Some err => fetchProviders_catch err st1
             | None => st1
             end in
  setIsLoading false st2.

End UsePaymentProviders.

(** ** [useMemberships] (hooks/usePaymentProviders.ts, second unit) *)

Module UseMemberships.
Import Js.

Record state : Type := mkState {
  memberships : value;
  isLoading : bool;
  error : value;
  abortControllerRef : option nat
}.

Definition initial : state := mkState (VArr []) false VNull None.

Definition setMemberships (v : value) (st : state) : state :=
  mkState v (isLoading st) (error st) (abortControllerRef st).

Definition setIsLoading (b : bool) (st : state) : state :=
  mkState (memberships st) b (error st) (abortControllerRef st).

Definition setError (v : value) (st : state) : state :=
  mkState (memberships st) (isLoading st) v (abortControllerRef st).

Definition setAbortControllerRef (r : option nat) (st : state) : state :=
  mkState (memberships st) (isLoading st) (error st) r.

Definition MEMBERSHIPS_ENDPOINT : string := "/members/memberships/".

Definition fetchMemberships_start (st : state) (heap : list bool)
  : state * list bool * request :=
  let heap1 := abort_current (abortControllerRef st) heap in
  let '(heap2, c) := new_AbortController heap1 in
  let st1 := setAbortControllerRef (Some c) st in
  let st2 := setIsLoading true st1 in
  let st3 := setError VNull st2 in
  (st3, heap2, mkRequest GET MEMBERSHIPS_ENDPOINT VUndefined None (Some c)).

Definition fetchMemberships_try (o : outcome) (st : state)
  : state * option thrown :=
  match o with
  | Rejected e => (st, Some e)
  | Resolved r =>
      match normalize (data r) with
      | inl e => (st, Some e)
      | inr membershipsData =>
          (setError VNull (setMemberships membershipsData st), None)
      end
  end.

Definition fetchMemberships_errorMessage (err : thrown) : value :=
  match err with
  | AxiosError _ (Some r) _ =>
      or_else (or_else (opt_get (data r) "message") (opt_get (data r) "error"))
              (VStr ("Failed to fetch memberships: " +:+ statusText r))
  | AxiosError _ None true =>
      VStr "Network error. Please check your connection."
  | AxiosError _ None false => VStr "Failed to fetch memberships."
  | JsError m => VStr m
  | ThrownValue _ => VStr "Failed to fetch memberships."
  end.

Definition fetchMemberships_catch (err : thrown) (st : state) : state :=
  if isCanceled err then st
  else setMemberships (VArr [])
         (setError (fetchMemberships_errorMessage err) st).

Definition fetchMemberships_settle (o : outcome) (st : state) : state :=
  let '(st1, exn) := fetchMemberships_try o st in
  let st2 := match exn with
             | Some err => fetchMemberships_catch err st1
             | None => st1
             end in
  setIsLoading false st2.

End UseMemberships.

(** ** [useLoans] *)

Module UseLoans.
Import Js.

Record state : Type := mkState {
  loans : value;
  isLoading : bool;
  isError : bool;
  isApplying : bool;
  applyError : value;
  abortControllerRef : option nat
}.

Definition initial : state := mkState (VArr []) false false false VNull None.

Definition setLoans (v : value) (st : state) : state :=
  mkState v (isLoading st) (isError st) (isApplying st) (applyError st)
          (abortControllerRef st).

Definition setIsLoading (b : bool) (st : state) : state :=
  mkState (loans st) b (isError st) (isApplying st) (applyError st)
          (abortControllerRef st).

Definition setIsError (b : bool) (st : state) : state :=
  mkState (loans st) (isLoading st) b (isApplying st) (applyError st)
          (abortControllerRef st).

Definition setIsApplying (b : bool) (st : state) : state :=
  mkState (loans st) (isLoading st) (isError st) b (applyError st)
          (abortControllerRef st).

Definition setApplyError (v : value) (st : state) : state :=
  mkState (loans st) (isLoading st) (isError st) (isApplying st) v
          (abortControllerRef st).

Definition setAbortControllerRef (r : option nat) (st : state) : state :=
  mkState (loans st) (isLoading st) (isError st) (isApplying st)
          (applyError st) r.

Definition LOANS_ENDPOINT : string := "/services/loans/".

Definition fetchMyLoans_start (st : state) (heap : list bool)
  : state * list bool * request :=
  let heap1 := abort_current (abortControllerRef st) heap in
  let '(heap2, c) := new_AbortController heap1 in
  let st1 := setAbortControllerRef (Some c) st in
  let st2 := setIsLoading true st1 in
  let st3 := setIsError false st2 in
  (st3, heap2, mkRequest GET LOANS_ENDPOINT VUndefined None (Some c)).

Definition fetchMyLoans_try (o : outcome) (st : state)
  : state * option thrown :=
  match o with
  | Rejected e => (st, Some e)
  | Resolved r =>
      match normalize (data r) with
      | inl e => (st, Some e)
      | inr loansData => (setIsError false (setLoans loansData st), None)
      end
  end.

Definition fetchMyLoans_catch (err : thrown) (st : state) : state :=
  if isCanceled err then st
  else setLoans (VArr []) (setIsError true st).

Definition fetchMyLoans_settle (o : outcome) (st : state) : state :=
  let '(st1, exn) := fetchMyLoans_try o st in
  let st2 := match exn with
             | Some err => fetchMyLoans_catch err st1
             | None => st1
             end in
  setIsLoading false st2.

Record ApplyForLoanData : Type := mkApplyForLoanData {
  amount : Z;
  duration_months : Z;
  sacco : Z
}.

Definition applyForLoan_start (d : ApplyForLoanData) (st : state)
  : state * request :=
  let st1 := setIsApplying true st in
  let st2 := setApplyError VNull st1 in
  let payload := VObj [("amount", VNum (amount d));
                       ("duration_months", VNum (duration_months d));
                       ("sacco", VNum (sacco d))] in
  (st2, mkRequest POST LOANS_ENDPOINT payload None None).

(** [(prev) => [response.data, ...prev]], as in [useTransactions]. *)
Definition prepend (x : value) (prev : value) : value :=
  match prev with
  | VArr elems => VArr (x :: elems)
  | VStr s => VArr (x :: chars s)
  | _ => prev
  end.

Definition applyForLoan_errorMessage (err : thrown) : value :=
  match err with
  | AxiosError _ (Some r) _ =>
      or_else
        (or_else
           (or_else
              (or_else (opt_get (data r) "message") (opt_get (data r) "error"))
              (opt_get (data r) "detail"))
           (VStr (join ", " (flat (values (or_else (data r) (VObj [])))))))
        (VStr ("Failed to apply for loan: " +:+ statusText r))
  | AxiosError _ None true =>
      VStr "Network error. Please check your connection."
  | AxiosError _ None false => VStr "Failed to apply for loan."
  | JsError m => VStr m
  | ThrownValue _ => VStr "Failed to apply for loan."
  end.

Definition applyForLoan_settle (o : outcome) (st : state)
  : state * completion :=
  let '(st1, c) :=
    match o with
    | Resolved r =>
        (setApplyError VNull (setLoans (prepend (data r) (loans st)) st),
         Returned (data r))
    | Rejected err =>
        (setApplyError (applyForLoan_errorMessage err) st, Threw err)
    end in
  (setIsApplying false st1, c).

End UseLoans.

(** ** [useProfile] (hooks/useServices.ts, third unit) *)

Module UseProfile.
Import Js.

Record state : Type := mkState {
  profile : value;
  isLoading : bool;
  isUpdating : bool;
  isCreating : bool;
  error : value;
  updateError : value;
  createError : value
}.

Definition initial : state :=
  mkState VNull false false false VNull VNull VNull.

Definition setProfile (v : value) (st : state) : state :=
  mkState v (isLoading st) (isUpdating st) (isCreating st) (error st)
          (updateError st) (createError st).

Definition setIsLoading (b : bool) (st : state) : state :=
  mkState (profile st) b (isUpdating st) (isCreating st) (error st)
          (updateError st) (createError st).

Definition setIsUpdating (b : bool) (st : state) : state :=
  mkState (profile st) (isLoading st) b (isCreating st) (error st)
          (updateError st) (createError st).

Definition setIsCreating (b : bool) (st : state) : state :=
  mkState (profile st) (isLoading st) (isUpdating st) b (error st)
          (updateError st) (createError st).

Definition setError (v : value) (st : state) : state :=
  mkState (profile st) (isLoading st) (isUpdating st) (isCreating st) v
          (updateError st) (createError st).

Definition setUpdateError (v : value) (st : state) : state :=
  mkState (profile st) (isLoading st) (isUpdating st) (isCreating st)
          (error st) v (createError st).

Definition setCreateError (v : value) (st : state) : state :=
  mkState (profile st) (isLoading st) (isUpdating st) (isCreating st)
          (error st) (updateError st) v.

(** What [toast] was called with; the toasts live in the toast provider,
    not in this hook. *)
Record toast_call : Type := mkToast {
  title : string;
  description : value;
  variant : string
}.

Record ProfileData : Type := mkProfileData {
  phone_number : string;
  bio : string
}.

Definition PROFILES_ENDPOINT : string := "/accounts/profiles/".

Definition fetchProfile_start (st : state) : state * request :=
  let st1 := setIsLoading true st in
  let st2 := setError VNull st1 in
  (st2, mkRequest GET PROFILES_ENDPOINT VUndefined None None).

Definition fetchProfile_errorMessage (err : thrown) : value :=
  match err with
  | AxiosError _ (Some r) _ =>
      or_else
        (or_else
           (or_else (opt_get (data r) "message") (opt_get (data r) "error"))
           (opt_get (data r) "detail"))
        (VStr ("Failed to fetch profile: " +:+ statusText r))
  | AxiosError _ None true =>
      VStr "Network error. Please check your connection."
  | AxiosError _ None false => VStr "Failed to fetch profile."
  | JsError m => VStr m
  | ThrownValue _ => VStr "Failed to fetch profile."
  end.

Definition is404 (err : thrown) : bool :=
  match err with
  | AxiosError _ (Some r) _ => Z.eqb (status r) 404
  | _ => false
  end.

Definition fetchProfile_settle (o : outcome) (st : state) : state :=
  let st1 :=
    match o with
    | Resolved r => setError VNull (setProfile (data r) st)
    | Rejected err =>
        if is404 err then setError VNull (setProfile VNull st)
        else setProfile VNull (setError (fetchProfile_errorMessage err) st)
    end in
  setIsLoading false st1.

Definition profile_payload (d : ProfileData) : value :=
  VObj [("phone_number", VStr (phone_number d)); ("bio", VStr (bio d))].

Definition updateProfile_start (d : ProfileData) (st : state)
  : state * request :=
  let st1 := setIsUpdating true st in
  let st2 := setUpdateError VNull st1 in
  (st2, mkRequest PUT PROFILES_ENDPOINT (profile_payload d) None None).

(** [Array.isArray(f) ? f[0] : f] *)
Definition first_if_array (f : value) : value :=
  if isArray f then index0 f else f.

(** One entry of the [validationErrors] join. *)
Definition validation_pair (kv : string * value) : string :=
  let '(key, v) := kv in
  if isArray v then key +:+ ": " +:+ toString (index0 v)
  else key +:+ ": " +:+ toString v.

Definition updateProfile_errorMessage (err : thrown) : value :=
  match err with
  | AxiosError _ (Some r) _ =>
      let responseData := data r in
      if truthy (opt_get responseData "phone_number") then
        first_if_array (opt_get responseData "phone_number")
      else if truthy (opt_get responseData "bio") then
        first_if_array (opt_get responseData "bio")
      else if truthy (opt_get responseData "non_field_errors") then
        first_if_array (opt_get responseData "non_field_errors")
      else if truthy (opt_get responseData "detail") then
        opt_get responseData "detail"
      else if truthy (opt_get responseData "message") then
        opt_get responseData "message"
      else if truthy (opt_get responseData "error") then
        opt_get responseData "error"
      else if isString responseData then responseData
      else
        let validationErrors :=
          join_strings ", "
            (map validation_pair (entries (or_else responseData (VObj [])))) in
        if truthy (VStr validationErrors) then VStr validationErrors
        else VStr ("Failed to update profile: " +:+
                   toString (or_else (VStr (statusText r))
                                     (VStr "Unknown error")))
  | AxiosError _ None true =>
      VStr "Network error. Please check your connection."
  | AxiosError _ None false => VStr "Failed to update profile."
  | JsError m => VStr m
  | ThrownValue _ => VStr "Failed to update profile."
  end.

Definition updateProfile_settle (o : outcome) (st : state)
                                (toasts : list toast_call)
  : state * list toast_call * completion :=
  let '(st1, toasts1, c) :=
    match o with
    | Resolved r =>
        (setUpdateError VNull (setProfile (data r) st),
         (toasts ++ [mkToast "Success" (VStr "Profile updated successfully")
                             "success"])%list,
         Returned (data r))
    | Rejected err =>
        let errorMessage := updateProfile_errorMessage err in
        (setUpdateError errorMessage st,
         (toasts ++ [mkToast "Error" errorMessage "error"])%list,
         Threw err)
    end in
  (setIsUpdating false st1, toasts1, c).

Definition createProfile_start (d : ProfileData) (st : state)
  : state * request :=
  let st1 := setIsCreating true st in
  let st2 := setCreateError VNull st1 in
  (st2, mkRequest POST PROFILES_ENDPOINT (profile_payload d) None None).

Definition createProfile_errorMessage (err : thrown) : value :=
  match err with
  | AxiosError _ (Some r) _ =>
      or_else
        (or_else
           (or_else
              (or_else (opt_get (data r) "message") (opt_get (data r) "error"))
              (opt_get (data r) "detail"))
           (VStr (join ", " (flat (values (or_else (data r) (VObj [])))))))
        (VStr ("Failed to create profile: " +:+ statusText r))
  | AxiosError _ None true =>
      VStr "Network error. Please check your connection."
  | AxiosError _ None false => VStr "Failed to create profile."
  | JsError m => VStr m
  | ThrownValue _ => VStr "Failed to create profile."
  end.

Definition createProfile_settle (o : outcome) (st : state)
  : state * completion :=
  let '(st1, c) :=
    match o with
    | Resolved r =>
        (setCreateError VNull (setProfile (data r) st), Returned (data r))
    | Rejected err =>
        (setCreateError (createProfile_errorMessage err) st, Threw err)
    end in
  (setIsCreating false st1, c).

End UseProfile.

(** ** The shared HTTP client (lib/axios.ts) *)

Module ApiClient.
Import Js.

Definition setAuthorization (h : option string) (req : request) : request :=
  mkRequest (req_method req) (req_url req) (req_body req) h (req_signal req).

(** Request interceptor: [localStorage.getItem('accessToken')], and the
    header when the token is truthy. *)
Definition request_interceptor (localStorage : gmap string string)
                               (config : request) : request :=
  match localStorage !! "accessToken" with
  | Some token =>
      if truthy (VStr token)
      then setAuthorization (Some ("Bearer " +:+ token)) config
      else config
  | None => config
  end.

(** [error.response?.status === 401]; [error] is untyped, so reading
    [.response] of a thrown [null] or [undefined] throws in turn. *)
Definition status_is_401 (error : thrown) : thrown + bool :=
  match error with
  | AxiosError _ (Some r) _ => inr (Z.eqb (status r) 401)
  | AxiosError _ None _ => inr false
  | JsError _ => inr false
  | ThrownValue v =>
      match get v "response" with
      | inl e => inl e
      | inr resp =>
          inr (match opt_get resp "status" with
               | VNum n => Z.eqb n 401
               | _ => false
               end)
      end
  end.

(** Response interceptor, fulfilled side. *)
Definition response_onFulfilled (r : response) : response := r.

(** Response interceptor, rejected side: the storage afterwards and the
    reason the returned promise rejects with. *)
Definition response_onRejected (error : thrown)
                               (localStorage : gmap string string)
  : gmap string string * thrown :=
  match status_is_401 error with
  | inl e => (localStorage, e)
  | inr true =>
      (delete "refreshToken" (delete "accessToken" localStorage), error)
  | inr false => (localStorage, error)
  end.

(** What a caller of [apiClient.get/post/put] observes when the transport
    settles with [raw]. *)
Definition apiClient_settle (raw : outcome) (localStorage : gmap string string)
  : gmap string string * outcome :=
  match raw with
  | Resolved r => (localStorage, Resolved (response_onFulfilled r))
  | Rejected e =>
      let '(ls, e') := response_onRejected e localStorage in
      (ls, Rejected e')
  end.

End ApiClient.

(** ** [useAuth] *)

Module UseAuth.
Import Js.

Record state : Type := mkState {
  isLoading : bool;
  isChangingPassword : bool;
  error : value;
  passwordChangeError : value;
  token : value;
  isAuthenticated : bool
}.

Definition initial : state := mkState false false VNull VNull VNull false.

Definition setIsLoading (b : bool) (st : state) : state :=
  mkState b (isChangingPassword st) (error st) (passwordChangeError st)
          (token st) (isAuthenticated st).

Definition setIsChangingPassword (b : bool) (st : state) : state :=
  mkState (isLoading st) b (error st) (passwordChangeError st) (token st)
          (isAuthenticated st).

Definition setError (v : value) (st : state) : state :=
  mkState (isLoading st) (isChangingPassword st) v (passwordChangeError st)
          (token st) (isAuthenticated st).

Definition setPasswordChangeError (v : value) (st : state) : state :=
  mkState (isLoading st) (isChangingPassword st) (error st) v (token st)
          (isAuthenticated st).

Definition setToken (v : value) (st : state) : state :=
  mkState (isLoading st) (isChangingPassword st) (error st)
          (passwordChangeError st) v (isAuthenticated st).

Definition setIsAuthenticated (b : bool) (st : state) : state :=
  mkState (isLoading st) (isChangingPassword st) (error st)
          (passwordChangeError st) (token st) b.

Definition API_BASE_URL : string := "https://saccosphere-atze.onrender.com/api".
Definition LOGIN_ENDPOINT : string := API_BASE_URL +:+ "/accounts/login/".
Definition REGISTER_ENDPOINT : string := API_BASE_URL +:+ "/accounts/register/".
Definition CHANGE_PASSWORD_ENDPOINT : string :=
  API_BASE_URL +:+ "/accounts/change-password/".

Definition ACCESS_TOKEN_KEY : string := "accessToken".
Definition REFRESH_TOKEN_KEY : string := "refreshToken".

(** [localStorage.setItem(k, v)] stores [String(v)]. *)
Definition setItem (k : string) (v : value) (ls : gmap string string)
  : gmap string string := <[k := toString v]> ls.

Definition removeItem (k : string) (ls : gmap string string)
  : gmap string string := delete k ls.

(** [localStorage.getItem(k)] *)
Definition getItem (k : string) (ls : gmap string string) : value :=
  match ls !! k with
  | Some s => VStr s
  | None => VNull
  end.

(** The mount effect: adopt a stored token. *)
Definition init (st : state) (ls : gmap string string) : state :=
  let storedToken := getItem ACCESS_TOKEN_KEY ls in
  if truthy storedToken
  then setIsAuthenticated true (setToken storedToken st)
  else st.

Record LoginCredentials : Type := mkLoginCredentials {
  email : string;
  password : string
}.

Record RegisterCredentials : Type := mkRegisterCredentials {
  reg_email : string;
  reg_password : string;
  first_name : string;
  last_name : string
}.

Record ChangePasswordData : Type := mkChangePasswordData {
  old_password : string;
  new_password : string;
  confirm_password : string
}.

(** [d.access || d.token || d.tokens?.access]: the first read throws when
    the body is [null] or [undefined]; on any other body none does. *)
Definition extract_accessToken (d : value) : thrown + value :=
  match get d "access" with
  | inl e => inl e
  | inr access =>
      inr (or_else (or_else access (opt_get d "token"))
                   (opt_get (opt_get d "tokens") "access"))
  end.

(** [d.refresh || d.tokens?.refresh], evaluated after the access token. *)
Definition extract_refreshToken (d : value) : value :=
  or_else (opt_get d "refresh") (opt_get (opt_get d "tokens") "refresh").

Definition login_start (credentials : LoginCredentials) (st : state)
  : state * request :=
  let st1 := setIsLoading true st in
  let st2 := setError VNull st1 in
  (st2, mkRequest POST LOGIN_ENDPOINT
          (VObj [("email", VStr (email credentials));
                 ("password", VStr (password credentials))])
          None None).

(** The [try] block of [login] after the [await]. *)
Definition login_try (o : outcome) (st : state) (ls : gmap string string)
  : state * gmap string string * option thrown :=
  match o with
  | Rejected e => (st, ls, Some e)
  | Resolved r =>
      match extract_accessToken (data r) with
      | inl e => (st, ls, Some e)
      | inr accessToken =>
          let refreshToken := extract_refreshToken (data r) in
          if negb (truthy accessToken)
          then (st, ls, Some (JsError "No access token received from server"))
          else
            let ls1 := setItem ACCESS_TOKEN_KEY accessToken ls in
            let ls2 := if truthy refreshToken
                       then setItem REFRESH_TOKEN_KEY refreshToken ls1
                       else ls1 in
            (setError VNull (setIsAuthenticated true (setToken accessToken st)),
             ls2, None)
      end
  end.

Definition login_errorMessage (err : thrown) : value :=
  match err with
  | AxiosError _ (Some r) _ =>
      let responseData := data r in
      if truthy (opt_get responseData "detail") then
        opt_get responseData "detail"
      else if truthy (opt_get responseData "message") then
        opt_get responseData "message"
      else if truthy (opt_get responseData "error") then
        opt_get responseData "error"
      else if truthy (opt_get responseData "non_field_errors") then
        (if isArray (opt_get responseData "non_field_errors")
         then index0 (opt_get responseData "non_field_errors")
         else opt_get responseData "non_field_errors")
      else if isString responseData then responseData
      else if truthy (opt_get responseData "email") then
        (if isArray (opt_get responseData "email")
         then index0 (opt_get responseData "email")
         else opt_get responseData "email")
      else if truthy (opt_get responseData "password") then
        (if isArray (opt_get responseData "password")
         then index0 (opt_get responseData "password")
         else opt_get responseData "password")
      else if Z.eqb (status r) 401 then VStr "Invalid credentials"
      else if Z.eqb (status r) 400 then
        VStr "Invalid request. Please check your credentials."
      else VStr ("Login failed: " +:+
                 toString (or_else (VStr (statusText r))
                                   (VStr "Unknown error")))
  | AxiosError _ None true =>
      VStr "Network error. Please check your connection."
  | AxiosError _ None false => VStr "An error occurred. Please try again."
  | JsError m => VStr m
  | ThrownValue _ => VStr "Invalid credentials"
  end.

(** The [catch] block of [login]: it ends in [throw new Error(errorMessage)]. *)
Definition login_catch (err : thrown) (st : state) (ls : gmap string string)
  : state * gmap string string * thrown :=
  let errorMessage := login_errorMessage err in
  let st1 := setError errorMessage st in
  let st2 := setIsAuthenticated false st1 in
  let st3 := setToken VNull st2 in
  let ls1 := removeItem ACCESS_TOKEN_KEY ls in
  let ls2 := removeItem REFRESH_TOKEN_KEY ls1 in
  (st3, ls2, JsError (error_message_of errorMessage)).

Definition login_settle (o : outcome) (st : state) (ls : gmap string string)
  : state * gmap string string * completion :=
  let '(st1, ls1, exn) := login_try o st ls in
  let '(st2, ls2, c) :=
    match exn with
    | Some err =>
        let '(st', ls', loginError) := login_catch err st1 ls1 in
        (st', ls', Threw loginError)
    | None => (st1, ls1, Returned VUndefined)
    end in
  (setIsLoading false st2, ls2, c).

Definition registerUser_start (d : RegisterCredentials) (st : state)
  : state * request :=
  let st1 := setIsLoading true st in
  let st2 := setError VNull st1 in
  (st2, mkRequest POST REGISTER_ENDPOINT
          (VObj [("email", VStr (reg_email d));
                 ("password", VStr (reg_password d));
                 ("first_name", VStr (first_name d));
                 ("last_name", VStr (last_name d))])
          None None).

Definition registerUser_try (o : outcome) (st : state)
                            (ls : gmap string string)
  : state * gmap string string * option thrown :=
  match o with
  | Rejected e => (st, ls, Some e)
  | Resolved r =>
      match extract_accessToken (data r) with
      | inl e => (st, ls, Some e)
      | inr accessToken =>
          let refreshToken := extract_refreshToken (data r) in
          let '(st1, ls1) :=
            if truthy accessToken then
              let ls1 := setItem ACCESS_TOKEN_KEY accessToken ls in
              let ls2 := if truthy refreshToken
                         then setItem REFRESH_TOKEN_KEY refreshToken ls1
                         else ls1 in
              (setIsAuthenticated true (setToken accessToken st), ls2)
            else (st, ls) in
          (setError VNull st1, ls1, None)
      end
  end.

Definition registerUser_errorMessage (err : thrown) : value :=
  match err with
  | AxiosError _ (Some r) _ =>
      or_else
        (or_else
           (or_else
              (or_else (opt_get (data r) "message") (opt_get (data r) "error"))
              (index0 (opt_get (data r) "email")))
           (index0 (opt_get (data r) "password")))
        (VStr ("Registration failed: " +:+ statusText r))
  | AxiosError _ None true =>
      VStr "Network error. Please check your connection."
  | AxiosError _ None false => VStr "Registration failed. Please try again."
  | JsError m => VStr m
  | ThrownValue _ => VStr "Registration failed. Please try again."
  end.

Definition registerUser_settle (o : outcome) (st : state)
                               (ls : gmap string string)
  : state * gmap string string * completion :=
  let '(st1, ls1, exn) := registerUser_try o st ls in
  let '(st2, c) :=
    match exn with
    | Some err =>
        (setToken VNull
           (setIsAuthenticated false
              (setError (registerUser_errorMessage err) st1)),
         Threw err)
    | None => (st1, Returned VUndefined)
    end in
  (setIsLoading false st2, ls1, c).

(** [changePassword] up to its [await]: the two local checks, then the
    token lookup inside the [try]. *)
Definition changePassword_start (d : ChangePasswordData) (st : state)
                                (ls : gmap string string)
  : state * started :=
  let st1 := setIsChangingPassword true st in
  let st2 := setPasswordChangeError VNull st1 in
  if negb (String.eqb (new_password d) (confirm_password d)) then
    (setIsChangingPassword false
       (setPasswordChangeError (VStr "New passwords do not match") st2),
     Completed (Threw (JsError "New passwords do not match")))
  else if Nat.ltb (utf16_length (new_password d)) 6 then
    (setIsChangingPassword false
       (setPasswordChangeError
          (VStr "New password must be at least 6 characters long") st2),
     Completed
       (Threw (JsError "New password must be at least 6 characters long")))
  else
    let token := getItem ACCESS_TOKEN_KEY ls in
    if negb (truthy token) then
      let err := JsError "You must be logged in to change your password" in
      (setIsChangingPassword false
         (setPasswordChangeError
            (VStr "You must be logged in to change your password") st2),
       Completed (Threw err))
    else
      (st2,
       Awaiting
         (mkRequest POST CHANGE_PASSWORD_ENDPOINT
            (VObj [("old_password", VStr (old_password d));
                   ("new_password", VStr (new_password d))])
            (Some ("Bearer " +:+ toString token)) None)).

Definition changePassword_errorMessage (err : thrown) : value :=
  match err with
  | AxiosError _ (Some r) _ =>
      or_else
        (or_else
           (or_else
              (or_else
                 (or_else
                    (or_else (opt_get (data r) "message")
                             (opt_get (data r) "error"))
                    (opt_get (data r) "detail"))
                 (index0 (opt_get (data r) "old_password")))
              (index0 (opt_get (data r) "new_password")))
           (VStr (join ", " (flat (values (or_else (data r) (VObj [])))))))
        (VStr ("Password change failed: " +:+ statusText r))
  | AxiosError _ None true =>
      VStr "Network error. Please check your connection."
  | AxiosError _ None false =>
      VStr "Failed to change password. Please try again."
  | JsError m => VStr m
  | ThrownValue _ => VStr "Failed to change password. Please try again."
  end.

Definition changePassword_settle (o : outcome) (st : state)
  : state * completion :=
  let '(st1, c) :=
    match o with
    | Resolved _ => (setPasswordChangeError VNull st, Returned VUndefined)
    | Rejected err =>
        (setPasswordChangeError (changePassword_errorMessage err) st,
         Threw err)
    end in
  (setIsChangingPassword false st1, c).

Definition logout (st : state) (ls : gmap string string)
  : state * gmap string string :=
  let ls1 := removeItem ACCESS_TOKEN_KEY ls in
  let ls2 := removeItem REFRESH_TOKEN_KEY ls1 in
  (setError VNull (setIsAuthenticated false (setToken VNull st)), ls2).

End UseAuth.

(** ** The transport under cancellation *)

Module Transport.
Import Js.

(** axios rejects a request whose signal has been aborted with a
    [CanceledError], whose code is [ERR_CANCELED] and which carries no
    response. *)
Definition canceledError : thrown := AxiosError (Some "ERR_CANCELED") None true.

(** How the request [req] settles, given the controllers' flags at that
    time and what the network would have answered. *)
Definition settle_request (heap : list bool) (req : request) (raw : outcome)
  : outcome :=
  match req_signal req with
  | Some c => if aborted c heap then Rejected canceledError else raw
  | None => raw
  end.

End Transport.

(** ** The stated extraction orders, as ordered lists of probes

    These definitions follow the wording of the specification, not the
    code; the theorems compare the hooks' message functions with them. *)

Module Probes.
Import Js.

(** A probe either applies to an error response and yields the message,
    or does not apply. *)
Definition probe : Type := response -> option value.

Fixpoint first_applicable (probes : list probe) (fallback : response -> value)
                          (r : response) : value :=
  match probes with
  | [] => fallback r
  | p :: rest =>
      match p r with
      | Some v => v
      | None => first_applicable rest fallback r
      end
  end.

(** The payload field [name], when present and truthy. *)
Definition field (name : string) : probe :=
  fun r =>
    let f := opt_get (data r) name in
    if truthy f then Some f else None.

(** A per-field error array: its first element (or the field itself when
    it is not an array). *)
Definition first_error (name : string) : probe :=
  fun r =>
    match opt_get (data r) name with
    | VArr elems => Some (index0 (VArr elems))
    | f => if truthy f then Some f else None
    end.

(** A literal string payload. *)
Definition string_payload : probe :=
  fun r =>
    match data r with
    | VStr s => Some (VStr s)
    | _ => None
    end.

Definition pair_text (kv : string * value) : string :=
  fst kv +:+ ": " +:+
  toString (match snd kv with VArr elems => index0 (VArr elems) | v => v end).

(** For an object-shaped payload, the ", "-join of "name: first error"
    over its fields, when not empty. *)
Definition joined_pairs : probe :=
  fun r =>
    match data r with
    | VObj _ | VArr _ =>
        let s := join_strings ", " (map pair_text (entries (data r))) in
        if String.eqb s EmptyString then None else Some (VStr s)
    | _ => None
    end.

(** The ", "-join of the payload's values, arrays flattened one level,
    when not empty. *)
Definition joined_values : probe :=
  fun r =>
    let s := join ", " (flat (values (or_else (data r) (VObj [])))) in
    if String.eqb s EmptyString then None else Some (VStr s).

(** "<prefix>: <status text>" *)
Definition status_fallback (prefix : string) : response -> value :=
  fun r => VStr (prefix +:+ ": " +:+ statusText r).

(** The same, with "Unknown error" for an empty status text. *)
Definition status_fallback_unknown (prefix : string) : response -> value :=
  fun r =>
    VStr (prefix +:+ ": " +:+
          (if String.eqb (statusText r) EmptyString then "Unknown error"
           else statusText r)).

(** The order stated for mutations: per-field errors of the recognised
    fields, [non_field_errors], [detail], [message], [error], the joined
    pairs, a literal string payload. *)
Definition stated_mutation_order (recognised : list string) : list probe :=
  (map first_error recognised ++
   [first_error "non_field_errors"; field "detail"; field "message";
    field "error"; joined_pairs; string_payload])%list.

(** The order the create-style mutations follow. *)
Definition create_order : list probe :=
  [field "message"; field "error"; field "detail"; joined_values].

(** The order stated for fetches, and the one the list hooks follow. *)
Definition stated_fetch_order : list probe :=
  [field "message"; field "error"; field "detail"].

Definition fetch_order : list probe := [field "message"; field "error"].

(** The first truthy candidate, in order. *)
Fixpoint first_truthy (candidates : list value) : option value :=
  match candidates with
  | [] => None
  | v :: rest => if truthy v then Some v else first_truthy rest
  end.

(** Where a login or registration response may carry its tokens. *)
Definition access_candidates (body : value) : list value :=
  [opt_get body "access"; opt_get body "token";
   opt_get (opt_get body "tokens") "access"].

Definition refresh_candidates (body : value) : list value :=
  [opt_get body "refresh"; opt_get (opt_get body "tokens") "refresh"].

End Probes.

(** ** The six list hooks side by side *)

Module ListHooks.
Import Js.

Record states : Type := mkStates {
  of_transactions : UseTransactions.state;
  of_services : UseServices.state;
  of_saccos : UseSaccoDirectory.state;
  of_providers : UsePaymentProviders.state;
  of_memberships : UseMemberships.state;
  of_loans : UseLoans.state
}.

(** The list each hook holds after its fetch settled with [o]. *)
Definition stored_lists_after (o : outcome) (s : states) : list value :=
  [ UseTransactions.transactions
      (UseTransactions.fetchMyTransactions_settle o (of_transactions s));
    UseServices.services
      (UseServices.fetchServices_settle o (of_services s));
    UseSaccoDirectory.saccos
      (UseSaccoDirectory.fetchSaccos_settle o (of_saccos s));
    UsePaymentProviders.providers
      (UsePaymentProviders.fetchProviders_settle o (of_providers s));
    UseMemberships.memberships
      (UseMemberships.fetchMemberships_settle o (of_memberships s));
    UseLoans.loans
      (UseLoans.fetchMyLoans_settle o (of_loans s)) ].

(** The [error] each of the four hooks with an error message holds after
    its fetch settled with [o]. *)
Definition recorded_errors_after (o : outcome) (s : states) : list value :=
  [ UseTransactions.error
      (UseTransactions.fetchMyTransactions_settle o (of_transactions s));
    UseSaccoDirectory.error
      (UseSaccoDirectory.fetchSaccos_settle o (of_saccos s));
    UsePaymentProviders.error
      (UsePaymentProviders.fetchProviders_settle o (of_providers s));
    UseMemberships.error
      (UseMemberships.fetchMemberships_settle o (of_memberships s)) ].

Definition initial : states :=
  mkStates UseTransactions.initial UseServices.initial
           UseSaccoDirectory.initial UsePaymentProviders.initial
           UseMemberships.initial UseLoans.initial.

(** Neither a bare array nor an object whose [results] is an array. *)
Definition other_shape (d : value) : bool :=
  negb (isArray d) && negb (isArray (opt_get d "results")).

(** Two fetches issued back to back on one hook instance, then the first
    request settling: the state while only the second request is in
    flight, the state after the first one's continuation ran, and
    whether the second request's signal is still live. *)
Definition refetch_then_stale {S : Type}
    (start : S -> list bool -> S * list bool * request)
    (settle : outcome -> S -> S)
    (st0 : S) (heap0 : list bool) (raw : outcome) : S * S * bool :=
  let '(st1, heap1, req1) := start st0 heap0 in
  let '(st2, heap2, req2) := start st1 heap1 in
  let st3 := settle (Transport.settle_request heap2 req1 raw) st2 in
  (st2, st3,
   match req_signal req2 with
   | Some c => negb (aborted c heap2)
   | None => true
   end).

End ListHooks.

(** ** What a mutation is not meant to touch *)

Module Frames.
Import Js.

(** Everything in [useTransactions] but [isCreating] and [createError]. *)
Definition of_createTransaction (st : UseTransactions.state)
  : value * bool * value * option nat :=
  (UseTransactions.transactions st, UseTransactions.isLoading st,
   UseTransactions.error st, UseTransactions.abortControllerRef st).

(** Everything in [useLoans] but [isApplying] and [applyError]. *)
Definition of_applyForLoan (st : UseLoans.state)
  : value * bool * bool * option nat :=
  (UseLoans.loans st, UseLoans.isLoading st, UseLoans.isError st,
   UseLoans.abortControllerRef st).

(** Everything in [useProfile] but [isCreating] and [createError]. *)
Definition of_createProfile (st : UseProfile.state)
  : value * bool * bool * value * value :=
  (UseProfile.profile st, UseProfile.isLoading st, UseProfile.isUpdating st,
   UseProfile.error st, UseProfile.updateError st).

(** Everything in [useProfile] but [isUpdating] and [updateError]. *)
Definition of_updateProfile (st : UseProfile.state)
  : value * bool * bool * value * value :=
  (UseProfile.profile st, UseProfile.isLoading st, UseProfile.isCreating st,
   UseProfile.error st, UseProfile.createError st).

End Frames.

(** ** Concrete inputs used by the examples *)

Module Examples.
Import Js.

(** [{count: 2, results: [1, 2]}] *)
Definition envelope : value :=
  VObj [("count", VNum 2); ("results", VArr [VNum 1; VNum 2])].

(** [{count: 1, results: "pending"}]: an object whose [results] is not an
    array. *)
Definition odd_envelope : value :=
  VObj [("count", VNum 1); ("results", VStr "pending")].

Definition ok (body : value) : response := mkResponse 200 "OK" body.

(** A request that got no response. *)
Definition network_failure : thrown := AxiosError (Some "ERR_NETWORK") None true.

(** A rejection carrying an error response. *)
Definition server_error (st : Z) (text : string) (body : value) : thrown :=
  AxiosError (Some "ERR_BAD_REQUEST") (Some (mkResponse st text body)) true.

(** A 401 as the backend sends it. *)
Definition expired : thrown :=
  server_error 401 "Unauthorized" (VObj [("detail", VStr "Token expired")]).

(** [{detail: "Insufficient funds.", message: "Transaction failed"}] *)
Definition detail_and_message : response :=
  mkResponse 400 "Bad Request"
    (VObj [("detail", VStr "Insufficient funds.");
           ("message", VStr "Transaction failed")]).

(** [{detail: "Not found."}] *)
Definition not_found : response :=
  mkResponse 404 "Not Found" (VObj [("detail", VStr "Not found.")]).

(** Six hooks that each hold a list loaded earlier. *)
Definition loaded : ListHooks.states :=
  ListHooks.mkStates
    (UseTransactions.setTransactions (VArr [VNum 1]) UseTransactions.initial)
    (UseServices.setServices (VArr [VNum 2]) UseServices.initial)
    (UseSaccoDirectory.setSaccos (VArr [VNum 3]) UseSaccoDirectory.initial)
    (UsePaymentProviders.setProviders (VArr [VNum 4])
       UsePaymentProviders.initial)
    (UseMemberships.setMemberships (VArr [VNum 5]) UseMemberships.initial)
    (UseLoans.setLoans (VArr [VNum 6]) UseLoans.initial).

(** A storage holding a session. *)
Definition stored_session : gmap string string :=
  <["refreshToken" := "R0"]> (<["accessToken" := "A0"]> ∅).

End Examples.

(** ** Extraction orders of the session hook, and repeated fetches

    Ordered probe lists for [login], [registerUser] and [changePassword],
    written after the conditional chains of [useAuth]; and the helper that
    iterates the synchronous prefix of a fetch. *)

Module Session.
Import Js.

(** [d?.name?.[0]], when truthy: the first element of an array, or the
    first character of a string. *)
Definition first_element (name : string) : Probes.probe :=
  fun r =>
    let x := index0 (opt_get (data r) name) in
    if truthy x then Some x else None.

Definition login_order : list Probes.probe :=
  [Probes.field "detail"; Probes.field "message"; Probes.field "error";
   Probes.first_error "non_field_errors"; Probes.string_payload;
   Probes.first_error "email"; Probes.first_error "password"].

(** What [login] says when no probe applies: by status. *)
Definition login_fallback : response -> value :=
  fun r =>
    if Z.eqb (status r) 401 then VStr "Invalid credentials"
    else if Z.eqb (status r) 400
    then VStr "Invalid request. Please check your credentials."
    else Probes.status_fallback_unknown "Login failed" r.


Definition changePassword_order : list Probes.probe :=
  [Probes.field "message"; Probes.field "error"; Probes.field "detail";
   first_element "old_password"; first_element "new_password";
   Probes.joined_values].

(** An outcome other than the cancellation the list hooks ignore. *)
Definition genuine (o : outcome) : bool :=
  match o with
  | Resolved _ => true
  | Rejected e => negb (isCanceled e)
  end.

(** [n] fetches issued back to back on one hook instance. *)
Fixpoint starts {S : Type}
    (start : S -> list bool -> S * list bool * request)
    (n : nat) (st : S) (heap : list bool) : S * list bool :=
  match n with
  | O => (st, heap)
  | Datatypes.S k =>
      let '(st1, heap1, _) := start st heap in
      starts start k st1 heap1
  end.

(** [createTransaction] run to completion once per response, in order. *)
Definition createTransaction_all
    (d : UseTransactions.CreateTransactionData) (rs : list response)
    (st : UseTransactions.state) : UseTransactions.state :=
  fold_left
    (fun acc r =>
       fst (UseTransactions.createTransaction_settle (Resolved r)
              (fst (UseTransactions.createTransaction_start d acc))))
    rs st.

Definition applyForLoan_all
    (d : UseLoans.ApplyForLoanData) (rs : list response)
    (st : UseLoans.state) : UseLoans.state :=
  fold_left
    (fun acc r =>
       fst (UseLoans.applyForLoan_settle (Resolved r)
              (fst (UseLoans.applyForLoan_start d acc))))
    rs st.

End Session.

(** ** The toast provider (components/ui/Toast) *)

Module ToastProvider.
Import Js.


Record Toast : Type := mkToast {
  id : string;
  title : option string;
  description : value;
  variant : option string;
  duration : Z
}.




(** [dismiss(id)], which is also what the timer of toast [id] runs. *)
Definition dismiss (gone : string) (toasts : list Toast) : list Toast :=
  List.filter (fun t => negb (String.eqb (id t) gone)) toasts.

End ToastProvider.

(** ** The route guard and the root redirect *)

Module Routes.

Inductive rendered : Type :=
| Navigate (to : string)
| Children.


(** The element of the route ["/"] in [App]. *)
Definition root_redirect (isAuthenticated : bool) : rendered :=
  Navigate (if isAuthenticated then "/dashboard/memberships" else "/login").

End Routes.

(** ** [RegisterForm] *)

Module RegisterForm.
Import Js.

(** [handleSubmit] up to the [await registerUser(formData)]: the local
    error, the auth hook's state, and whether [registerUser] was called. *)
Definition handleSubmit_start
    (formData : UseAuth.RegisterCredentials) (confirmPassword : string)
    (auth : UseAuth.state)
  : value * UseAuth.state * started :=
  let localError := VNull in
  if negb (truthy (VStr (UseAuth.reg_email formData)))
     || negb (truthy (VStr (UseAuth.reg_password formData)))
     || negb (truthy (VStr (UseAuth.first_name formData)))
     || negb (truthy (VStr (UseAuth.last_name formData)))
  then (VStr "Please fill in all fields", auth,
        Completed (Returned VUndefined))
  else if negb (String.eqb (UseAuth.reg_password formData) confirmPassword)
  then (VStr "Passwords do not match", auth, Completed (Returned VUndefined))
  else if Nat.ltb (utf16_length (UseAuth.reg_password formData)) 6
  then (VStr "Password must be at least 6 characters long", auth,
        Completed (Returned VUndefined))
  else
    let '(auth1, req) := UseAuth.registerUser_start formData auth in
    (localError, auth1, Awaiting req).


End RegisterForm.

(** ** [AccountProfilePage]: the password form *)

Module AccountProfilePage.
Import Js.

(** [handlePasswordSubmit] after [changePassword] completed.  The handler
    closes over [passwordChangeError] as it was in the render that created
    it, that is, before this submission. *)
Definition handlePasswordSubmit_finish
    (passwordChangeError : value) (passwordFormData : UseAuth.ChangePasswordData)
    (c : completion)
  : UseProfile.toast_call * UseAuth.ChangePasswordData :=
  match c with
  | Returned _ =>
      (UseProfile.mkToast "Success" (VStr "Password changed successfully!")
         "success",
       UseAuth.mkChangePasswordData EmptyString EmptyString EmptyString)
  | Threw _ =>
      (UseProfile.mkToast "Error"
         (or_else passwordChangeError
            (VStr "Failed to change password. Please try again."))
         "error",
       passwordFormData)
  end.

End AccountProfilePage.

(** ** [DataTable] (components/ui/DataTable) *)

Module Text.

(** [String.prototype.toLowerCase] on ASCII text. *)
Definition lower_ascii (c : Ascii.ascii) : Ascii.ascii :=
  let n := Ascii.nat_of_ascii c in
  if Nat.leb 65 n && Nat.leb n 90 then Ascii.ascii_of_nat (n + 32) else c.

Fixpoint toLowerCase (s : string) : string :=
  match s with
  | EmptyString => EmptyString
  | String c rest => String (lower_ascii c) (toLowerCase rest)
  end.

(** [s.includes(sub)] *)
Fixpoint includes (s sub : string) : bool :=
  if String.prefix sub s then true
  else match s with
       | EmptyString => false
       | String _ rest => includes rest sub
       end.

End Text.

Module DataTable.
Import Js.

Inductive sort_direction : Type := asc | desc.

Record SortConfig : Type := mkSortConfig {
  key : option string;
  direction : option sort_direction
}.

(** [Array.prototype.sort] with a comparator.  The sort is stable; for the
    comparators built below (an order on a key, or the constant 0) the
    stable result is the one every conforming engine returns.  It is
    written as an insertion that puts an element before the first one it
    does not follow. *)
Fixpoint insert_by {A : Type} (cmp : A -> A -> Z) (x : A) (l : list A)
  : list A :=
  match l with
  | [] => [x]
  | y :: ys => if Z.leb (cmp x y) 0 then x :: y :: ys
               else y :: insert_by cmp x ys
  end.

Definition sort_by {A : Type} (cmp : A -> A -> Z) (l : list A) : list A :=
  fold_right (insert_by cmp) [] l.

Section Table.

(** The row type, and [row[key]]. *)
Variable T : Type.
Variable field : T -> string -> value.

Record Column : Type := mkColumn {
  id : string;
  accessorKey : option string;
  accessorFn : option (T -> value);
  enableSorting : option bool
}.

Inductive SearchKey : Type :=
| ByKey (k : string)
| ByFn (f : T -> string).

Definition find_column (columnId : string) (columns : list Column)
  : option Column :=
  List.find (fun col => String.eqb (id col) columnId) columns.

(** [String(v || '').toLowerCase()] *)
Definition lowered (v : value) : string :=
  Text.toLowerCase (toString (or_else v (VStr EmptyString))).

Definition searchValue (searchKey : SearchKey) (row : T) : string :=
  match searchKey with
  | ByFn f => f row
  | ByKey k => toString (or_else (field row k) (VStr EmptyString))
  end.

(** [!searchKey] *)
Definition no_searchKey (searchKey : option SearchKey) : bool :=
  match searchKey with
  | None => true
  | Some (ByKey k) => negb (truthy (VStr k))
  | Some (ByFn _) => false
  end.

Definition filteredData (data : list T) (searchQuery : string)
                        (searchKey : option SearchKey) : list T :=
  if negb (truthy (VStr searchQuery)) || no_searchKey searchKey then data
  else
    match searchKey with
    | Some sk =>
        List.filter
          (fun row =>
             Text.includes (Text.toLowerCase (searchValue sk row))
                           (Text.toLowerCase searchQuery))
          data
    | None => data
    end.

(** The last three lines of the comparator. *)
Definition compare_strings (dir : sort_direction) (aStr bStr : string) : Z :=
  if String.ltb aStr bStr
  then (match dir with asc => (-1)%Z | desc => 1%Z end)
  else if String.ltb bStr aStr
  then (match dir with asc => 1%Z | desc => (-1)%Z end)
  else 0%Z.

Definition comparator (columns : list Column) (k : string)
                      (dir : sort_direction) (a b : T) : Z :=
  match find_column k columns with
  | None => 0%Z
  | Some column =>
      match accessorFn column with
      | Some f => compare_strings dir (lowered (f a)) (lowered (f b))
      | None =>
          match accessorKey column with
          | Some ak =>
              if truthy (VStr ak)
              then compare_strings dir (lowered (field a ak))
                                       (lowered (field b ak))
              else 0%Z
          | None => 0%Z
          end
      end
  end.

Definition sortedData (filtered : list T) (sortConfig : SortConfig)
                      (columns : list Column) : list T :=
  match key sortConfig, direction sortConfig with
  | Some k, Some dir =>
      if truthy (VStr k) then sort_by (comparator columns k dir) filtered
      else filtered
  | _, _ => filtered
  end.

(** [prev.key === columnId] *)
Definition key_is (prev : SortConfig) (columnId : string) : bool :=
  match key prev with
  | Some k => String.eqb k columnId
  | None => false
  end.

Definition handleSort (columns : list Column) (columnId : string)
                      (prev : SortConfig) : SortConfig :=
  match find_column columnId columns with
  | None => prev
  | Some column =>
      match enableSorting column with
      | Some false => prev
      | _ =>
          if key_is prev columnId then
            match direction prev with
            | Some asc => mkSortConfig (Some columnId) (Some desc)
            | Some desc => mkSortConfig None None
            | None => mkSortConfig (Some columnId) (Some asc)
            end
          else mkSortConfig (Some columnId) (Some asc)
      end
  end.

End Table.

End DataTable.

(** ** [TransactionsPage]: the status filter *)

Module TransactionsPage.
Import Js.

Record PaymentProvider : Type := mkPaymentProvider {
  provider_id : string;
  name : string;
  code : option string;
  is_active : option bool
}.

Record Transaction : Type := mkTransaction {
  id : string;
  provider : string + PaymentProvider;
  amount : Z;
  reference : string;
  status : option string;
  created_at : option string;
  updated_at : option string
}.

Definition getProviderName (transaction : Transaction) : string :=
  match provider transaction with
  | inl s => s
  | inr p => if truthy (VStr (name p)) then name p else "Unknown Provider"
  end.

(** [tx.status || ''] *)
Definition status_or_empty (tx : Transaction) : string :=
  match status tx with
  | Some s => s
  | None => EmptyString
  end.

Definition filteredTransactions (transactions : list Transaction)
                                (statusFilter : string) : list Transaction :=
  if String.eqb statusFilter "all" then transactions
  else
    List.filter
      (fun tx =>
         String.eqb (Text.toLowerCase (status_or_empty tx))
                    (Text.toLowerCase statusFilter))
      transactions.

(** [Set.prototype.add], in insertion order. *)
Definition set_add (s : string) (statuses : list string) : list string :=
  if existsb (String.eqb s) statuses then statuses
  else (statuses ++ [s])%list.

(** [Array.prototype.sort] without a comparator, on strings. *)
Definition default_compare (a b : string) : Z :=
  if String.ltb a b then (-1)%Z else if String.ltb b a then 1%Z else 0%Z.

Definition uniqueStatuses (transactions : list Transaction) : list string :=
  let statuses :=
    fold_left
      (fun acc tx =>
         match status tx with
         | Some s => if truthy (VStr s)
                     then set_add (Text.toLowerCase s) acc
                     else acc
         | None => acc
         end)
      transactions [] in
  DataTable.sort_by default_compare statuses.

(** The search key the page hands to the table. *)
Definition searchKey (transaction : Transaction) : string :=
  reference transaction +:+ " " +:+ getProviderName transaction.

End TransactionsPage.

Import Js.

Ltac unfold_fetch :=
  unfold UseTransactions.fetchMyTransactions_settle,
    UseTransactions.fetchMyTransactions_try,
    UseTransactions.fetchMyTransactions_catch,
    UseServices.fetchServices_settle, UseServices.fetchServices_try,
    UseServices.fetchServices_catch,
    UseSaccoDirectory.fetchSaccos_settle, UseSaccoDirectory.fetchSaccos_try,
    UseSaccoDirectory.fetchSaccos_catch,
    UsePaymentProviders.fetchProviders_settle,
    UsePaymentProviders.fetchProviders_try,
    UsePaymentProviders.fetchProviders_catch,
    UseMemberships.fetchMemberships_settle,
    UseMemberships.fetchMemberships_try,
    UseMemberships.fetchMemberships_catch,
    UseLoans.fetchMyLoans_settle, UseLoans.fetchMyLoans_try,
    UseLoans.fetchMyLoans_catch.

(** * Properties *)

(** ** The length of a text *)

Lemma utf16_units_le (s : string) :
  forall after_lead4 : bool, utf16_units after_lead4 s <= String.length s.
Proof.
  induction s as [| c rest IH]; intros after_lead4; simpl; [lia | ].
  destruct (is_continuation c).
  - specialize (IH false). destruct after_lead4; lia.
  - specialize (IH (is_lead4 c)). lia.
Qed.

(** A text has at most as many UTF-16 code units as UTF-8 bytes. *)
Lemma utf16_length_le (s : string) : utf16_length s <= String.length s.
Proof. apply utf16_units_le. Qed.

(** ASCII letters count one each; an accented letter takes two bytes and
    one code unit; a character outside the basic plane takes four bytes
    and two code units. *)
Example utf16_length_examples :
  utf16_length "abcdef" = 6 /\
  utf16_length "éééé" = 4 /\ String.length "éééé" = 8 /\
  utf16_length "😀" = 2 /\ String.length "😀" = 4 /\
  utf16_length "a😀é" = 4.
Proof. repeat split. Qed.

(** ** Response normalisation *)

Lemma normalize_array (l : list value) : normalize (VArr l) = inr (VArr l).
Proof. reflexivity. Qed.

Lemma normalize_results_array (fields : list (string * value)) (l : list value) :
  lookup_field "results" fields = VArr l ->
  normalize (VObj fields) = inr (VArr l).
Proof.
  intros H. unfold normalize, get. simpl. rewrite H. reflexivity.
Qed.

Lemma normalize_not_array (d : value) :
  isArray d = false ->
  normalize d =
    if nullish d then inl (typeError_read d "results")
    else inr (or_else (opt_get d "results") (VArr [])).
Proof.
  intros H. unfold normalize, get. rewrite H. destruct (nullish d); reflexivity.
Qed.

Lemma isCanceled_typeError (d : value) (k : string) :
  isCanceled (typeError_read d k) = false.
Proof. reflexivity. Qed.

Lemma nullish_opt_get (d : value) (k : string) :
  nullish d = true -> opt_get d k = VUndefined.
Proof. destruct d; simpl; congruence. Qed.

Lemma stored_lists_resolved (r : response) (s : ListHooks.states) :
  ListHooks.stored_lists_after (Resolved r) s =
  repeat (if isArray (data r) then data r
          else or_else (opt_get (data r) "results") (VArr [])) 6.
Proof.
  unfold ListHooks.stored_lists_after.
  unfold UseTransactions.fetchMyTransactions_settle,
    UseTransactions.fetchMyTransactions_try,
    UseServices.fetchServices_settle, UseServices.fetchServices_try,
    UseSaccoDirectory.fetchSaccos_settle, UseSaccoDirectory.fetchSaccos_try,
    UsePaymentProviders.fetchProviders_settle,
    UsePaymentProviders.fetchProviders_try,
    UseMemberships.fetchMemberships_settle,
    UseMemberships.fetchMemberships_try,
    UseLoans.fetchMyLoans_settle, UseLoans.fetchMyLoans_try.
  destruct (isArray (data r)) eqn:Harr.
  - destruct (data r) eqn:Hd; try discriminate. reflexivity.
  - rewrite (normalize_not_array _ Harr).
    destruct (nullish (data r)) eqn:Hn.
    + rewrite (nullish_opt_get _ "results" Hn). reflexivity.
    + reflexivity.
Qed.

Lemma Forall_repeat_intro {A : Type} (P : A -> Prop) (x : A) (n : nat) :
  P x -> Forall P (repeat x n).
Proof. intros H. induction n; simpl; constructor; assumption. Qed.

(** C1 (as amended).  After a fetch resolved with body [d], each of the six
    list hooks holds: [d] itself when [d] is a bare array; the inner array
    when [d] is an object whose [results] is an array; the empty list when
    [d] is not an array and has no truthy [results] property (this covers
    a [null] body, which goes through the error path); and otherwise the
    [results] property as it is, whatever it holds. *)
Theorem fetch_stores_normalized_list (r : response) (s : ListHooks.states) :
  Forall (fun stored =>
    (forall l, data r = VArr l -> stored = VArr l) /\
    (forall fields l, data r = VObj fields ->
       lookup_field "results" fields = VArr l -> stored = VArr l) /\
    (isArray (data r) = false ->
       truthy (opt_get (data r) "results") = false -> stored = VArr []) /\
    (isArray (data r) = false ->
       truthy (opt_get (data r) "results") = true ->
       stored = opt_get (data r) "results"))
    (ListHooks.stored_lists_after (Resolved r) s).
Proof.
  rewrite stored_lists_resolved. apply Forall_repeat_intro.
  repeat split.
  - intros l Hd. rewrite Hd. reflexivity.
  - intros fields l Hd Hres. rewrite Hd. simpl. rewrite Hres. reflexivity.
  - intros Harr Hres. rewrite Harr. unfold or_else. rewrite Hres. reflexivity.
  - intros Harr Hres. rewrite Harr. unfold or_else. rewrite Hres. reflexivity.
Qed.

Lemma fetch_stores_normalized_list_witness :
  Forall (fun stored => stored = VArr [VNum 1; VNum 2])
    (ListHooks.stored_lists_after (Resolved (Examples.ok Examples.envelope))
       ListHooks.initial).
Proof.
  eapply Forall_impl;
    [ apply (fetch_stores_normalized_list (Examples.ok Examples.envelope)
               ListHooks.initial) | ].
  intros stored (_ & H & _). apply (H _ _ eq_refl eq_refl).
Defined.

(** C1, as stated, fails: the body [{count: 1, results: "pending"}] is
    neither a bare array nor an envelope around an array, yet every list
    hook stores the string ["pending"], not the empty list. *)
Lemma fetch_other_shape_not_emptied :
  ListHooks.other_shape Examples.odd_envelope = true /\
  Forall (fun stored => stored = VStr "pending" /\ stored <> VArr [])
    (ListHooks.stored_lists_after (Resolved (Examples.ok Examples.odd_envelope))
       ListHooks.initial).
Proof.
  split; [reflexivity | ].
  repeat constructor; discriminate.
Qed.

(** ** Failed fetches *)

Lemma or_else_truthy_r (a b : value) :
  truthy b = true -> truthy (or_else a b) = true.
Proof.
  intros Hb. unfold or_else. destruct (truthy a) eqn:Ha; assumption.
Qed.

Lemma truthy_not_nullish (v : value) : truthy v = true -> nullish v = false.
Proof. destruct v; simpl; congruence. Qed.

Lemma truthy_JsError_message (m : string) :
  JsError m <> JsError EmptyString -> truthy (VStr m) = true.
Proof.
  intros Hne. simpl. destruct (String.eqb_spec m EmptyString) as [-> | Hm].
  - contradiction.
  - reflexivity.
Qed.

Ltac message_recorded :=
  match goal with
  | |- forall e : thrown, _ =>
      intros [code [r | ] [ | ] | m | v]; simpl;
      (split;
       [ try reflexivity; apply truthy_not_nullish, or_else_truthy_r;
         reflexivity
       | intros Hne; try reflexivity;
         try (apply or_else_truthy_r; reflexivity);
         apply truthy_JsError_message; exact Hne ])
  end.

(** What the four message hooks record is never [null] or [undefined], and
    it is a truthy value (which the pages test before they show it) for
    every error but an [Error] with an empty message. *)
Lemma fetchMyTransactions_errorMessage_recorded :
  forall e : thrown,
    nullish (UseTransactions.fetchMyTransactions_errorMessage e) = false /\
    (e <> JsError EmptyString ->
     truthy (UseTransactions.fetchMyTransactions_errorMessage e) = true).
Proof. message_recorded. Qed.

Lemma fetchSaccos_errorMessage_recorded :
  forall e : thrown,
    nullish (UseSaccoDirectory.fetchSaccos_errorMessage e) = false /\
    (e <> JsError EmptyString ->
     truthy (UseSaccoDirectory.fetchSaccos_errorMessage e) = true).
Proof. message_recorded. Qed.

Lemma fetchProviders_errorMessage_recorded :
  forall e : thrown,
    nullish (UsePaymentProviders.fetchProviders_errorMessage e) = false /\
    (e <> JsError EmptyString ->
     truthy (UsePaymentProviders.fetchProviders_errorMessage e) = true).
Proof. message_recorded. Qed.

Lemma fetchMemberships_errorMessage_recorded :
  forall e : thrown,
    nullish (UseMemberships.fetchMemberships_errorMessage e) = false /\
    (e <> JsError EmptyString ->
     truthy (UseMemberships.fetchMemberships_errorMessage e) = true).
Proof. message_recorded. Qed.

(** C10.  A fetch that fails with anything but a cancellation leaves each
    of the six list hooks with the empty list and with the error recorded:
    [isError] is true for services and loans, and the four other hooks hold
    the message extracted from the error, which is never [null] or
    [undefined], and is truthy unless the failure is an [Error] with an
    empty message. *)
Theorem failed_fetch_empties_list (e : thrown) (s : ListHooks.states) :
  isCanceled e = false ->
  Forall (fun stored => stored = VArr [])
    (ListHooks.stored_lists_after (Rejected e) s) /\
  UseTransactions.error
    (UseTransactions.fetchMyTransactions_settle (Rejected e)
       (ListHooks.of_transactions s))
    = UseTransactions.fetchMyTransactions_errorMessage e /\
  UseServices.isError
    (UseServices.fetchServices_settle (Rejected e) (ListHooks.of_services s))
    = true /\
  UseSaccoDirectory.error
    (UseSaccoDirectory.fetchSaccos_settle (Rejected e)
       (ListHooks.of_saccos s))
    = UseSaccoDirectory.fetchSaccos_errorMessage e /\
  UsePaymentProviders.error
    (UsePaymentProviders.fetchProviders_settle (Rejected e)
       (ListHooks.of_providers s))
    = UsePaymentProviders.fetchProviders_errorMessage e /\
  UseMemberships.error
    (UseMemberships.fetchMemberships_settle (Rejected e)
       (ListHooks.of_memberships s))
    = UseMemberships.fetchMemberships_errorMessage e /\
  UseLoans.isError
    (UseLoans.fetchMyLoans_settle (Rejected e) (ListHooks.of_loans s))
    = true /\
  Forall (fun recorded =>
            nullish recorded = false /\
            (e <> JsError EmptyString -> truthy recorded = true))
    (ListHooks.recorded_errors_after (Rejected e) s).
Proof.
  intros Hc.
  pose proof (fetchMyTransactions_errorMessage_recorded e) as Ht.
  pose proof (fetchSaccos_errorMessage_recorded e) as Hs.
  pose proof (fetchProviders_errorMessage_recorded e) as Hp.
  pose proof (fetchMemberships_errorMessage_recorded e) as Hm.
  unfold ListHooks.stored_lists_after, ListHooks.recorded_errors_after.
  unfold_fetch.
  rewrite Hc. simpl.
  split; [repeat constructor | ].
  repeat (split; [reflexivity | ]).
  repeat (constructor; [assumption | ]). constructor.
Qed.

Lemma failed_fetch_empties_list_witness :
  UseTransactions.transactions (ListHooks.of_transactions Examples.loaded)
  = VArr [VNum 1] /\
  Forall (fun stored => stored = VArr [])
    (ListHooks.stored_lists_after (Rejected Examples.network_failure)
       Examples.loaded) /\
  Forall (fun recorded => truthy recorded = true)
    (ListHooks.recorded_errors_after (Rejected Examples.network_failure)
       Examples.loaded).
Proof.
  split; [reflexivity | ].
  destruct (failed_fetch_empties_list Examples.network_failure Examples.loaded
              eq_refl) as (Hlists & _ & _ & _ & _ & _ & _ & Herrors).
  split; [exact Hlists | ].
  apply (Forall_impl _ _ _ Herrors).
  intros recorded (_ & Htruthy). apply Htruthy. discriminate.
Defined.

(** The message a lost connection leaves in the four hooks, and the flag in
    the two others, over lists that were loaded before. *)
Example failed_fetch_records_network_error :
  ListHooks.recorded_errors_after (Rejected Examples.network_failure)
    Examples.loaded
  = [VStr "Network error. Please check your connection.";
     VStr "Network error. Please check your connection.";
     VStr "Network error. Please check your connection.";
     VStr "Network error. Please check your connection."] /\
  UseServices.isError
    (UseServices.fetchServices_settle (Rejected Examples.network_failure)
       (ListHooks.of_services Examples.loaded)) = true /\
  UseLoans.isError
    (UseLoans.fetchMyLoans_settle (Rejected Examples.network_failure)
       (ListHooks.of_loans Examples.loaded)) = true.
Proof. repeat split. Qed.

(** ** A superseded fetch *)

Lemma aborted_after_refetch (heap : list bool) :
  aborted (List.length heap)
    (abort (List.length heap) (heap ++ [false]) ++ [false])%list = true /\
  aborted (List.length (abort (List.length heap) (heap ++ [false])%list))
    (abort (List.length heap) (heap ++ [false]) ++ [false])%list = false.
Proof.
  unfold abort, aborted.
  split.
  - rewrite lookup_app_l.
    + rewrite list_lookup_insert_eq; [reflexivity | ].
      rewrite length_app. simpl. lia.
    + rewrite length_insert, length_app. simpl. lia.
  - rewrite lookup_app_r by lia.
    rewrite Nat.sub_diag. reflexivity.
Qed.

(** The continuation of a cancelled fetch leaves the list and the error
    alone, but its [finally] block still clears [isLoading]. *)
Lemma fetchMyTransactions_settle_canceled (e : thrown)
                                          (st : UseTransactions.state) :
  isCanceled e = true ->
  UseTransactions.fetchMyTransactions_settle (Rejected e) st
  = UseTransactions.setIsLoading false st.
Proof. intros H. unfold_fetch. rewrite H. reflexivity. Qed.

Lemma fetchServices_settle_canceled (e : thrown) (st : UseServices.state) :
  isCanceled e = true ->
  UseServices.fetchServices_settle (Rejected e) st
  = UseServices.setIsLoading false st.
Proof. intros H. unfold_fetch. rewrite H. reflexivity. Qed.

Lemma fetchSaccos_settle_canceled (e : thrown) (st : UseSaccoDirectory.state) :
  isCanceled e = true ->
  UseSaccoDirectory.fetchSaccos_settle (Rejected e) st
  = UseSaccoDirectory.setIsLoading false st.
Proof. intros H. unfold_fetch. rewrite H. reflexivity. Qed.

Lemma fetchProviders_settle_canceled (e : thrown)
                                     (st : UsePaymentProviders.state) :
  isCanceled e = true ->
  UsePaymentProviders.fetchProviders_settle (Rejected e) st
  = UsePaymentProviders.setIsLoading false st.
Proof. intros H. unfold_fetch. rewrite H. reflexivity. Qed.

Lemma fetchMemberships_settle_canceled (e : thrown)
                                       (st : UseMemberships.state) :
  isCanceled e = true ->
  UseMemberships.fetchMemberships_settle (Rejected e) st
  = UseMemberships.setIsLoading false st.
Proof. intros H. unfold_fetch. rewrite H. reflexivity. Qed.

Lemma fetchMyLoans_settle_canceled (e : thrown) (st : UseLoans.state) :
  isCanceled e = true ->
  UseLoans.fetchMyLoans_settle (Rejected e) st
  = UseLoans.setIsLoading false st.
Proof. intros H. unfold_fetch. rewrite H. reflexivity. Qed.

(** C2, evaluated on the code.  On any instance of each of the six list
    hooks, issue a fetch, issue a second one before the first settles, and
    let the first request settle (it was aborted, so it rejects with a
    cancellation whatever the network answered).  Before that settlement
    [isLoading] is true and the second request is live; after it the list
    and the error are as before but [isLoading] is false, although the
    second request is still in flight: the [finally] block runs on the
    early [return] of the cancellation branch. *)
Theorem stale_cancellation_clears_isLoading
    (s : ListHooks.states) (heap0 : list bool) (raw : outcome) :
  (let '(st2, st3, live) :=
     ListHooks.refetch_then_stale UseTransactions.fetchMyTransactions_start
       UseTransactions.fetchMyTransactions_settle
       (ListHooks.of_transactions s) heap0 raw in
   UseTransactions.isLoading st2 = true /\ live = true /\
   UseTransactions.isLoading st3 = false /\
   UseTransactions.transactions st3 = UseTransactions.transactions st2 /\
   UseTransactions.error st3 = UseTransactions.error st2) /\
  (let '(st2, st3, live) :=
     ListHooks.refetch_then_stale UseServices.fetchServices_start
       UseServices.fetchServices_settle (ListHooks.of_services s) heap0 raw in
   UseServices.isLoading st2 = true /\ live = true /\
   UseServices.isLoading st3 = false /\
   UseServices.services st3 = UseServices.services st2 /\
   UseServices.isError st3 = UseServices.isError st2) /\
  (let '(st2, st3, live) :=
     ListHooks.refetch_then_stale UseSaccoDirectory.fetchSaccos_start
       UseSaccoDirectory.fetchSaccos_settle (ListHooks.of_saccos s)
       heap0 raw in
   UseSaccoDirectory.isLoading st2 = true /\ live = true /\
   UseSaccoDirectory.isLoading st3 = false /\
   UseSaccoDirectory.saccos st3 = UseSaccoDirectory.saccos st2 /\
   UseSaccoDirectory.error st3 = UseSaccoDirectory.error st2) /\
  (let '(st2, st3, live) :=
     ListHooks.refetch_then_stale UsePaymentProviders.fetchProviders_start
       UsePaymentProviders.fetchProviders_settle (ListHooks.of_providers s)
       heap0 raw in
   UsePaymentProviders.isLoading st2 = true /\ live = true /\
   UsePaymentProviders.isLoading st3 = false /\
   UsePaymentProviders.providers st3 = UsePaymentProviders.providers st2 /\
   UsePaymentProviders.error st3 = UsePaymentProviders.error st2) /\
  (let '(st2, st3, live) :=
     ListHooks.refetch_then_stale UseMemberships.fetchMemberships_start
       UseMemberships.fetchMemberships_settle (ListHooks.of_memberships s)
       heap0 raw in
   UseMemberships.isLoading st2 = true /\ live = true /\
   UseMemberships.isLoading st3 = false /\
   UseMemberships.memberships st3 = UseMemberships.memberships st2 /\
   UseMemberships.error st3 = UseMemberships.error st2) /\
  (let '(st2, st3, live) :=
     ListHooks.refetch_then_stale UseLoans.fetchMyLoans_start
       UseLoans.fetchMyLoans_settle (ListHooks.of_loans s) heap0 raw in
   UseLoans.isLoading st2 = true /\ live = true /\
   UseLoans.isLoading st3 = false /\
   UseLoans.loans st3 = UseLoans.loans st2 /\
   UseLoans.isError st3 = UseLoans.isError st2).
Proof.
  destruct s as [[? ? ? ? ? r1] [? ? ? r2] [? ? ? r3] [? ? ? r4] [? ? ? r5]
                 [? ? ? ? ? r6]].
  unfold ListHooks.refetch_then_stale, Transport.settle_request.
  unfold UseTransactions.fetchMyTransactions_start,
    UseServices.fetchServices_start, UseSaccoDirectory.fetchSaccos_start,
    UsePaymentProviders.fetchProviders_start,
    UseMemberships.fetchMemberships_start, UseLoans.fetchMyLoans_start.
  cbn -[abort aborted abort_current].
  repeat match goal with
         | |- context [abort_current (Some ?c) ?h] =>
             change (abort_current (Some c) h) with (abort c h)
         end.
  destruct (aborted_after_refetch (abort_current r1 heap0)) as [-> ->].
  destruct (aborted_after_refetch (abort_current r2 heap0)) as [-> ->].
  destruct (aborted_after_refetch (abort_current r3 heap0)) as [-> ->].
  destruct (aborted_after_refetch (abort_current r4 heap0)) as [-> ->].
  destruct (aborted_after_refetch (abort_current r5 heap0)) as [-> ->].
  destruct (aborted_after_refetch (abort_current r6 heap0)) as [-> ->].
  repeat split.
Qed.

(** The scenario on a fresh [useTransactions]: loading before the stale
    settlement, not loading after it. *)
Example stale_cancellation_fresh_transactions :
  ListHooks.refetch_then_stale UseTransactions.fetchMyTransactions_start
    UseTransactions.fetchMyTransactions_settle UseTransactions.initial []
    (Resolved (Examples.ok (VArr [VNum 1])))
  = (UseTransactions.mkState (VArr []) true VNull false VNull (Some 1),
     UseTransactions.mkState (VArr []) false VNull false VNull (Some 1),
     true).
Proof. reflexivity. Qed.

(** ** Failed mutations *)

(** C6.  For [createTransaction], [applyForLoan], [createProfile] and
    [updateProfile]: neither the start of the mutation nor its failure
    changes anything the hook holds besides the mutation's own flag and
    error field; after the failure the flag is false, the error field holds
    the extracted message, and the original error is thrown again. *)
Theorem failed_mutation_keeps_loaded_data (e : thrown) :
  (forall d st,
     let st1 := fst (UseTransactions.createTransaction_start d st) in
     let '(st2, c) := UseTransactions.createTransaction_settle (Rejected e) st1 in
     Frames.of_createTransaction st1 = Frames.of_createTransaction st /\
     Frames.of_createTransaction st2 = Frames.of_createTransaction st /\
     UseTransactions.createError st2
       = UseTransactions.createTransaction_errorMessage e /\
     UseTransactions.isCreating st2 = false /\ c = Threw e) /\
  (forall d st,
     let st1 := fst (UseLoans.applyForLoan_start d st) in
     let '(st2, c) := UseLoans.applyForLoan_settle (Rejected e) st1 in
     Frames.of_applyForLoan st1 = Frames.of_applyForLoan st /\
     Frames.of_applyForLoan st2 = Frames.of_applyForLoan st /\
     UseLoans.applyError st2 = UseLoans.applyForLoan_errorMessage e /\
     UseLoans.isApplying st2 = false /\ c = Threw e) /\
  (forall d st,
     let st1 := fst (UseProfile.createProfile_start d st) in
     let '(st2, c) := UseProfile.createProfile_settle (Rejected e) st1 in
     Frames.of_createProfile st1 = Frames.of_createProfile st /\
     Frames.of_createProfile st2 = Frames.of_createProfile st /\
     UseProfile.createError st2 = UseProfile.createProfile_errorMessage e /\
     UseProfile.isCreating st2 = false /\ c = Threw e) /\
  (forall d st toasts,
     let st1 := fst (UseProfile.updateProfile_start d st) in
     let '(st2, _, c) :=
       UseProfile.updateProfile_settle (Rejected e) st1 toasts in
     Frames.of_updateProfile st1 = Frames.of_updateProfile st /\
     Frames.of_updateProfile st2 = Frames.of_updateProfile st /\
     UseProfile.updateError st2 = UseProfile.updateProfile_errorMessage e /\
     UseProfile.isUpdating st2 = false /\ c = Threw e).
Proof.
  repeat apply conj; intros; repeat split.
Qed.

(** A transaction list loaded earlier survives a rejected
    [createTransaction]. *)
Example createTransaction_failure_keeps_list :
  let st := UseTransactions.setTransactions (VArr [VNum 7; VNum 8])
              UseTransactions.initial in
  let st1 := fst (UseTransactions.createTransaction_start
                    (UseTransactions.mkCreateTransactionData "mpesa" 100 "ref")
                    st) in
  UseTransactions.transactions
    (fst (UseTransactions.createTransaction_settle
            (Rejected (Examples.server_error 400 "Bad Request"
                         (VObj [("amount", VArr [VStr "too large"])])))
            st1))
  = VArr [VNum 7; VNum 8].
Proof. reflexivity. Qed.

(** ** The response interceptor *)

(** C3.  On an error whose response has status 401 the response
    interceptor removes both token slots, leaves every other slot of the
    storage as it was, and rejects with the very error it received; the
    caller of the client observes that rejection. *)
Theorem interceptor_401_clears_tokens
    (code : option string) (r : response) (req : bool)
    (localStorage : gmap string string) :
  status r = 401%Z ->
  let error := AxiosError code (Some r) req in
  let '(ls, reason) := ApiClient.response_onRejected error localStorage in
  ls !! "accessToken" = None /\
  ls !! "refreshToken" = None /\
  (forall k, k <> "accessToken" -> k <> "refreshToken" ->
             ls !! k = localStorage !! k) /\
  reason = error /\
  ApiClient.apiClient_settle (Rejected error) localStorage
    = (ls, Rejected error).
Proof.
  intros H. unfold ApiClient.apiClient_settle, ApiClient.response_onRejected.
  simpl. rewrite H. simpl.
  repeat split.
  - rewrite lookup_delete_ne by discriminate. apply lookup_delete_eq.
  - apply lookup_delete_eq.
  - intros k H1 H2.
    rewrite lookup_delete_ne by congruence.
    rewrite lookup_delete_ne by congruence. reflexivity.
Qed.

Lemma interceptor_401_clears_tokens_witness :
  Examples.stored_session !! "accessToken" = Some "A0" /\
  fst (ApiClient.response_onRejected Examples.expired Examples.stored_session)
    !! "accessToken" = None /\
  fst (ApiClient.response_onRejected Examples.expired Examples.stored_session)
    !! "refreshToken" = None /\
  snd (ApiClient.response_onRejected Examples.expired Examples.stored_session)
  = Examples.expired.
Proof.
  pose proof (interceptor_401_clears_tokens (Some "ERR_BAD_REQUEST")
                (mkResponse 401 "Unauthorized"
                   (VObj [("detail", VStr "Token expired")]))
                true Examples.stored_session eq_refl) as H.
  cbv zeta in H.
  change (AxiosError _ _ _) with Examples.expired in H.
  destruct (ApiClient.response_onRejected _ _) as [ls reason].
  destruct H as (H1 & H2 & _ & H4 & _).
  repeat split; assumption.
Defined.

(** ** [changePassword]: the local checks *)

(** C5.  When the new password differs from its confirmation, or is shorter
    than 6 characters (its [.length], in UTF-16 code units, is below 6),
    [changePassword] completes in its synchronous prefix:
    it throws an [Error] with the mismatch message in the first case and
    with the minimum-length message otherwise, records that message in
    [passwordChangeError], resets [isChangingPassword], and issues no
    network call. *)
Theorem changePassword_rejects_locally
    (d : UseAuth.ChangePasswordData) (st : UseAuth.state)
    (ls : gmap string string) :
  UseAuth.new_password d <> UseAuth.confirm_password d \/
  utf16_length (UseAuth.new_password d) < 6 ->
  let msg := if String.eqb (UseAuth.new_password d) (UseAuth.confirm_password d)
             then "New password must be at least 6 characters long"
             else "New passwords do not match" in
  let '(st', s) := UseAuth.changePassword_start d st ls in
  s = Completed (Threw (JsError msg)) /\
  network_calls s = [] /\
  UseAuth.passwordChangeError st' = VStr msg /\
  UseAuth.isChangingPassword st' = false.
Proof.
  intros H. unfold UseAuth.changePassword_start.
  destruct (String.eqb (UseAuth.new_password d) (UseAuth.confirm_password d))
    eqn:Heq; simpl.
  - destruct H as [H | H].
    + apply String.eqb_eq in Heq. contradiction.
    + apply Nat.ltb_lt in H. rewrite H. repeat split.
  - repeat split.
Qed.

Lemma changePassword_rejects_locally_witness :
  snd (UseAuth.changePassword_start
         (UseAuth.mkChangePasswordData "old-secret" "abc12" "abc12")
         UseAuth.initial Examples.stored_session)
  = Completed
      (Threw (JsError "New password must be at least 6 characters long")) /\
  snd (UseAuth.changePassword_start
         (UseAuth.mkChangePasswordData "old-secret" "abcdef" "xyzxyz")
         UseAuth.initial Examples.stored_session)
  = Completed (Threw (JsError "New passwords do not match")).
Proof.
  split.
  - pose proof (changePassword_rejects_locally
                  (UseAuth.mkChangePasswordData "old-secret" "abc12" "abc12")
                  UseAuth.initial Examples.stored_session) as H.
    simpl in H. apply H. right. vm_compute. lia.
  - pose proof (changePassword_rejects_locally
                  (UseAuth.mkChangePasswordData "old-secret" "abcdef" "xyzxyz")
                  UseAuth.initial Examples.stored_session) as H.
    simpl in H. apply H. left. discriminate.
Defined.

(** With both checks passed and a token stored, the call is issued. *)
Example changePassword_valid_issues_request :
  network_calls
    (snd (UseAuth.changePassword_start
            (UseAuth.mkChangePasswordData "old-secret" "abcdef" "abcdef")
            UseAuth.initial Examples.stored_session))
  = [mkRequest POST UseAuth.CHANGE_PASSWORD_ENDPOINT
       (VObj [("old_password", VStr "old-secret");
              ("new_password", VStr "abcdef")])
       (Some "Bearer A0") None].
Proof. vm_compute. reflexivity. Qed.

(** The minimum length is counted as [.length] counts it: four accented
    letters are eight bytes, and still too short. *)
Example changePassword_counts_code_units :
  String.length "éééé" = 8 /\
  UseAuth.changePassword_start
    (UseAuth.mkChangePasswordData "old-secret" "éééé" "éééé")
    UseAuth.initial Examples.stored_session
  = (UseAuth.setIsChangingPassword false
       (UseAuth.setPasswordChangeError
          (VStr "New password must be at least 6 characters long")
          UseAuth.initial),
     Completed
       (Threw (JsError "New password must be at least 6 characters long"))).
Proof. split; reflexivity. Qed.

(** ** Session tokens *)

Lemma first_truthy_access (body : value) :
  Probes.first_truthy (Probes.access_candidates body) =
  let a := or_else (or_else (opt_get body "access") (opt_get body "token"))
                   (opt_get (opt_get body "tokens") "access") in
  if truthy a then Some a else None.
Proof.
  unfold Probes.access_candidates, Probes.first_truthy, or_else.
  cbv zeta.
  destruct (truthy (opt_get body "access")) eqn:H1;
    [ rewrite ?H1; reflexivity | ].
  destruct (truthy (opt_get body "token")) eqn:H2;
    [ rewrite ?H2; reflexivity | ].
  destruct (truthy (opt_get (opt_get body "tokens") "access")) eqn:H3;
    rewrite ?H3; reflexivity.
Qed.

Lemma first_truthy_refresh (body : value) :
  Probes.first_truthy (Probes.refresh_candidates body) =
  if truthy (UseAuth.extract_refreshToken body)
  then Some (UseAuth.extract_refreshToken body) else None.
Proof.
  unfold Probes.refresh_candidates, Probes.first_truthy,
    UseAuth.extract_refreshToken, or_else.
  destruct (truthy (opt_get body "refresh")) eqn:H1;
    [ rewrite ?H1; reflexivity | ].
  destruct (truthy (opt_get (opt_get body "tokens") "refresh")) eqn:H2;
    rewrite ?H2; reflexivity.
Qed.

Lemma extract_accessToken_object (fields : list (string * value)) :
  UseAuth.extract_accessToken (VObj fields) =
  inr (or_else (or_else (opt_get (VObj fields) "access")
                        (opt_get (VObj fields) "token"))
               (opt_get (opt_get (VObj fields) "tokens") "access")).
Proof. reflexivity. Qed.

Lemma extract_accessToken_non_nullish (body : value) :
  nullish body = false ->
  UseAuth.extract_accessToken body =
  inr (or_else (or_else (opt_get body "access") (opt_get body "token"))
               (opt_get (opt_get body "tokens") "access")).
Proof.
  intros Hn. unfold UseAuth.extract_accessToken, get. rewrite Hn. reflexivity.
Qed.

(** C4.  For a login or registration response with any body, let the access
    token be the first truthy one of [access], [token] and [tokens.access],
    and the refresh token the first truthy one of [refresh] and
    [tokens.refresh].  When the body is neither [null] nor [undefined]:
    with an access token, both [login] and [registerUser] return normally,
    store it under [accessToken], store the refresh token (if any) under
    [refreshToken], and set [token] and [isAuthenticated]; without one,
    [login] throws "No access token received from server" and ends
    unauthenticated, while [registerUser] returns normally and leaves
    storage, [token] and [isAuthenticated] as they were.  When the body is
    [null] or [undefined], no shape yields an access token, but reading
    [access] throws a [TypeError]: [login] fails with the text of that
    error, which is not the no-access-token message, and [registerUser]
    fails as well, with that same error, instead of succeeding. *)
Theorem login_extracts_tokens_in_order
    (s : Z) (text : string) (body : value)
    (st : UseAuth.state) (ls : gmap string string) :
  let r := mkResponse s text body in
  let persisted_refresh :=
    match Probes.first_truthy (Probes.refresh_candidates body) with
    | Some refreshToken => Some (toString refreshToken)
    | None => ls !! "refreshToken"
    end in
  let type_error :=
    "Cannot read properties of " +:+ toString body +:+ " (reading 'access')" in
  if nullish body then
    Probes.first_truthy (Probes.access_candidates body) = None /\
    type_error <> "No access token received from server" /\
    (let '(st', ls', c) := UseAuth.login_settle (Resolved r) st ls in
     c = Threw (JsError type_error) /\
     UseAuth.error st' = VStr type_error /\
     UseAuth.isAuthenticated st' = false /\
     UseAuth.token st' = VNull /\
     ls' !! "accessToken" = None /\ ls' !! "refreshToken" = None) /\
    (let '(st', ls', c) := UseAuth.registerUser_settle (Resolved r) st ls in
     c = Threw (JsError type_error) /\
     UseAuth.error st' = VStr type_error /\
     ls' = ls /\
     UseAuth.token st' = VNull /\
     UseAuth.isAuthenticated st' = false)
  else
    match Probes.first_truthy (Probes.access_candidates body) with
    | Some accessToken =>
        (let '(st', ls', c) := UseAuth.login_settle (Resolved r) st ls in
         c = Returned VUndefined /\
         ls' !! "accessToken" = Some (toString accessToken) /\
         ls' !! "refreshToken" = persisted_refresh /\
         UseAuth.token st' = accessToken /\
         UseAuth.isAuthenticated st' = true /\
         UseAuth.error st' = VNull) /\
        (let '(st', ls', c) :=
           UseAuth.registerUser_settle (Resolved r) st ls in
         c = Returned VUndefined /\
         ls' !! "accessToken" = Some (toString accessToken) /\
         ls' !! "refreshToken" = persisted_refresh /\
         UseAuth.token st' = accessToken /\
         UseAuth.isAuthenticated st' = true)
    | None =>
        (let '(st', ls', c) := UseAuth.login_settle (Resolved r) st ls in
         c = Threw (JsError "No access token received from server") /\
         UseAuth.error st' = VStr "No access token received from server" /\
         UseAuth.isAuthenticated st' = false) /\
        (let '(st', ls', c) :=
           UseAuth.registerUser_settle (Resolved r) st ls in
         c = Returned VUndefined /\
         ls' = ls /\
         UseAuth.token st' = UseAuth.token st /\
         UseAuth.isAuthenticated st' = UseAuth.isAuthenticated st)
    end.
Proof.
  cbv zeta.
  destruct (nullish body) eqn:Hn.
  - assert (Hcleared : forall m : gmap string string,
              delete "refreshToken" (delete "accessToken" m) !! "accessToken"
                = None /\
              delete "refreshToken" (delete "accessToken" m) !! "refreshToken"
                = None).
    { intros m. split.
      - rewrite lookup_delete_ne by discriminate. apply lookup_delete_eq.
      - apply lookup_delete_eq. }
    destruct body; try discriminate Hn; simpl;
      repeat split; try apply Hcleared; discriminate.
  - rewrite first_truthy_access, first_truthy_refresh. cbv zeta.
    unfold UseAuth.login_settle, UseAuth.login_try,
      UseAuth.registerUser_settle, UseAuth.registerUser_try.
    cbn [data]. rewrite (extract_accessToken_non_nullish body Hn).
    set (a := or_else _ (opt_get (opt_get body "tokens") "access")).
    set (rt := UseAuth.extract_refreshToken body).
    destruct (truthy a) eqn:Ha; simpl.
    + destruct (truthy rt) eqn:Hr; simpl; unfold UseAuth.setItem,
        UseAuth.ACCESS_TOKEN_KEY, UseAuth.REFRESH_TOKEN_KEY.
      * repeat split;
          try (rewrite lookup_insert_ne by discriminate);
          apply lookup_insert_eq.
      * repeat split;
          try apply lookup_insert_eq;
          rewrite lookup_insert_ne by discriminate; reflexivity.
    + repeat split.
Qed.

(** A JSON [null] body: no shape yields an access token, yet [login] does
    not fail with the no-access-token message but with the text of the
    [TypeError], and [registerUser] does not succeed. *)
Lemma login_null_body_is_a_type_error :
  Probes.first_truthy (Probes.access_candidates VNull) = None /\
  snd (UseAuth.login_settle (Resolved (Examples.ok VNull)) UseAuth.initial ∅)
  = Threw (JsError "Cannot read properties of null (reading 'access')") /\
  snd (UseAuth.login_settle (Resolved (Examples.ok VNull)) UseAuth.initial ∅)
  <> Threw (JsError "No access token received from server") /\
  snd (UseAuth.registerUser_settle (Resolved (Examples.ok VNull))
         UseAuth.initial ∅)
  = Threw (JsError "Cannot read properties of null (reading 'access')") /\
  snd (UseAuth.registerUser_settle (Resolved (Examples.ok VNull))
         UseAuth.initial ∅)
  <> Returned VUndefined.
Proof. repeat split; try reflexivity; discriminate. Qed.

(** The three responses named in the specification. *)
Example login_access_refresh :
  let '(st', ls', c) :=
    UseAuth.login_settle
      (Resolved (Examples.ok (VObj [("access", VStr "A"); ("refresh", VStr "R")])))
      UseAuth.initial ∅ in
  ls' !! "accessToken" = Some "A" /\ ls' !! "refreshToken" = Some "R" /\
  UseAuth.isAuthenticated st' = true /\ c = Returned VUndefined.
Proof. vm_compute. repeat split. Qed.

Example login_nested_tokens :
  let '(st', ls', c) :=
    UseAuth.login_settle
      (Resolved (Examples.ok (VObj [("tokens", VObj [("access", VStr "A")])])))
      UseAuth.initial ∅ in
  ls' !! "accessToken" = Some "A" /\ ls' !! "refreshToken" = None /\
  UseAuth.isAuthenticated st' = true.
Proof. vm_compute. repeat split. Qed.

Example login_empty_object :
  let '(st', ls', c) :=
    UseAuth.login_settle (Resolved (Examples.ok (VObj []))) UseAuth.initial ∅ in
  c = Threw (JsError "No access token received from server") /\
  UseAuth.isAuthenticated st' = false.
Proof. vm_compute. repeat split. Qed.

(** C9.  Whenever [login] fails, both token slots are absent from the
    storage afterwards, [isAuthenticated] is false and [token] is null,
    whatever session was stored before; and [login] does fail on every
    rejected request and on every response without an access token. *)
Theorem failed_login_clears_session
    (o : outcome) (st : UseAuth.state) (ls : gmap string string) :
  let '(st', ls', c) := UseAuth.login_settle o st ls in
  (forall e, c = Threw e ->
     ls' !! "accessToken" = None /\ ls' !! "refreshToken" = None /\
     UseAuth.isAuthenticated st' = false /\ UseAuth.token st' = VNull /\
     UseAuth.isLoading st' = false) /\
  (forall e, o = Rejected e ->
     c = Threw (JsError (error_message_of (UseAuth.login_errorMessage e)))) /\
  (forall r, o = Resolved r ->
     Probes.first_truthy (Probes.access_candidates (data r)) = None ->
     exists e, c = Threw e).
Proof.
  assert (Hcleared : forall m : gmap string string,
            delete "refreshToken" (delete "accessToken" m) !! "accessToken"
              = None /\
            delete "refreshToken" (delete "accessToken" m) !! "refreshToken"
              = None).
  { intros m. split.
    - rewrite lookup_delete_ne by discriminate. apply lookup_delete_eq.
    - apply lookup_delete_eq. }
  unfold UseAuth.login_settle, UseAuth.login_try.
  destruct o as [r | e0].
  - pose proof (first_truthy_access (data r)) as Hft. cbv zeta in Hft.
    unfold UseAuth.extract_accessToken, get.
    destruct (nullish (data r)) eqn:Hn.
    + simpl. repeat split; try apply Hcleared; try discriminate.
      intros r0 _ _. eexists. reflexivity.
    + set (a := or_else _ (opt_get (opt_get (data r) "tokens") "access")) in *.
      destruct (truthy a) eqn:Ha; simpl.
      * repeat split; try discriminate.
        intros r0 Heq Hnone. injection Heq as <-.
        change (Probes.first_truthy (Probes.access_candidates (data r)) = None)
          in Hnone.
        congruence.
      * repeat split; try apply Hcleared; try discriminate.
        intros r0 _ _. eexists. reflexivity.
  - simpl. repeat split; try apply Hcleared; try discriminate.
    intros e Heq. injection Heq as ->. reflexivity.
Qed.

Lemma failed_login_clears_session_witness :
  Examples.stored_session !! "accessToken" = Some "A0" /\
  snd (fst (UseAuth.login_settle (Rejected Examples.network_failure)
              (UseAuth.init UseAuth.initial Examples.stored_session)
              Examples.stored_session)) !! "accessToken" = None /\
  snd (fst (UseAuth.login_settle (Rejected Examples.network_failure)
              (UseAuth.init UseAuth.initial Examples.stored_session)
              Examples.stored_session)) !! "refreshToken" = None /\
  UseAuth.isAuthenticated
    (fst (fst (UseAuth.login_settle (Rejected Examples.network_failure)
                 (UseAuth.init UseAuth.initial Examples.stored_session)
                 Examples.stored_session))) = false.
Proof.
  pose proof (failed_login_clears_session (Rejected Examples.network_failure)
                (UseAuth.init UseAuth.initial Examples.stored_session)
                Examples.stored_session) as H.
  destruct (UseAuth.login_settle _ _ _) as [[st' ls'] c].
  destruct H as (Hclear & Hthrow & _).
  destruct (Hclear _ (Hthrow _ eq_refl)) as (H1 & H2 & H3 & _).
  repeat split; assumption.
Defined.

(** ** Error messages *)

Lemma first_error_if_array (name : string) (r : response) :
  Probes.first_error name r =
  if truthy (opt_get (data r) name)
  then Some (UseProfile.first_if_array (opt_get (data r) name))
  else None.
Proof.
  unfold Probes.first_error, UseProfile.first_if_array.
  destruct (opt_get (data r) name); reflexivity.
Qed.

Lemma validation_pair_text (kv : string * value) :
  UseProfile.validation_pair kv = Probes.pair_text kv.
Proof.
  destruct kv as [k v]. unfold UseProfile.validation_pair, Probes.pair_text.
  destruct v; reflexivity.
Qed.

Lemma map_validation_pair (l : list (string * value)) :
  map UseProfile.validation_pair l = map Probes.pair_text l.
Proof.
  induction l as [| kv l IH]; simpl; [reflexivity | ].
  rewrite validation_pair_text, IH. reflexivity.
Qed.

Lemma truthy_VStr (s : string) : truthy (VStr s) = negb (String.eqb s EmptyString).
Proof. reflexivity. Qed.

Lemma updateProfile_fallback_text (r : response) :
  VStr ("Failed to update profile: " +:+
        toString (or_else (VStr (statusText r)) (VStr "Unknown error")))
  = Probes.status_fallback_unknown "Failed to update profile" r.
Proof.
  unfold Probes.status_fallback_unknown, or_else.
  destruct (statusText r); reflexivity.
Qed.

(** [updateProfile] probes an error response in the stated order. *)
Lemma updateProfile_errorMessage_order
    (code : option string) (r : response) (req : bool) :
  UseProfile.updateProfile_errorMessage (AxiosError code (Some r) req) =
  Probes.first_applicable
    (Probes.stated_mutation_order ["phone_number"; "bio"])
    (Probes.status_fallback_unknown "Failed to update profile") r.
Proof.
  unfold UseProfile.updateProfile_errorMessage, Probes.stated_mutation_order.
  cbn [map app Probes.first_applicable].
  rewrite !first_error_if_array. unfold Probes.field.
  destruct (truthy (opt_get (data r) "phone_number")); [reflexivity | ].
  destruct (truthy (opt_get (data r) "bio")); [reflexivity | ].
  destruct (truthy (opt_get (data r) "non_field_errors")); [reflexivity | ].
  destruct (truthy (opt_get (data r) "detail")); [reflexivity | ].
  destruct (truthy (opt_get (data r) "message")); [reflexivity | ].
  destruct (truthy (opt_get (data r) "error")); [reflexivity | ].
  unfold Probes.joined_pairs, Probes.string_payload.
  rewrite map_validation_pair, truthy_VStr, updateProfile_fallback_text.
  destruct (data r) as [ | | b | n | s | elems | fields ];
    cbn [isString]; try reflexivity.
  - destruct b; reflexivity.
  - unfold or_else. cbn [truthy]. destruct (Z.eqb n 0); reflexivity.
  - cbn [or_else truthy]. destruct (String.eqb _ EmptyString); reflexivity.
  - cbn [or_else truthy]. destruct (String.eqb _ EmptyString); reflexivity.
Qed.

Lemma create_order_chain (r : response) (fallback : response -> value) :
  or_else
    (or_else
       (or_else
          (or_else (opt_get (data r) "message") (opt_get (data r) "error"))
          (opt_get (data r) "detail"))
       (VStr (join ", " (flat (values (or_else (data r) (VObj [])))))))
    (fallback r)
  = Probes.first_applicable Probes.create_order fallback r.
Proof.
  unfold Probes.create_order, Probes.first_applicable, Probes.field,
    Probes.joined_values, or_else.
  destruct (truthy (opt_get (data r) "message")) eqn:Hm;
    [ rewrite ?Hm; reflexivity | ].
  destruct (truthy (opt_get (data r) "error")) eqn:He;
    [ rewrite ?He; reflexivity | ].
  destruct (truthy (opt_get (data r) "detail")) eqn:Hd;
    [ rewrite ?Hd; reflexivity | ].
  rewrite truthy_VStr.
  destruct (String.eqb _ EmptyString); reflexivity.
Qed.

Lemma fetch_order_chain (r : response) (fallback : response -> value) :
  or_else (or_else (opt_get (data r) "message") (opt_get (data r) "error"))
          (fallback r)
  = Probes.first_applicable Probes.fetch_order fallback r.
Proof.
  unfold Probes.fetch_order, Probes.first_applicable, Probes.field, or_else.
  destruct (truthy (opt_get (data r) "message")) eqn:Hm;
    [ rewrite ?Hm; reflexivity | ].
  destruct (truthy (opt_get (data r) "error")) eqn:He;
    rewrite ?He; reflexivity.
Qed.

(** C7 (as amended).  On a failure with an error response, [updateProfile]
    builds its message by the stated order: the first error of
    [phone_number], of [bio], of [non_field_errors], then [detail],
    [message], [error], the joined "field: first error" pairs of an object
    payload, a literal string payload, and last "Failed to update profile:
    <status text or Unknown error>".  [createTransaction], [applyForLoan]
    and [createProfile] follow another order: [message], [error], [detail],
    the ", "-join of the payload's flattened values, and last "<prefix>:
    <status text>".  With no response but a request sent, all four record
    the fixed network message.  A profile update rejected with
    [{phone_number: ["too short"]}] records exactly "too short". *)
Theorem mutation_error_message_orders
    (code : option string) (r : response) (req : bool) :
  UseProfile.updateProfile_errorMessage (AxiosError code (Some r) req)
  = Probes.first_applicable
      (Probes.stated_mutation_order ["phone_number"; "bio"])
      (Probes.status_fallback_unknown "Failed to update profile") r /\
  UseTransactions.createTransaction_errorMessage (AxiosError code (Some r) req)
  = Probes.first_applicable Probes.create_order
      (Probes.status_fallback "Failed to create transaction") r /\
  UseLoans.applyForLoan_errorMessage (AxiosError code (Some r) req)
  = Probes.first_applicable Probes.create_order
      (Probes.status_fallback "Failed to apply for loan") r /\
  UseProfile.createProfile_errorMessage (AxiosError code (Some r) req)
  = Probes.first_applicable Probes.create_order
      (Probes.status_fallback "Failed to create profile") r /\
  Forall (fun msg => msg = VStr "Network error. Please check your connection.")
    [ UseProfile.updateProfile_errorMessage (AxiosError code None true);
      UseTransactions.createTransaction_errorMessage (AxiosError code None true);
      UseLoans.applyForLoan_errorMessage (AxiosError code None true);
      UseProfile.createProfile_errorMessage (AxiosError code None true) ] /\
  (forall st toasts,
     let too_short :=
       mkResponse (status r) (statusText r)
         (VObj [("phone_number", VArr [VStr "too short"])]) in
     UseProfile.updateError
       (fst (fst (UseProfile.updateProfile_settle
                    (Rejected (AxiosError code (Some too_short) req))
                    st toasts)))
     = VStr "too short").
Proof.
  split; [apply updateProfile_errorMessage_order | ].
  split; [exact (create_order_chain r
                   (Probes.status_fallback "Failed to create transaction")) | ].
  split; [exact (create_order_chain r
                   (Probes.status_fallback "Failed to apply for loan")) | ].
  split; [exact (create_order_chain r
                   (Probes.status_fallback "Failed to create profile")) | ].
  split; [repeat constructor | ].
  intros st toasts. reflexivity.
Qed.

(** C7, as stated, fails for [createTransaction]: with the payload
    [{detail: "Insufficient funds.", message: "Transaction failed"}] the
    stated order yields the [detail] text, the hook records the [message]
    text. *)
Lemma createTransaction_message_before_detail :
  Probes.first_applicable (Probes.stated_mutation_order [])
    (Probes.status_fallback "Failed to create transaction")
    Examples.detail_and_message
  = VStr "Insufficient funds." /\
  UseTransactions.createError
    (fst (UseTransactions.createTransaction_settle
            (Rejected (AxiosError (Some "ERR_BAD_REQUEST")
                         (Some Examples.detail_and_message) true))
            UseTransactions.initial))
  = VStr "Transaction failed" /\
  UseTransactions.createTransaction_errorMessage
    (AxiosError (Some "ERR_BAD_REQUEST") (Some Examples.detail_and_message) true)
  <> Probes.first_applicable (Probes.stated_mutation_order [])
       (Probes.status_fallback "Failed to create transaction")
       Examples.detail_and_message.
Proof.
  repeat split. discriminate.
Qed.

(** Further shapes on which the create-style mutations differ from the
    stated order. *)
Example createTransaction_field_errors_joined_without_names :
  UseTransactions.createTransaction_errorMessage
    (Examples.server_error 400 "Bad Request"
       (VObj [("amount", VArr [VStr "too large"; VStr "not a number"]);
              ("reference", VArr [VStr "required"])]))
  = VStr "too large, not a number, required".
Proof. reflexivity. Qed.

Example createTransaction_string_payload_split :
  UseTransactions.createTransaction_errorMessage
    (Examples.server_error 500 "Internal Server Error" (VStr "oops"))
  = VStr "o, o, p, s".
Proof. reflexivity. Qed.

Example updateProfile_string_payload :
  UseProfile.updateProfile_errorMessage
    (Examples.server_error 500 "Internal Server Error" (VStr "oops"))
  = VStr "oops".
Proof. reflexivity. Qed.

Example updateProfile_other_field :
  UseProfile.updateProfile_errorMessage
    (Examples.server_error 400 "Bad Request"
       (VObj [("user", VArr [VStr "unknown user"]); ("code", VNum 7)]))
  = VStr "user: unknown user, code: 7".
Proof. reflexivity. Qed.

(** C8 (as amended).  On a failure with an error response, the four list
    hooks that keep a message ([fetchMyTransactions], [fetchSaccos],
    [fetchProviders], [fetchMemberships]) take the payload's [message],
    else its [error], else "<prefix>: <status text>"; [detail] is not
    consulted.  With no response but a request sent they record the fixed
    network message.  ([fetchServices] and [fetchMyLoans] keep no message,
    only the [isError] flag.) *)
Theorem fetch_error_message_order
    (code : option string) (r : response) (req : bool) :
  UseTransactions.fetchMyTransactions_errorMessage
    (AxiosError code (Some r) req)
  = Probes.first_applicable Probes.fetch_order
      (Probes.status_fallback "Failed to fetch transactions") r /\
  UseSaccoDirectory.fetchSaccos_errorMessage (AxiosError code (Some r) req)
  = Probes.first_applicable Probes.fetch_order
      (Probes.status_fallback "Failed to fetch saccos") r /\
  UsePaymentProviders.fetchProviders_errorMessage
    (AxiosError code (Some r) req)
  = Probes.first_applicable Probes.fetch_order
      (Probes.status_fallback "Failed to fetch providers") r /\
  UseMemberships.fetchMemberships_errorMessage (AxiosError code (Some r) req)
  = Probes.first_applicable Probes.fetch_order
      (Probes.status_fallback "Failed to fetch memberships") r /\
  Forall (fun msg => msg = VStr "Network error. Please check your connection.")
    [ UseTransactions.fetchMyTransactions_errorMessage
        (AxiosError code None true);
      UseSaccoDirectory.fetchSaccos_errorMessage (AxiosError code None true);
      UsePaymentProviders.fetchProviders_errorMessage
        (AxiosError code None true);
      UseMemberships.fetchMemberships_errorMessage
        (AxiosError code None true) ].
Proof.
  split; [exact (fetch_order_chain r
                   (Probes.status_fallback "Failed to fetch transactions")) | ].
  split; [exact (fetch_order_chain r
                   (Probes.status_fallback "Failed to fetch saccos")) | ].
  split; [exact (fetch_order_chain r
                   (Probes.status_fallback "Failed to fetch providers")) | ].
  split; [exact (fetch_order_chain r
                   (Probes.status_fallback "Failed to fetch memberships")) | ].
  repeat constructor.
Qed.

(** C8, as stated, fails: for a 404 whose payload is
    [{detail: "Not found."}] the stated hierarchy yields "Not found.",
    while [fetchMyTransactions] and [fetchProviders] record the status-text
    fallback. *)
Lemma fetch_error_ignores_detail :
  Probes.first_applicable Probes.stated_fetch_order
    (Probes.status_fallback "Failed to fetch transactions") Examples.not_found
  = VStr "Not found." /\
  UseTransactions.error
    (UseTransactions.fetchMyTransactions_settle
       (Rejected (AxiosError (Some "ERR_BAD_REQUEST")
                    (Some Examples.not_found) true))
       UseTransactions.initial)
  = VStr "Failed to fetch transactions: Not Found" /\
  UsePaymentProviders.error
    (UsePaymentProviders.fetchProviders_settle
       (Rejected (AxiosError (Some "ERR_BAD_REQUEST")
                    (Some Examples.not_found) true))
       UsePaymentProviders.initial)
  = VStr "Failed to fetch providers: Not Found" /\
  UseTransactions.fetchMyTransactions_errorMessage
    (AxiosError (Some "ERR_BAD_REQUEST") (Some Examples.not_found) true)
  <> Probes.first_applicable Probes.stated_fetch_order
       (Probes.status_fallback "Failed to fetch transactions")
       Examples.not_found.
Proof.
  repeat split. discriminate.
Qed.

(** [fetchProfile], by contrast, does consult [detail]. *)
Example fetchProfile_reads_detail :
  UseProfile.fetchProfile_errorMessage
    (Examples.server_error 403 "Forbidden" (VObj [("detail", VStr "Not allowed.")]))
  = VStr "Not allowed.".
Proof. reflexivity. Qed.

(** * Further properties *)

(** ** The session seen by the HTTP client *)

Lemma string_eqb_empty_false (t : string) :
  t <> EmptyString -> String.eqb t EmptyString = false.
Proof. intros H. apply String.eqb_neq. exact H. Qed.

Lemma truthy_VStr_nonempty (t : string) :
  truthy (VStr t) = true -> t <> EmptyString.
Proof.
  simpl. intros H Heq. subst t. discriminate.
Qed.

Lemma request_interceptor_token
    (ls : gmap string string) (config : request) (t : string) :
  ls !! "accessToken" = Some t -> t <> EmptyString ->
  ApiClient.request_interceptor ls config
  = ApiClient.setAuthorization (Some ("Bearer " +:+ t)) config.
Proof.
  intros Hl Ht. unfold ApiClient.request_interceptor. rewrite Hl.
  simpl. rewrite (string_eqb_empty_false _ Ht). reflexivity.
Qed.

Lemma request_interceptor_no_token
    (ls : gmap string string) (config : request) :
  ls !! "accessToken" = None ->
  ApiClient.request_interceptor ls config = config.
Proof.
  intros Hl. unfold ApiClient.request_interceptor. rewrite Hl. reflexivity.
Qed.

Lemma cleared_storage_lookup (m : gmap string string) :
  delete "refreshToken" (delete "accessToken" m) !! "accessToken" = None /\
  delete "refreshToken" (delete "accessToken" m) !! "refreshToken" = None.
Proof.
  split.
  - rewrite lookup_delete_ne by discriminate. apply lookup_delete_eq.
  - apply lookup_delete_eq.
Qed.

Lemma cleared_storage_other (m : gmap string string) (k : string) :
  k <> "accessToken" -> k <> "refreshToken" ->
  delete "refreshToken" (delete "accessToken" m) !! k = m !! k.
Proof.
  intros H1 H2.
  rewrite lookup_delete_ne by congruence.
  rewrite lookup_delete_ne by congruence. reflexivity.
Qed.

(** What a login response with an access token leaves behind. *)
Lemma login_settle_with_token
    (s : Z) (text : string) (fields : list (string * value))
    (st : UseAuth.state) (ls : gmap string string) (accessToken : value) :
  Probes.first_truthy (Probes.access_candidates (VObj fields))
    = Some accessToken ->
  UseAuth.login_settle (Resolved (mkResponse s text (VObj fields))) st ls =
  (UseAuth.setIsLoading false
     (UseAuth.setError VNull
        (UseAuth.setIsAuthenticated true (UseAuth.setToken accessToken st))),
   (if truthy (UseAuth.extract_refreshToken (VObj fields))
    then UseAuth.setItem "refreshToken"
           (UseAuth.extract_refreshToken (VObj fields))
           (UseAuth.setItem "accessToken" accessToken ls)
    else UseAuth.setItem "accessToken" accessToken ls),
   Returned VUndefined).
Proof.
  rewrite first_truthy_access. cbv zeta.
  unfold UseAuth.login_settle, UseAuth.login_try.
  cbn [data]. rewrite extract_accessToken_object.
  set (a := or_else _ (opt_get (opt_get (VObj fields) "tokens") "access")).
  destruct (truthy a) eqn:Ha; [ | discriminate ].
  intros Heq. injection Heq as <-. simpl.
  destruct (truthy (UseAuth.extract_refreshToken (VObj fields)));
    reflexivity.
Qed.

Lemma access_slot_after_login
    (fields : list (string * value)) (ls : gmap string string)
    (accessToken : value) :
  (if truthy (UseAuth.extract_refreshToken (VObj fields))
   then UseAuth.setItem "refreshToken"
          (UseAuth.extract_refreshToken (VObj fields))
          (UseAuth.setItem "accessToken" accessToken ls)
   else UseAuth.setItem "accessToken" accessToken ls) !! "accessToken"
  = Some (toString accessToken).
Proof.
  unfold UseAuth.setItem.
  destruct (truthy (UseAuth.extract_refreshToken (VObj fields))).
  - rewrite lookup_insert_ne by discriminate. apply lookup_insert_eq.
  - apply lookup_insert_eq.
Qed.

(** X1.  After a login that found an access token, the request interceptor
    of the shared client puts "Bearer <token>" on the next request it sees,
    whatever the storage held before, and changes nothing else of the
    request.  (The token is stored as text; the header is written when that
    text is not empty.) *)
Theorem login_token_reaches_next_request
    (s : Z) (text : string) (fields : list (string * value))
    (st : UseAuth.state) (ls : gmap string string) (config : request)
    (accessToken : value) :
  Probes.first_truthy (Probes.access_candidates (VObj fields))
    = Some accessToken ->
  toString accessToken <> EmptyString ->
  let next :=
    ApiClient.request_interceptor
      (snd (fst (UseAuth.login_settle
                   (Resolved (mkResponse s text (VObj fields))) st ls)))
      config in
  req_authorization next = Some ("Bearer " +:+ toString accessToken) /\
  req_method next = req_method config /\ req_url next = req_url config /\
  req_body next = req_body config /\ req_signal next = req_signal config.
Proof.
  intros Hft Hne. cbv zeta.
  rewrite (login_settle_with_token s text fields st ls accessToken Hft).
  cbn [fst snd].
  rewrite (request_interceptor_token _ config (toString accessToken)
             (access_slot_after_login fields ls accessToken) Hne).
  repeat split.
Qed.

Lemma login_token_reaches_next_request_witness :
  req_authorization
    (ApiClient.request_interceptor
       (snd (fst (UseAuth.login_settle
                    (Resolved (Examples.ok (VObj [("access", VStr "A")])))
                    UseAuth.initial Examples.stored_session)))
       (mkRequest GET "/payments/transactions/" VUndefined None (Some 0)))
  = Some "Bearer A".
Proof.
  apply (login_token_reaches_next_request 200 "OK" [("access", VStr "A")]
           UseAuth.initial Examples.stored_session
           (mkRequest GET "/payments/transactions/" VUndefined None (Some 0))
           (VStr "A")).
  - reflexivity.
  - discriminate.
Defined.

(** X2.  Once the session has ended, the request interceptor adds no
    credentials.  This holds for the storage left by the response
    interceptor on a 401, by [logout], and by any failed [login]: the next
    request leaves the interceptor exactly as it entered. *)
Theorem no_authorization_after_session_end
    (st : UseAuth.state) (ls : gmap string string) (config : request) :
  (forall code r req,
     status r = 401%Z ->
     ApiClient.request_interceptor
       (fst (ApiClient.response_onRejected (AxiosError code (Some r) req) ls))
       config = config) /\
  ApiClient.request_interceptor (snd (UseAuth.logout st ls)) config = config /\
  (forall o e,
     snd (UseAuth.login_settle o st ls) = Threw e ->
     ApiClient.request_interceptor
       (snd (fst (UseAuth.login_settle o st ls))) config = config).
Proof.
  repeat apply conj.
  - intros code r req H. unfold ApiClient.response_onRejected. simpl.
    rewrite H. simpl.
    apply request_interceptor_no_token, cleared_storage_lookup.
  - apply request_interceptor_no_token.
    unfold UseAuth.logout, UseAuth.removeItem. simpl.
    apply cleared_storage_lookup.
  - intros o e. unfold UseAuth.login_settle, UseAuth.login_try.
    destruct o as [r | e0]; simpl.
    + destruct (UseAuth.extract_accessToken (data r)) as [e1 | a]; simpl.
      * intros _. apply request_interceptor_no_token.
        unfold UseAuth.removeItem. apply cleared_storage_lookup.
      * destruct (truthy a); simpl; [discriminate | ].
        intros _. apply request_interceptor_no_token.
        unfold UseAuth.removeItem. apply cleared_storage_lookup.
    + intros _. apply request_interceptor_no_token.
      unfold UseAuth.removeItem. apply cleared_storage_lookup.
Qed.

Lemma no_authorization_after_session_end_witness :
  req_authorization
    (ApiClient.request_interceptor Examples.stored_session
       (mkRequest GET "/members/memberships/" VUndefined None None))
  = Some "Bearer A0" /\
  ApiClient.request_interceptor
    (fst (ApiClient.response_onRejected Examples.expired
            Examples.stored_session))
    (mkRequest GET "/members/memberships/" VUndefined None None)
  = mkRequest GET "/members/memberships/" VUndefined None None.
Proof.
  split; [reflexivity | ].
  destruct (no_authorization_after_session_end UseAuth.initial
              Examples.stored_session
              (mkRequest GET "/members/memberships/" VUndefined None None))
    as (H401 & _ & _).
  exact (H401 (Some "ERR_BAD_REQUEST")
           (mkResponse 401 "Unauthorized"
              (VObj [("detail", VStr "Token expired")]))
           true eq_refl).
Defined.

(** ** [logout], reloads and failed registrations *)

Lemma cleared_storage_idem (m : gmap string string) :
  delete "refreshToken"
    (delete "accessToken" (delete "refreshToken" (delete "accessToken" m)))
  = delete "refreshToken" (delete "accessToken" m).
Proof.
  apply map_eq. intros k.
  destruct (decide (k = "refreshToken")) as [-> | Hr].
  - rewrite !lookup_delete_eq. reflexivity.
  - rewrite (lookup_delete_ne _ "refreshToken" k) by congruence.
    destruct (decide (k = "accessToken")) as [-> | Ha].
    + rewrite lookup_delete_eq.
      rewrite (lookup_delete_ne _ "refreshToken" "accessToken")
        by discriminate.
      rewrite lookup_delete_eq. reflexivity.
    + rewrite (lookup_delete_ne _ "accessToken" k) by congruence.
      reflexivity.
Qed.

Lemma init_without_token (ls : gmap string string) :
  ls !! "accessToken" = None -> UseAuth.init UseAuth.initial ls = UseAuth.initial.
Proof.
  intros H. unfold UseAuth.init, UseAuth.getItem, UseAuth.ACCESS_TOKEN_KEY.
  rewrite H. reflexivity.
Qed.

Lemma init_with_token (ls : gmap string string) (t : string) :
  ls !! "accessToken" = Some t -> t <> EmptyString ->
  UseAuth.init UseAuth.initial ls
  = UseAuth.setIsAuthenticated true (UseAuth.setToken (VStr t) UseAuth.initial).
Proof.
  intros H Ht. unfold UseAuth.init, UseAuth.getItem, UseAuth.ACCESS_TOKEN_KEY.
  rewrite H. simpl. rewrite (string_eqb_empty_false _ Ht). reflexivity.
Qed.

(** X3.  [logout] removes both token slots and nothing else from the
    storage, resets [token], [isAuthenticated] and [error], and leaves the
    loading flags and the password-change error alone.  Logging out again
    changes nothing, and a hook mounted on the storage it leaves starts
    unauthenticated. *)
Theorem logout_clears_session (st : UseAuth.state) (ls : gmap string string) :
  let '(st', ls') := UseAuth.logout st ls in
  ls' !! "accessToken" = None /\ ls' !! "refreshToken" = None /\
  (forall k, k <> "accessToken" -> k <> "refreshToken" ->
             ls' !! k = ls !! k) /\
  UseAuth.token st' = VNull /\ UseAuth.isAuthenticated st' = false /\
  UseAuth.error st' = VNull /\
  UseAuth.isLoading st' = UseAuth.isLoading st /\
  UseAuth.isChangingPassword st' = UseAuth.isChangingPassword st /\
  UseAuth.passwordChangeError st' = UseAuth.passwordChangeError st /\
  UseAuth.logout st' ls' = (st', ls') /\
  UseAuth.init UseAuth.initial ls' = UseAuth.initial.
Proof.
  unfold UseAuth.logout, UseAuth.removeItem, UseAuth.ACCESS_TOKEN_KEY,
    UseAuth.REFRESH_TOKEN_KEY.
  destruct (cleared_storage_lookup ls) as [Ha Hr].
  repeat split; try assumption.
  - apply cleared_storage_other.
  - rewrite cleared_storage_idem. reflexivity.
  - apply init_without_token. exact Ha.
Qed.

Lemma logout_clears_session_witness :
  Examples.stored_session !! "accessToken" = Some "A0" /\
  snd (UseAuth.logout
         (UseAuth.init UseAuth.initial Examples.stored_session)
         (<["theme" := "dark"]> Examples.stored_session)) !! "accessToken"
  = None /\
  snd (UseAuth.logout
         (UseAuth.init UseAuth.initial Examples.stored_session)
         (<["theme" := "dark"]> Examples.stored_session)) !! "theme"
  = Some "dark".
Proof.
  pose proof (logout_clears_session
                (UseAuth.init UseAuth.initial Examples.stored_session)
                (<["theme" := "dark"]> Examples.stored_session)) as H.
  destruct (UseAuth.logout _ _) as [st' ls'].
  destruct H as (Ha & _ & Hk & _).
  split; [reflexivity | ]. split; [exact Ha | ].
  cbn [snd]. rewrite (Hk "theme") by discriminate. reflexivity.
Defined.

(** X4.  A login survives a reload: after a login that found an access
    token whose text is not empty, a hook mounted afresh on the resulting
    storage is authenticated and holds that text as its token.  (For a
    string token, the text is the token itself.) *)
Theorem login_survives_reload
    (s : Z) (text : string) (fields : list (string * value))
    (st : UseAuth.state) (ls : gmap string string) (accessToken : value) :
  Probes.first_truthy (Probes.access_candidates (VObj fields))
    = Some accessToken ->
  toString accessToken <> EmptyString ->
  let '(st', ls', c) :=
    UseAuth.login_settle (Resolved (mkResponse s text (VObj fields))) st ls in
  UseAuth.token st' = accessToken /\ UseAuth.isAuthenticated st' = true /\
  UseAuth.token (UseAuth.init UseAuth.initial ls')
    = VStr (toString accessToken) /\
  UseAuth.isAuthenticated (UseAuth.init UseAuth.initial ls') = true.
Proof.
  intros Hft Hne.
  rewrite (login_settle_with_token s text fields st ls accessToken Hft).
  rewrite (init_with_token _ (toString accessToken)
             (access_slot_after_login fields ls accessToken) Hne).
  repeat split.
Qed.

Lemma login_survives_reload_witness :
  UseAuth.token
    (UseAuth.init UseAuth.initial
       (snd (fst (UseAuth.login_settle
                    (Resolved (mkResponse 200 "OK"
                                 (VObj [("tokens", VObj [("access", VStr "A")])])))
                    UseAuth.initial ∅))))
  = VStr "A" /\
  UseAuth.isAuthenticated
    (UseAuth.init UseAuth.initial
       (snd (fst (UseAuth.login_settle
                    (Resolved (mkResponse 200 "OK"
                                 (VObj [("tokens", VObj [("access", VStr "A")])])))
                    UseAuth.initial ∅))))
  = true.
Proof.
  pose proof (login_survives_reload 200 "OK"
                [("tokens", VObj [("access", VStr "A")])]
                UseAuth.initial ∅ (VStr "A") eq_refl) as H.
  destruct (UseAuth.login_settle _ _ _) as [[st' ls'] c].
  destruct H as (_ & _ & Ht & Ha); [discriminate | ].
  split; assumption.
Defined.

(** A truthy token whose text is empty is stored as the empty string, which
    the mount effect does not adopt. *)
Example login_empty_text_token_lost_on_reload :
  let '(st', ls', c) :=
    UseAuth.login_settle (Resolved (Examples.ok (VObj [("access", VArr [])])))
      UseAuth.initial ∅ in
  UseAuth.isAuthenticated st' = true /\
  UseAuth.init UseAuth.initial ls' = UseAuth.initial.
Proof. vm_compute. split; reflexivity. Qed.

(** X5.  A failed [registerUser] throws the error it caught and drops the
    in-memory session ([isAuthenticated] false, [token] null) but, unlike a
    failed [login], does not touch the storage: a token stored before is
    still sent by the request interceptor and still authenticates a hook
    mounted afterwards. *)
Theorem failed_registration_keeps_storage
    (e : thrown) (st : UseAuth.state) (ls : gmap string string) :
  let '(st', ls', c) := UseAuth.registerUser_settle (Rejected e) st ls in
  ls' = ls /\ c = Threw e /\
  UseAuth.isAuthenticated st' = false /\ UseAuth.token st' = VNull /\
  UseAuth.error st' = UseAuth.registerUser_errorMessage e /\
  UseAuth.isLoading st' = false /\
  (forall t config,
     ls !! "accessToken" = Some t -> t <> EmptyString ->
     req_authorization (ApiClient.request_interceptor ls' config)
       = Some ("Bearer " +:+ t) /\
     UseAuth.isAuthenticated (UseAuth.init UseAuth.initial ls') = true).
Proof.
  unfold UseAuth.registerUser_settle, UseAuth.registerUser_try. simpl.
  repeat split.
  - rewrite (request_interceptor_token ls config t) by assumption.
    reflexivity.
  - rewrite (init_with_token ls t) by assumption. reflexivity.
Qed.

Lemma failed_registration_keeps_storage_witness :
  UseAuth.isAuthenticated
    (fst (fst (UseAuth.registerUser_settle
                 (Rejected Examples.network_failure)
                 (UseAuth.init UseAuth.initial Examples.stored_session)
                 Examples.stored_session))) = false /\
  UseAuth.isAuthenticated
    (UseAuth.init UseAuth.initial
       (snd (fst (UseAuth.registerUser_settle
                    (Rejected Examples.network_failure)
                    (UseAuth.init UseAuth.initial Examples.stored_session)
                    Examples.stored_session)))) = true.
Proof.
  pose proof (failed_registration_keeps_storage Examples.network_failure
                (UseAuth.init UseAuth.initial Examples.stored_session)
                Examples.stored_session) as H.
  destruct (UseAuth.registerUser_settle _ _ _) as [[st' ls'] c].
  destruct H as (_ & _ & Hauth & _ & _ & _ & Hkeep).
  split; [exact Hauth | ].
  cbn [fst snd].
  apply (Hkeep "A0" (mkRequest GET "/" VUndefined None None)).
  - reflexivity.
  - discriminate.
Defined.

(** ** [changePassword] beyond the two local checks *)

(** X6.  With matching passwords of at least 6 characters (by [.length],
    in UTF-16 code units), [changePassword] still needs a stored access
    token.  Without one (or with an empty
    one) it fails in its synchronous prefix with "You must be logged in to
    change your password" and issues no request.  With one it issues
    exactly one POST to the change-password endpoint, carrying "Bearer
    <token>" and a body with [old_password] and [new_password] only: the
    confirmation is not sent. *)
Theorem changePassword_needs_stored_token
    (d : UseAuth.ChangePasswordData) (st : UseAuth.state)
    (ls : gmap string string) :
  UseAuth.new_password d = UseAuth.confirm_password d ->
  6 <= utf16_length (UseAuth.new_password d) ->
  let '(st', s) := UseAuth.changePassword_start d st ls in
  (ls !! "accessToken" = None \/ ls !! "accessToken" = Some EmptyString ->
     s = Completed
           (Threw (JsError "You must be logged in to change your password")) /\
     network_calls s = [] /\
     UseAuth.passwordChangeError st'
       = VStr "You must be logged in to change your password" /\
     UseAuth.isChangingPassword st' = false) /\
  (forall t, ls !! "accessToken" = Some t -> t <> EmptyString ->
     network_calls s =
       [mkRequest POST UseAuth.CHANGE_PASSWORD_ENDPOINT
          (VObj [("old_password", VStr (UseAuth.old_password d));
                 ("new_password", VStr (UseAuth.new_password d))])
          (Some ("Bearer " +:+ t)) None] /\
     UseAuth.isChangingPassword st' = true /\
     UseAuth.passwordChangeError st' = VNull).
Proof.
  intros Heq Hlen. unfold UseAuth.changePassword_start.
  rewrite Heq, String.eqb_refl. cbn [negb].
  rewrite <- Heq.
  assert (Hl : Nat.ltb (utf16_length (UseAuth.new_password d)) 6 = false)
    by (apply Nat.ltb_ge; exact Hlen).
  rewrite Hl.
  unfold UseAuth.getItem, UseAuth.ACCESS_TOKEN_KEY.
  destruct (ls !! "accessToken") as [t | ] eqn:Hls.
  - destruct (String.eqb_spec t EmptyString) as [-> | Hne].
    + simpl. split.
      * intros _. repeat split.
      * intros t' Ht' Hne'. injection Ht' as <-. contradiction.
    + simpl. rewrite (string_eqb_empty_false _ Hne). simpl. split.
      * intros [H | H]; [discriminate | ]. injection H as ->. contradiction.
      * intros t' Ht' _. injection Ht' as <-. repeat split.
  - simpl. split.
    + intros _. repeat split.
    + intros t Ht. discriminate.
Qed.

Lemma changePassword_needs_stored_token_witness :
  network_calls
    (snd (UseAuth.changePassword_start
            (UseAuth.mkChangePasswordData "old-secret" "abcdef" "abcdef")
            UseAuth.initial ∅))
  = [] /\
  List.length
    (network_calls
       (snd (UseAuth.changePassword_start
               (UseAuth.mkChangePasswordData "old-secret" "abcdef" "abcdef")
               UseAuth.initial Examples.stored_session)))
  = 1.
Proof.
  split.
  - pose proof (changePassword_needs_stored_token
                  (UseAuth.mkChangePasswordData "old-secret" "abcdef" "abcdef")
                  UseAuth.initial ∅ eq_refl) as H.
    destruct (UseAuth.changePassword_start _ _ _) as [st' s].
    destruct H as [Hnone _]; [vm_compute; lia | ].
    apply Hnone. left. reflexivity.
  - pose proof (changePassword_needs_stored_token
                  (UseAuth.mkChangePasswordData "old-secret" "abcdef" "abcdef")
                  UseAuth.initial Examples.stored_session eq_refl) as H.
    destruct (UseAuth.changePassword_start _ _ _) as [st' s].
    destruct H as [_ Hsome]; [vm_compute; lia | ].
    destruct (Hsome "A0") as (Hcalls & _); [reflexivity | discriminate | ].
    cbn [snd]. rewrite Hcalls. reflexivity.
Defined.

(** Six accented letters pass the length check, four do not, although
    both are at least six bytes long. *)
Example changePassword_accented_passwords :
  List.length
    (network_calls
       (snd (UseAuth.changePassword_start
               (UseAuth.mkChangePasswordData "old-secret" "éééééé" "éééééé")
               UseAuth.initial Examples.stored_session)))
  = 1 /\
  network_calls
    (snd (UseAuth.changePassword_start
            (UseAuth.mkChangePasswordData "old-secret" "éééé" "éééé")
            UseAuth.initial Examples.stored_session))
  = [].
Proof. split; reflexivity. Qed.

Lemma first_element_truthy (name : string) (r : response) :
  Session.first_element name r =
  if truthy (index0 (opt_get (data r) name))
  then Some (index0 (opt_get (data r) name)) else None.
Proof. reflexivity. Qed.

Lemma changePassword_errorMessage_order
    (code : option string) (r : response) (req : bool) :
  UseAuth.changePassword_errorMessage (AxiosError code (Some r) req)
  = Probes.first_applicable Session.changePassword_order
      (Probes.status_fallback "Password change failed") r.
Proof.
  unfold UseAuth.changePassword_errorMessage, Session.changePassword_order,
    Probes.first_applicable, Probes.field, Probes.joined_values,
    Session.first_element, or_else.
  destruct (truthy (opt_get (data r) "message")) eqn:H1;
    [ rewrite ?H1; reflexivity | ].
  destruct (truthy (opt_get (data r) "error")) eqn:H2;
    [ rewrite ?H2; reflexivity | ].
  destruct (truthy (opt_get (data r) "detail")) eqn:H3;
    [ rewrite ?H3; reflexivity | ].
  destruct (truthy (index0 (opt_get (data r) "old_password"))) eqn:H4;
    [ rewrite ?H4; reflexivity | ].
  destruct (truthy (index0 (opt_get (data r) "new_password"))) eqn:H5;
    [ rewrite ?H5; reflexivity | ].
  rewrite truthy_VStr.
  destruct (String.eqb _ EmptyString); reflexivity.
Qed.

(** X7.  A failed password change throws the error it caught and touches
    only [passwordChangeError] and [isChangingPassword]: the session
    ([token], [isAuthenticated]) and the login error are as before.  On an
    error response the recorded message is the first applicable of
    [message], [error], [detail], the first element of [old_password], the
    first element of [new_password], the ", "-join of the payload's
    flattened values, and last "Password change failed: <status text>". *)
Theorem failed_password_change_keeps_session
    (e : thrown) (st : UseAuth.state) :
  (let '(st', c) := UseAuth.changePassword_settle (Rejected e) st in
   c = Threw e /\
   UseAuth.token st' = UseAuth.token st /\
   UseAuth.isAuthenticated st' = UseAuth.isAuthenticated st /\
   UseAuth.error st' = UseAuth.error st /\
   UseAuth.isLoading st' = UseAuth.isLoading st /\
   UseAuth.isChangingPassword st' = false /\
   UseAuth.passwordChangeError st' = UseAuth.changePassword_errorMessage e) /\
  (forall code r req,
     UseAuth.changePassword_errorMessage (AxiosError code (Some r) req)
     = Probes.first_applicable Session.changePassword_order
         (Probes.status_fallback "Password change failed") r).
Proof.
  split; [repeat split | apply changePassword_errorMessage_order].
Qed.

(** A wrong old password as the backend reports it. *)
Example changePassword_old_password_error :
  UseAuth.changePassword_errorMessage
    (Examples.server_error 400 "Bad Request"
       (VObj [("old_password", VArr [VStr "Wrong password."])]))
  = VStr "Wrong password.".
Proof. reflexivity. Qed.

(** ** Messages of [login] and [registerUser] *)

Lemma login_fallback_text (r : response) :
  VStr ("Login failed: " +:+
        toString (or_else (VStr (statusText r)) (VStr "Unknown error")))
  = Probes.status_fallback_unknown "Login failed" r.
Proof.
  unfold Probes.status_fallback_unknown, or_else.
  destruct (statusText r); reflexivity.
Qed.

Lemma first_error_plain (name : string) (r : response) :
  Probes.first_error name r =
  if truthy (opt_get (data r) name)
  then Some (if isArray (opt_get (data r) name)
             then index0 (opt_get (data r) name)
             else opt_get (data r) name)
  else None.
Proof.
  unfold Probes.first_error. destruct (opt_get (data r) name); reflexivity.
Qed.

Lemma login_errorMessage_order
    (code : option string) (r : response) (req : bool) :
  UseAuth.login_errorMessage (AxiosError code (Some r) req)
  = Probes.first_applicable Session.login_order Session.login_fallback r.
Proof.
  unfold UseAuth.login_errorMessage, Session.login_order,
    Session.login_fallback.
  cbn [Probes.first_applicable].
  rewrite !first_error_plain. unfold Probes.field, Probes.string_payload.
  rewrite login_fallback_text.
  destruct (truthy (opt_get (data r) "detail")); [reflexivity | ].
  destruct (truthy (opt_get (data r) "message")); [reflexivity | ].
  destruct (truthy (opt_get (data r) "error")); [reflexivity | ].
  destruct (truthy (opt_get (data r) "non_field_errors")); [reflexivity | ].
  destruct (data r) as [ | | b | n | s0 | elems | fields ];
    cbn [isString opt_get truthy]; try reflexivity.
  destruct (truthy (lookup_field "email" fields)); [reflexivity | ].
  destruct (truthy (lookup_field "password" fields)); reflexivity.
Qed.

(** X8.  On an error response [login] builds its message as the first
    applicable of [detail], [message], [error], the first of
    [non_field_errors], a literal string payload, the first [email] error,
    the first [password] error, and then by status: "Invalid credentials"
    for 401, "Invalid request. Please check your credentials." for 400,
    "Login failed: <status text or Unknown error>" otherwise.  Whatever
    the failure, the message is recorded in [error] and a fresh [Error]
    carrying its text is thrown (not the error that was caught). *)
Theorem login_error_message_order
    (st : UseAuth.state) (ls : gmap string string) :
  (forall code r req,
     UseAuth.login_errorMessage (AxiosError code (Some r) req)
     = Probes.first_applicable Session.login_order Session.login_fallback r) /\
  (forall e,
     let '(st', _, c) := UseAuth.login_settle (Rejected e) st ls in
     UseAuth.error st' = UseAuth.login_errorMessage e /\
     c = Threw (JsError (error_message_of (UseAuth.login_errorMessage e)))) /\
  (forall code,
     UseAuth.login_errorMessage (AxiosError code None true)
     = VStr "Network error. Please check your connection.").
Proof.
  split; [intros; apply login_errorMessage_order | ].
  split; [intros e; split; reflexivity | reflexivity].
Qed.

Example login_wrong_password_drf :
  UseAuth.login_errorMessage
    (Examples.server_error 401 "Unauthorized"
       (VObj [("detail",
               VStr "No active account found with the given credentials")]))
  = VStr "No active account found with the given credentials".
Proof. reflexivity. Qed.

Example login_bare_401 :
  UseAuth.login_errorMessage (Examples.server_error 401 "Unauthorized" VNull)
  = VStr "Invalid credentials".
Proof. reflexivity. Qed.




(** ** Repeated fetches and fresh snapshots *)

Lemma heap_after_abort_and_new (n : nat) :
  (abort n (repeat true n ++ [false]) ++ [false])%list
  = (repeat true (S n) ++ [false])%list /\
  List.length (abort n (repeat true n ++ [false])%list) = S n.
Proof.
  unfold abort. split.
  - rewrite insert_app_r_alt by (rewrite repeat_length; lia).
    rewrite repeat_length, Nat.sub_diag. cbn [insert list_insert].
    rewrite <- repeat_cons. reflexivity.
  - rewrite length_insert, length_app, repeat_length. simpl. lia.
Qed.

(** The heap effect shared by the six [fetch..._start] functions. *)
Lemma starts_keep_one_live {S : Type}
    (start : S -> list bool -> S * list bool * request)
    (ref : S -> option nat) :
  (forall st heap,
     ref (fst (fst (start st heap)))
       = Some (List.length (abort_current (ref st) heap)) /\
     snd (fst (start st heap))
       = (abort_current (ref st) heap ++ [false])%list) ->
  forall n st heap k,
    ref st = Some k -> heap = (repeat true k ++ [false])%list ->
    ref (fst (Session.starts start n st heap)) = Some (k + n) /\
    snd (Session.starts start n st heap)
      = (repeat true (k + n) ++ [false])%list.
Proof.
  intros Hstart n. induction n as [| n IH]; intros st heap k Href Hheap.
  - simpl. rewrite Nat.add_0_r. split; assumption.
  - cbn [Session.starts].
    destruct (Hstart st heap) as [Hr Hh].
    destruct (start st heap) as [[st1 heap1] req1]. cbn [fst snd] in Hr, Hh.
    rewrite Href in Hr, Hh. cbn [abort_current] in Hr, Hh.
    subst heap. destruct (heap_after_abort_and_new k) as [Hk1 Hk2].
    rewrite Hk2 in Hr. rewrite Hk1 in Hh.
    destruct (IH st1 heap1 (Datatypes.S k) Hr Hh) as [IH1 IH2].
    replace (k + Datatypes.S n) with (Datatypes.S k + n) by lia.
    split; assumption.
Qed.

Lemma starts_from_fresh {S : Type}
    (start : S -> list bool -> S * list bool * request)
    (ref : S -> option nat) (st0 : S) :
  (forall st heap,
     ref (fst (fst (start st heap)))
       = Some (List.length (abort_current (ref st) heap)) /\
     snd (fst (start st heap))
       = (abort_current (ref st) heap ++ [false])%list) ->
  ref st0 = None ->
  forall n,
    ref (fst (Session.starts start (Datatypes.S n) st0 [])) = Some n /\
    snd (Session.starts start (Datatypes.S n) st0 [])
      = (repeat true n ++ [false])%list.
Proof.
  intros Hstart Href n. cbn [Session.starts].
  destruct (Hstart st0 []) as [Hr Hh].
  destruct (start st0 []) as [[st1 heap1] req1]. cbn [fst snd] in Hr, Hh.
  rewrite Href in Hr, Hh. cbn in Hr, Hh.
  apply (starts_keep_one_live start ref Hstart n st1 heap1 0 Hr Hh).
Qed.

(** X10.  However many fetches are issued back to back on a fresh instance
    of a list hook, exactly one controller is live afterwards: after [n+1]
    calls the hook's ref holds the controller allocated last, and of the
    [n+1] controllers allocated the first [n] are aborted and the last is
    not. *)
Theorem refetching_keeps_one_live_controller (n : nat) :
  (let '(st, heap) :=
     Session.starts UseTransactions.fetchMyTransactions_start
       (Datatypes.S n) UseTransactions.initial [] in
   UseTransactions.abortControllerRef st = Some n /\
   heap = (repeat true n ++ [false])%list) /\
  (let '(st, heap) :=
     Session.starts UseServices.fetchServices_start
       (Datatypes.S n) UseServices.initial [] in
   UseServices.abortControllerRef st = Some n /\
   heap = (repeat true n ++ [false])%list) /\
  (let '(st, heap) :=
     Session.starts UseSaccoDirectory.fetchSaccos_start
       (Datatypes.S n) UseSaccoDirectory.initial [] in
   UseSaccoDirectory.abortControllerRef st = Some n /\
   heap = (repeat true n ++ [false])%list) /\
  (let '(st, heap) :=
     Session.starts UsePaymentProviders.fetchProviders_start
       (Datatypes.S n) UsePaymentProviders.initial [] in
   UsePaymentProviders.abortControllerRef st = Some n /\
   heap = (repeat true n ++ [false])%list) /\
  (let '(st, heap) :=
     Session.starts UseMemberships.fetchMemberships_start
       (Datatypes.S n) UseMemberships.initial [] in
   UseMemberships.abortControllerRef st = Some n /\
   heap = (repeat true n ++ [false])%list) /\
  (let '(st, heap) :=
     Session.starts UseLoans.fetchMyLoans_start
       (Datatypes.S n) UseLoans.initial [] in
   UseLoans.abortControllerRef st = Some n /\
   heap = (repeat true n ++ [false])%list).
Proof.
  repeat apply conj.
  - pose proof (starts_from_fresh UseTransactions.fetchMyTransactions_start
                  UseTransactions.abortControllerRef UseTransactions.initial)
      as H.
    destruct (H (fun st heap => conj eq_refl eq_refl) eq_refl n) as [H1 H2].
    destruct (Session.starts _ _ _ _). split; assumption.
  - pose proof (starts_from_fresh UseServices.fetchServices_start
                  UseServices.abortControllerRef UseServices.initial) as H.
    destruct (H (fun st heap => conj eq_refl eq_refl) eq_refl n) as [H1 H2].
    destruct (Session.starts _ _ _ _). split; assumption.
  - pose proof (starts_from_fresh UseSaccoDirectory.fetchSaccos_start
                  UseSaccoDirectory.abortControllerRef
                  UseSaccoDirectory.initial) as H.
    destruct (H (fun st heap => conj eq_refl eq_refl) eq_refl n) as [H1 H2].
    destruct (Session.starts _ _ _ _). split; assumption.
  - pose proof (starts_from_fresh UsePaymentProviders.fetchProviders_start
                  UsePaymentProviders.abortControllerRef
                  UsePaymentProviders.initial) as H.
    destruct (H (fun st heap => conj eq_refl eq_refl) eq_refl n) as [H1 H2].
    destruct (Session.starts _ _ _ _). split; assumption.
  - pose proof (starts_from_fresh UseMemberships.fetchMemberships_start
                  UseMemberships.abortControllerRef UseMemberships.initial)
      as H.
    destruct (H (fun st heap => conj eq_refl eq_refl) eq_refl n) as [H1 H2].
    destruct (Session.starts _ _ _ _). split; assumption.
  - pose proof (starts_from_fresh UseLoans.fetchMyLoans_start
                  UseLoans.abortControllerRef UseLoans.initial) as H.
    destruct (H (fun st heap => conj eq_refl eq_refl) eq_refl n) as [H1 H2].
    destruct (Session.starts _ _ _ _). split; assumption.
Qed.

Example three_fetches_one_live :
  snd (Session.starts UseTransactions.fetchMyTransactions_start 3
         UseTransactions.initial [])
  = [true; true; false].
Proof. reflexivity. Qed.

Lemma normalize_error_not_canceled (d : value) (e : thrown) :
  normalize d = inl e -> isCanceled e = false.
Proof.
  unfold normalize, get.
  destruct (isArray d); [discriminate | ].
  destruct (nullish d); [ | discriminate ].
  intros H. injection H as <-. reflexivity.
Qed.

Lemma genuine_rejected (e : thrown) :
  Session.genuine (Rejected e) = true -> isCanceled e = false.
Proof.
  unfold Session.genuine. destruct (isCanceled e); [discriminate | reflexivity].
Qed.

(** X11.  A fetch that runs to completion without being cancelled leaves a
    list, an error and a loading flag that depend on the outcome alone:
    whatever list and error the hook held before, and whichever controller
    was current, the result is the same.  Nothing of an earlier snapshot is
    merged into the new one. *)
Theorem completed_fetch_forgets_history
    (o : outcome) (s1 s2 : ListHooks.states) (heap1 heap2 : list bool) :
  Session.genuine o = true ->
  (let run st heap :=
     UseTransactions.fetchMyTransactions_settle o
       (fst (fst (UseTransactions.fetchMyTransactions_start st heap))) in
   let view st :=
     (UseTransactions.transactions st, UseTransactions.isLoading st,
      UseTransactions.error st) in
   view (run (ListHooks.of_transactions s1) heap1)
   = view (run (ListHooks.of_transactions s2) heap2)) /\
  (let run st heap :=
     UseServices.fetchServices_settle o
       (fst (fst (UseServices.fetchServices_start st heap))) in
   let view st :=
     (UseServices.services st, UseServices.isLoading st,
      UseServices.isError st) in
   view (run (ListHooks.of_services s1) heap1)
   = view (run (ListHooks.of_services s2) heap2)) /\
  (let run st heap :=
     UseSaccoDirectory.fetchSaccos_settle o
       (fst (fst (UseSaccoDirectory.fetchSaccos_start st heap))) in
   let view st :=
     (UseSaccoDirectory.saccos st, UseSaccoDirectory.isLoading st,
      UseSaccoDirectory.error st) in
   view (run (ListHooks.of_saccos s1) heap1)
   = view (run (ListHooks.of_saccos s2) heap2)) /\
  (let run st heap :=
     UsePaymentProviders.fetchProviders_settle o
       (fst (fst (UsePaymentProviders.fetchProviders_start st heap))) in
   let view st :=
     (UsePaymentProviders.providers st, UsePaymentProviders.isLoading st,
      UsePaymentProviders.error st) in
   view (run (ListHooks.of_providers s1) heap1)
   = view (run (ListHooks.of_providers s2) heap2)) /\
  (let run st heap :=
     UseMemberships.fetchMemberships_settle o
       (fst (fst (UseMemberships.fetchMemberships_start st heap))) in
   let view st :=
     (UseMemberships.memberships st, UseMemberships.isLoading st,
      UseMemberships.error st) in
   view (run (ListHooks.of_memberships s1) heap1)
   = view (run (ListHooks.of_memberships s2) heap2)) /\
  (let run st heap :=
     UseLoans.fetchMyLoans_settle o
       (fst (fst (UseLoans.fetchMyLoans_start st heap))) in
   let view st :=
     (UseLoans.loans st, UseLoans.isLoading st, UseLoans.isError st) in
   view (run (ListHooks.of_loans s1) heap1)
   = view (run (ListHooks.of_loans s2) heap2)).
Proof.
  intros Hg. cbv zeta.
  unfold UseTransactions.fetchMyTransactions_start,
    UseServices.fetchServices_start, UseSaccoDirectory.fetchSaccos_start,
    UsePaymentProviders.fetchProviders_start,
    UseMemberships.fetchMemberships_start, UseLoans.fetchMyLoans_start.
  cbn [fst snd new_AbortController]. unfold_fetch.
  destruct o as [r | e].
  - destruct (normalize (data r)) as [e | d] eqn:Hn.
    + rewrite (normalize_error_not_canceled _ _ Hn). repeat split.
    + repeat split.
  - rewrite (genuine_rejected e Hg). repeat split.
Qed.

Lemma completed_fetch_forgets_history_witness :
  UseTransactions.transactions
    (UseTransactions.fetchMyTransactions_settle
       (Resolved (Examples.ok Examples.envelope))
       (fst (fst (UseTransactions.fetchMyTransactions_start
                    (ListHooks.of_transactions Examples.loaded) [false]))))
  = UseTransactions.transactions
      (UseTransactions.fetchMyTransactions_settle
         (Resolved (Examples.ok Examples.envelope))
         (fst (fst (UseTransactions.fetchMyTransactions_start
                      (ListHooks.of_transactions ListHooks.initial) [])))).
Proof.
  destruct (completed_fetch_forgets_history
              (Resolved (Examples.ok Examples.envelope))
              Examples.loaded ListHooks.initial [false] [] eq_refl)
    as (H & _).
  cbv zeta in H. apply (f_equal (fun v => fst (fst v))) in H. exact H.
Defined.

(** ** Mutations that succeed *)

Lemma createTransaction_all_spec
    (d : UseTransactions.CreateTransactionData) (rs : list response) :
  forall (st : UseTransactions.state) (l : list value),
    UseTransactions.transactions st = VArr l ->
    UseTransactions.transactions (Session.createTransaction_all d rs st)
      = VArr (rev (map data rs) ++ l)%list /\
    Frames.of_createTransaction (Session.createTransaction_all d rs st)
      = (VArr (rev (map data rs) ++ l)%list, UseTransactions.isLoading st,
         UseTransactions.error st, UseTransactions.abortControllerRef st).
Proof.
  unfold Session.createTransaction_all.
  induction rs as [| r rs IH]; intros st l Hl.
  - simpl. unfold Frames.of_createTransaction. rewrite Hl. split; reflexivity.
  - cbn [fold_left map rev].
    set (st1 := fst (UseTransactions.createTransaction_settle (Resolved r)
                       (fst (UseTransactions.createTransaction_start d st)))).
    assert (H1 : UseTransactions.transactions st1 = VArr (data r :: l)).
    { unfold st1. simpl. rewrite Hl. reflexivity. }
    destruct (IH st1 (data r :: l) H1) as [IH1 IH2].
    rewrite <- app_assoc. cbn [app]. split; [exact IH1 | ].
    rewrite IH2. reflexivity.
Qed.

Lemma applyForLoan_all_spec
    (d : UseLoans.ApplyForLoanData) (rs : list response) :
  forall (st : UseLoans.state) (l : list value),
    UseLoans.loans st = VArr l ->
    UseLoans.loans (Session.applyForLoan_all d rs st)
      = VArr (rev (map data rs) ++ l)%list /\
    Frames.of_applyForLoan (Session.applyForLoan_all d rs st)
      = (VArr (rev (map data rs) ++ l)%list, UseLoans.isLoading st,
         UseLoans.isError st, UseLoans.abortControllerRef st).
Proof.
  unfold Session.applyForLoan_all.
  induction rs as [| r rs IH]; intros st l Hl.
  - simpl. unfold Frames.of_applyForLoan. rewrite Hl. split; reflexivity.
  - cbn [fold_left map rev].
    set (st1 := fst (UseLoans.applyForLoan_settle (Resolved r)
                       (fst (UseLoans.applyForLoan_start d st)))).
    assert (H1 : UseLoans.loans st1 = VArr (data r :: l)).
    { unfold st1. simpl. rewrite Hl. reflexivity. }
    destruct (IH st1 (data r :: l) H1) as [IH1 IH2].
    rewrite <- app_assoc. cbn [app]. split; [exact IH1 | ].
    rewrite IH2. reflexivity.
Qed.

(** X12.  Successful creations accumulate newest first and nothing else
    changes: when the hook holds the array [l], running [createTransaction]
    (or [applyForLoan]) to success once per response of [rs] leaves the
    array of the created records in reverse order of creation, followed by
    [l]; no record of [l] is dropped, no refetch is issued, and the fetch
    side of the state ([isLoading], the error, the controller ref) is as
    before. *)
Theorem successful_creations_accumulate
    (rs : list response) (l : list value) :
  (forall d st,
     UseTransactions.transactions st = VArr l ->
     Frames.of_createTransaction (Session.createTransaction_all d rs st)
     = (VArr (rev (map data rs) ++ l)%list, UseTransactions.isLoading st,
        UseTransactions.error st, UseTransactions.abortControllerRef st)) /\
  (forall d st,
     UseLoans.loans st = VArr l ->
     Frames.of_applyForLoan (Session.applyForLoan_all d rs st)
     = (VArr (rev (map data rs) ++ l)%list, UseLoans.isLoading st,
        UseLoans.isError st, UseLoans.abortControllerRef st)).
Proof.
  split; intros d st Hl.
  - apply (createTransaction_all_spec d rs st l Hl).
  - apply (applyForLoan_all_spec d rs st l Hl).
Qed.

Lemma successful_creations_accumulate_witness :
  UseTransactions.transactions
    (Session.createTransaction_all
       (UseTransactions.mkCreateTransactionData "mpesa" 100 "ref")
       [Examples.ok (VNum 8); Examples.ok (VNum 9)]
       (ListHooks.of_transactions Examples.loaded))
  = VArr [VNum 9; VNum 8; VNum 1].
Proof.
  destruct (successful_creations_accumulate
              [Examples.ok (VNum 8); Examples.ok (VNum 9)] [VNum 1])
    as (H & _).
  specialize (H (UseTransactions.mkCreateTransactionData "mpesa" 100 "ref")
                (ListHooks.of_transactions Examples.loaded) eq_refl).
  apply (f_equal (fun v => fst (fst (fst v)))) in H. exact H.
Defined.

(** ** [fetchProfile] *)

(** X13.  For [fetchProfile] a 404 is not an error: whatever the payload
    of the 404 says, the profile ends null, [error] ends null and
    [isLoading] false.  Any other failure also resets the profile to null
    (a profile loaded earlier does not survive it) and records the
    extracted message.  In no case are the update and create fields of the
    hook touched. *)
Theorem fetchProfile_404_is_not_an_error (st : UseProfile.state) :
  (forall code r req,
     status r = 404%Z ->
     let st' :=
       UseProfile.fetchProfile_settle (Rejected (AxiosError code (Some r) req))
         (fst (UseProfile.fetchProfile_start st)) in
     UseProfile.profile st' = VNull /\ UseProfile.error st' = VNull /\
     UseProfile.isLoading st' = false) /\
  (forall e,
     UseProfile.is404 e = false ->
     let st' :=
       UseProfile.fetchProfile_settle (Rejected e)
         (fst (UseProfile.fetchProfile_start st)) in
     UseProfile.profile st' = VNull /\
     UseProfile.error st' = UseProfile.fetchProfile_errorMessage e /\
     UseProfile.isLoading st' = false) /\
  (forall o,
     let st' :=
       UseProfile.fetchProfile_settle o
         (fst (UseProfile.fetchProfile_start st)) in
     UseProfile.isUpdating st' = UseProfile.isUpdating st /\
     UseProfile.isCreating st' = UseProfile.isCreating st /\
     UseProfile.updateError st' = UseProfile.updateError st /\
     UseProfile.createError st' = UseProfile.createError st).
Proof.
  repeat apply conj.
  - intros code r req H. unfold UseProfile.fetchProfile_settle. simpl.
    rewrite H. repeat split.
  - intros e H. unfold UseProfile.fetchProfile_settle. rewrite H.
    repeat split.
  - intros o. unfold UseProfile.fetchProfile_settle.
    destruct o as [r | e]; [repeat split | ].
    destruct (UseProfile.is404 e); repeat split.
Qed.

Lemma fetchProfile_404_is_not_an_error_witness :
  UseProfile.error
    (UseProfile.fetchProfile_settle
       (Rejected (AxiosError (Some "ERR_BAD_REQUEST")
                    (Some Examples.not_found) true))
       (fst (UseProfile.fetchProfile_start
               (UseProfile.setProfile (VObj [("bio", VStr "hi")])
                  UseProfile.initial))))
  = VNull /\
  UseProfile.profile
    (UseProfile.fetchProfile_settle
       (Rejected (AxiosError (Some "ERR_BAD_REQUEST")
                    (Some Examples.not_found) true))
       (fst (UseProfile.fetchProfile_start
               (UseProfile.setProfile (VObj [("bio", VStr "hi")])
                  UseProfile.initial))))
  = VNull.
Proof.
  destruct (fetchProfile_404_is_not_an_error
              (UseProfile.setProfile (VObj [("bio", VStr "hi")])
                 UseProfile.initial)) as (H & _).
  destruct (H (Some "ERR_BAD_REQUEST") Examples.not_found true eq_refl)
    as (Hp & He & _).
  split; assumption.
Defined.

(** ** Toasts *)

Lemma dismiss_fresh (gone : string) (toasts : list ToastProvider.Toast) :
  (forall t, In t toasts -> ToastProvider.id t <> gone) ->
  ToastProvider.dismiss gone toasts = toasts.
Proof.
  unfold ToastProvider.dismiss.
  induction toasts as [| t ts IH]; intros Hfresh; [reflexivity | ].
  cbn [List.filter].
  assert (Ht : ToastProvider.id t <> gone) by (apply Hfresh; left; reflexivity).
  apply String.eqb_neq in Ht. rewrite Ht. cbn [negb].
  rewrite IH; [reflexivity | ].
  intros t' Hin. apply Hfresh. right. exact Hin.
Qed.




(** X15.  [dismiss] removes the toasts carrying the given id, all of them,
    and no other: the toasts left are those with another id, in their
    order.  So when two toasts drew the same id, dismissing one (or its
    timer firing) removes both; dismissing an id that is not shown changes
    nothing; and dismissing twice is dismissing once. *)
Theorem dismiss_removes_that_id
    (gone : string) (toasts : list ToastProvider.Toast) :
  (forall t, In t (ToastProvider.dismiss gone toasts) <->
             In t toasts /\ ToastProvider.id t <> gone) /\
  sublist (ToastProvider.dismiss gone toasts) toasts /\
  (forall t1 t2, In t1 toasts -> In t2 toasts ->
     ToastProvider.id t1 = gone -> ToastProvider.id t2 = gone ->
     ~ In t1 (ToastProvider.dismiss gone toasts) /\
     ~ In t2 (ToastProvider.dismiss gone toasts)) /\
  ((forall t, In t toasts -> ToastProvider.id t <> gone) ->
   ToastProvider.dismiss gone toasts = toasts) /\
  ToastProvider.dismiss gone (ToastProvider.dismiss gone toasts)
  = ToastProvider.dismiss gone toasts.
Proof.
  assert (Hin : forall t, In t (ToastProvider.dismiss gone toasts) <->
                          In t toasts /\ ToastProvider.id t <> gone).
  { intros t. unfold ToastProvider.dismiss. rewrite List.filter_In.
    rewrite Bool.negb_true_iff, String.eqb_neq. reflexivity. }
  split; [ | split; [ | split; [ | split ] ] ].
  - exact Hin.
  - clear Hin. unfold ToastProvider.dismiss.
    induction toasts as [| t ts IH]; cbn [List.filter]; [constructor | ].
    destruct (negb _); [apply sublist_skip | apply sublist_cons]; exact IH.
  - intros t1 t2 _ _ H1 H2. split; intros H; apply Hin in H; tauto.
  - apply dismiss_fresh.
  - apply dismiss_fresh. intros t Ht. apply Hin in Ht. tauto.
Qed.

Lemma dismiss_removes_that_id_witness :
  ToastProvider.dismiss "dup"
    [ToastProvider.mkToast "dup" None (VStr "first") None 5000;
     ToastProvider.mkToast "other" None (VStr "second") None 5000;
     ToastProvider.mkToast "dup" None (VStr "third") None 5000]
  = [ToastProvider.mkToast "other" None (VStr "second") None 5000].
Proof.
  pose proof (dismiss_removes_that_id "dup"
                [ToastProvider.mkToast "dup" None (VStr "first") None 5000;
                 ToastProvider.mkToast "other" None (VStr "second") None 5000;
                 ToastProvider.mkToast "dup" None (VStr "third") None 5000])
    as (_ & _ & _ & _ & Hidem).
  exact (eq_trans (eq_sym Hidem) eq_refl).
Defined.

(** ** The password form and the registration form *)

(** X16.  When a password change fails, the toast of the profile page does
    not show the error of that attempt: its text is the
    [passwordChangeError] the page held before the submission, or the
    generic "Failed to change password. Please try again." when there was
    none.  So on a first failure the toast is generic, whatever went wrong,
    while the hook records the specific message; and the form keeps what
    was typed. *)
Theorem password_error_toast_is_stale
    (d : UseAuth.ChangePasswordData) (st : UseAuth.state)
    (ls : gmap string string) :
  (forall e,
     AccountProfilePage.handlePasswordSubmit_finish
       (UseAuth.passwordChangeError st) d (Threw e)
     = (UseProfile.mkToast "Error"
          (or_else (UseAuth.passwordChangeError st)
             (VStr "Failed to change password. Please try again."))
          "error", d)) /\
  (UseAuth.passwordChangeError st = VNull ->
   (forall st' e,
      UseAuth.changePassword_start d st ls = (st', Completed (Threw e)) ->
      UseProfile.description
        (fst (AccountProfilePage.handlePasswordSubmit_finish
                (UseAuth.passwordChangeError st) d (Threw e)))
      = VStr "Failed to change password. Please try again." /\
      UseAuth.passwordChangeError st' <> VNull) /\
   (forall st1 req err,
      UseAuth.changePassword_start d st ls = (st1, Awaiting req) ->
      let '(st2, c) := UseAuth.changePassword_settle (Rejected err) st1 in
      UseProfile.description
        (fst (AccountProfilePage.handlePasswordSubmit_finish
                (UseAuth.passwordChangeError st) d c))
      = VStr "Failed to change password. Please try again." /\
      UseAuth.passwordChangeError st2
      = UseAuth.changePassword_errorMessage err)).
Proof.
  split; [reflexivity | ].
  intros Hnull. split.
  - intros st' e Hstart. split.
    + simpl. rewrite Hnull. reflexivity.
    + unfold UseAuth.changePassword_start in Hstart.
      destruct (negb (String.eqb (UseAuth.new_password d)
                        (UseAuth.confirm_password d))).
      { injection Hstart as <- _. discriminate. }
      destruct (Nat.ltb (utf16_length (UseAuth.new_password d)) 6).
      { injection Hstart as <- _. discriminate. }
      destruct (negb (truthy (UseAuth.getItem UseAuth.ACCESS_TOKEN_KEY ls))).
      { injection Hstart as <- _. discriminate. }
      discriminate.
  - intros st1 req err _. simpl. rewrite Hnull. split; reflexivity.
Qed.

Lemma password_error_toast_is_stale_witness :
  UseProfile.description
    (fst (AccountProfilePage.handlePasswordSubmit_finish
            (UseAuth.passwordChangeError UseAuth.initial)
            (UseAuth.mkChangePasswordData "old-secret" "abcdef" "xyzxyz")
            (Threw (JsError "New passwords do not match"))))
  = VStr "Failed to change password. Please try again." /\
  UseAuth.passwordChangeError
    (fst (UseAuth.changePassword_start
            (UseAuth.mkChangePasswordData "old-secret" "abcdef" "xyzxyz")
            UseAuth.initial Examples.stored_session))
  = VStr "New passwords do not match".
Proof.
  split; [ | reflexivity ].
  destruct (password_error_toast_is_stale
              (UseAuth.mkChangePasswordData "old-secret" "abcdef" "xyzxyz")
              UseAuth.initial Examples.stored_session) as (_ & H).
  destruct (H eq_refl) as (Hlocal & _).
  apply (Hlocal _ (JsError "New passwords do not match") eq_refl).
Defined.

(** X17.  [RegisterForm] validates before it calls [registerUser]: with an
    empty field, a password that differs from its confirmation, or a
    password shorter than 6 characters (by [.length], in UTF-16 code
    units), it sets the local error (in that
    order of precedence), issues no request and leaves the auth hook
    untouched.  Otherwise it issues exactly the registration request, whose
    body carries the four fields and not the confirmation. *)
Theorem registerForm_validates_before_calling
    (formData : UseAuth.RegisterCredentials) (confirmPassword : string)
    (auth : UseAuth.state) :
  let '(localError, auth', s) :=
    RegisterForm.handleSubmit_start formData confirmPassword auth in
  let empty_field :=
    UseAuth.reg_email formData = EmptyString \/
    UseAuth.reg_password formData = EmptyString \/
    UseAuth.first_name formData = EmptyString \/
    UseAuth.last_name formData = EmptyString in
  (empty_field ->
   localError = VStr "Please fill in all fields" /\
   network_calls s = [] /\ auth' = auth) /\
  (~ empty_field -> UseAuth.reg_password formData <> confirmPassword ->
   localError = VStr "Passwords do not match" /\
   network_calls s = [] /\ auth' = auth) /\
  (~ empty_field -> UseAuth.reg_password formData = confirmPassword ->
   utf16_length (UseAuth.reg_password formData) < 6 ->
   localError = VStr "Password must be at least 6 characters long" /\
   network_calls s = [] /\ auth' = auth) /\
  (~ empty_field -> UseAuth.reg_password formData = confirmPassword ->
   6 <= utf16_length (UseAuth.reg_password formData) ->
   localError = VNull /\
   network_calls s =
     [mkRequest POST UseAuth.REGISTER_ENDPOINT
        (VObj [("email", VStr (UseAuth.reg_email formData));
               ("password", VStr (UseAuth.reg_password formData));
               ("first_name", VStr (UseAuth.first_name formData));
               ("last_name", VStr (UseAuth.last_name formData))])
        None None] /\
   UseAuth.isLoading auth' = true /\ UseAuth.error auth' = VNull).
Proof.
  unfold RegisterForm.handleSubmit_start. rewrite !truthy_VStr, !Bool.negb_involutive.
  destruct (String.eqb_spec (UseAuth.reg_email formData) EmptyString) as [He | He].
  { cbn [orb]. repeat split; tauto. }
  destruct (String.eqb_spec (UseAuth.reg_password formData) EmptyString)
    as [Hp | Hp].
  { cbn [orb]. repeat split; tauto. }
  destruct (String.eqb_spec (UseAuth.first_name formData) EmptyString)
    as [Hf | Hf].
  { cbn [orb]. repeat split; tauto. }
  destruct (String.eqb_spec (UseAuth.last_name formData) EmptyString)
    as [Hl | Hl].
  { cbn [orb]. repeat split; tauto. }
  cbn [orb].
  destruct (String.eqb_spec (UseAuth.reg_password formData) confirmPassword)
    as [Hc | Hc]; cbn [negb].
  - destruct (Nat.ltb_spec (utf16_length (UseAuth.reg_password formData)) 6)
      as [Hlt | Hge].
    + repeat split; try tauto; lia.
    + repeat split; try tauto; lia.
  - repeat split; tauto.
Qed.

Lemma registerForm_validates_before_calling_witness :
  network_calls
    (snd (RegisterForm.handleSubmit_start
            (UseAuth.mkRegisterCredentials "a@b.co" "abc12" "Ann" "Lee")
            "abc12" UseAuth.initial))
  = [] /\
  fst (fst (RegisterForm.handleSubmit_start
              (UseAuth.mkRegisterCredentials "a@b.co" "abc12" "Ann" "Lee")
              "abc12" UseAuth.initial))
  = VStr "Password must be at least 6 characters long".
Proof.
  pose proof (registerForm_validates_before_calling
                (UseAuth.mkRegisterCredentials "a@b.co" "abc12" "Ann" "Lee")
                "abc12" UseAuth.initial) as H.
  destruct (RegisterForm.handleSubmit_start _ _ _) as [[localError auth'] s].
  cbv zeta in H. destruct H as (_ & _ & Hshort & _).
  destruct Hshort as (Hmsg & Hcalls & _).
  - simpl. intros [H | [H | [H | H]]]; discriminate.
  - reflexivity.
  - vm_compute. lia.
  - split; assumption.
Defined.

(** A password of four accented letters, eight bytes, is rejected by the
    form without a request. *)
Example registerForm_counts_code_units :
  RegisterForm.handleSubmit_start
    (UseAuth.mkRegisterCredentials "a@b.co" "éééé" "Ann" "Lee")
    "éééé" UseAuth.initial
  = (VStr "Password must be at least 6 characters long", UseAuth.initial,
     snd (RegisterForm.handleSubmit_start
            (UseAuth.mkRegisterCredentials "a@b.co" "éééé" "Ann" "Lee")
            "éééé" UseAuth.initial)) /\
  network_calls
    (snd (RegisterForm.handleSubmit_start
            (UseAuth.mkRegisterCredentials "a@b.co" "éééé" "Ann" "Lee")
            "éééé" UseAuth.initial))
  = [].
Proof. split; reflexivity. Qed.



(** ** The data table *)

Lemma insert_by_zero {A : Type} (cmp : A -> A -> Z) (x : A) (l : list A) :
  (forall y, In y l -> cmp x y = 0%Z) ->
  DataTable.insert_by cmp x l = x :: l.
Proof.
  destruct l as [| y ys]; intros H; [reflexivity | ].
  cbn [DataTable.insert_by]. rewrite (H y) by (left; reflexivity).
  reflexivity.
Qed.

Lemma sort_by_zero {A : Type} (cmp : A -> A -> Z) (l : list A) :
  (forall x y, In x l -> In y l -> cmp x y = 0%Z) ->
  DataTable.sort_by cmp l = l.
Proof.
  unfold DataTable.sort_by.
  induction l as [| x l IH]; intros H; [reflexivity | ].
  cbn [fold_right]. rewrite IH.
  - apply insert_by_zero. intros y Hy. apply H; [left; reflexivity | right; exact Hy].
  - intros a b Ha Hb. apply H; right; assumption.
Qed.

Lemma insert_by_perm {A : Type} (cmp : A -> A -> Z) (x : A) (l : list A) :
  Permutation (DataTable.insert_by cmp x l) (x :: l).
Proof.
  induction l as [| y ys IH]; cbn [DataTable.insert_by]; [reflexivity | ].
  destruct (Z.leb (cmp x y) 0); [reflexivity | ].
  rewrite IH. apply perm_swap.
Qed.

Lemma sort_by_perm {A : Type} (cmp : A -> A -> Z) (l : list A) :
  Permutation (DataTable.sort_by cmp l) l.
Proof.
  unfold DataTable.sort_by.
  induction l as [| x l IH]; cbn [fold_right]; [reflexivity | ].
  rewrite insert_by_perm. constructor. exact IH.
Qed.

Lemma string_compare_refl (s : string) : String.compare s s = Eq.
Proof.
  induction s as [| c s IH]; [reflexivity | ].
  cbn [String.compare]. unfold Ascii.compare. rewrite N.compare_refl.
  exact IH.
Qed.

Lemma compare_strings_same (dir : DataTable.sort_direction) (s : string) :
  DataTable.compare_strings dir s s = 0%Z.
Proof.
  unfold DataTable.compare_strings, String.ltb.
  rewrite string_compare_refl. reflexivity.
Qed.

(** X19.  Clicking the header of a sortable column cycles its sort:
    unsorted, ascending, descending, unsorted again; a click on a column
    other than the sorted one starts that column ascending.  A click on a
    column that is unknown or has sorting disabled changes nothing.  In
    all cases the sort key is null exactly when the direction is, if that
    was so before. *)
Theorem handleSort_cycles
    (T : Type) (columns : list (DataTable.Column T)) (columnId : string)
    (prev : DataTable.SortConfig) :
  let click := DataTable.handleSort T columns columnId in
  let unsorted := DataTable.mkSortConfig None None in
  (forall column,
     DataTable.find_column T columnId columns = Some column ->
     DataTable.enableSorting T column <> Some false ->
     click unsorted
       = DataTable.mkSortConfig (Some columnId) (Some DataTable.asc) /\
     click (click unsorted)
       = DataTable.mkSortConfig (Some columnId) (Some DataTable.desc) /\
     click (click (click unsorted)) = unsorted /\
     (DataTable.key_is prev columnId = false ->
      click prev
        = DataTable.mkSortConfig (Some columnId) (Some DataTable.asc))) /\
  (DataTable.find_column T columnId columns = None \/
   (exists column,
      DataTable.find_column T columnId columns = Some column /\
      DataTable.enableSorting T column = Some false) ->
   click prev = prev) /\
  ((DataTable.key prev = None <-> DataTable.direction prev = None) ->
   (DataTable.key (click prev) = None <->
    DataTable.direction (click prev) = None)).
Proof.
  cbv zeta. unfold DataTable.handleSort, DataTable.key_is.
  split; [ | split ].
  - intros column Hfind Hen. rewrite Hfind.
    assert (Hgo : forall (X : Type) (a b : X),
              match DataTable.enableSorting T column with
              | Some false => a
              | _ => b
              end = b).
    { intros X a b. destruct (DataTable.enableSorting T column) as [[|]|];
        try reflexivity. contradiction. }
    rewrite !Hgo. cbn [DataTable.key DataTable.direction].
    rewrite !String.eqb_refl.
    split; [reflexivity | ]. split; [reflexivity | ].
    cbn [DataTable.key DataTable.direction]. rewrite String.eqb_refl.
    split; [reflexivity | ]. intros Hk. rewrite Hk. reflexivity.
  - intros [Hnone | (column & Hfind & Hen)].
    + rewrite Hnone. reflexivity.
    + rewrite Hfind, Hen. reflexivity.
  - intros Hinv.
    destruct (DataTable.find_column T columnId columns) as [column | ];
      [ | exact Hinv ].
    destruct (DataTable.enableSorting T column) as [[|]|]; try exact Hinv.
    all: destruct (DataTable.key prev) as [k | ]; cbn [DataTable.key];
      try (split; discriminate).
    all: destruct (String.eqb k columnId);
      try (split; discriminate).
    all: destruct (DataTable.direction prev) as [[|]|];
      cbn [DataTable.key DataTable.direction];
      split; (discriminate || reflexivity).
Qed.

Lemma handleSort_cycles_witness :
  DataTable.handleSort value
    [DataTable.mkColumn value "reference" None None (Some true);
     DataTable.mkColumn value "actions" None None (Some false)]
    "reference"
    (DataTable.handleSort value
       [DataTable.mkColumn value "reference" None None (Some true);
        DataTable.mkColumn value "actions" None None (Some false)]
       "reference"
       (DataTable.handleSort value
          [DataTable.mkColumn value "reference" None None (Some true);
           DataTable.mkColumn value "actions" None None (Some false)]
          "reference" (DataTable.mkSortConfig None None)))
  = DataTable.mkSortConfig None None.
Proof.
  destruct (handleSort_cycles value
              [DataTable.mkColumn value "reference" None None (Some true);
               DataTable.mkColumn value "actions" None None (Some false)]
              "reference" (DataTable.mkSortConfig None None)) as (H & _).
  destruct (H (DataTable.mkColumn value "reference" None None (Some true))
              eq_refl) as (_ & _ & H3 & _); [discriminate | exact H3].
Defined.

(** X20.  Sorting never adds or drops rows: the sorted rows are a
    permutation of the filtered ones, and without a sort key or direction
    they are the filtered rows themselves.  The rows also keep their order
    when the sorted column is unknown, has neither accessor, or has an
    accessor function whose results are objects (rendered elements, as in
    every column of the transactions page): all of these compare as
    equal. *)
Theorem sortedData_permutes
    (T : Type) (field : T -> string -> value) (filtered : list T)
    (columns : list (DataTable.Column T)) (sortConfig : DataTable.SortConfig) :
  Permutation (DataTable.sortedData T field filtered sortConfig columns)
              filtered /\
  (DataTable.key sortConfig = None \/ DataTable.direction sortConfig = None ->
   DataTable.sortedData T field filtered sortConfig columns = filtered) /\
  (forall k dir,
     sortConfig = DataTable.mkSortConfig (Some k) (Some dir) ->
     DataTable.find_column T k columns = None \/
     (exists column,
        DataTable.find_column T k columns = Some column /\
        ((DataTable.accessorFn T column = None /\
          DataTable.accessorKey T column = None) \/
         (exists f,
            DataTable.accessorFn T column = Some f /\
            forall row, exists fields, f row = VObj fields))) ->
     DataTable.sortedData T field filtered sortConfig columns = filtered).
Proof.
  unfold DataTable.sortedData. split; [ | split ].
  - destruct (DataTable.key sortConfig) as [k | ]; [ | reflexivity ].
    destruct (DataTable.direction sortConfig) as [dir | ]; [ | reflexivity ].
    destruct (truthy (VStr k)); [apply sort_by_perm | reflexivity].
  - intros [H | H]; rewrite H; [reflexivity | ].
    destruct (DataTable.key sortConfig); reflexivity.
  - intros k dir -> Hcol. cbn [DataTable.key DataTable.direction].
    destruct (truthy (VStr k)); [ | reflexivity ].
    apply sort_by_zero. intros a b _ _. unfold DataTable.comparator.
    destruct Hcol as [Hnone | (column & Hfind & Hacc)].
    + rewrite Hnone. reflexivity.
    + rewrite Hfind.
      destruct Hacc as [[Hfn Hkey] | (f & Hfn & Hobj)].
      * rewrite Hfn, Hkey. reflexivity.
      * rewrite Hfn. destruct (Hobj a) as [fa Ha]. destruct (Hobj b) as [fb Hb].
        rewrite Ha, Hb. apply compare_strings_same.
Qed.

Lemma sortedData_permutes_witness :
  DataTable.sortedData value opt_get
    [VObj [("reference", VStr "b")]; VObj [("reference", VStr "a")]]
    (DataTable.mkSortConfig (Some "reference") (Some DataTable.asc))
    [DataTable.mkColumn value "reference" None
       (Some (fun row =>
                VObj [("type", VStr "span");
                      ("props", VObj [("children", opt_get row "reference")])]))
       (Some true)]
  = [VObj [("reference", VStr "b")]; VObj [("reference", VStr "a")]].
Proof.
  destruct (sortedData_permutes value opt_get
              [VObj [("reference", VStr "b")]; VObj [("reference", VStr "a")]]
              [DataTable.mkColumn value "reference" None
                 (Some (fun row =>
                          VObj [("type", VStr "span");
                                ("props",
                                 VObj [("children", opt_get row "reference")])]))
                 (Some true)]
              (DataTable.mkSortConfig (Some "reference") (Some DataTable.asc)))
    as (_ & _ & H).
  apply (H "reference" DataTable.asc eq_refl).
  right. eexists. split; [reflexivity | ].
  right. eexists. split; [reflexivity | ].
  intros row. eexists. reflexivity.
Defined.

(** With an accessor key instead, the same rows are put in order. *)
Example sortedData_by_key :
  DataTable.sortedData value opt_get
    [VObj [("reference", VStr "b")]; VObj [("reference", VStr "A")];
     VObj [("reference", VStr "c")]]
    (DataTable.mkSortConfig (Some "reference") (Some DataTable.desc))
    [DataTable.mkColumn value "reference" (Some "reference") None None]
  = [VObj [("reference", VStr "c")]; VObj [("reference", VStr "b")];
     VObj [("reference", VStr "A")]].
Proof. reflexivity. Qed.

(** ** Searching and filtering by status *)

Lemma lower_ascii_idem (c : Ascii.ascii) :
  Text.lower_ascii (Text.lower_ascii c) = Text.lower_ascii c.
Proof.
  destruct c as [b0 b1 b2 b3 b4 b5 b6 b7].
  destruct b0, b1, b2, b3, b4, b5, b6, b7; reflexivity.
Qed.

Lemma toLowerCase_idem (s : string) :
  Text.toLowerCase (Text.toLowerCase s) = Text.toLowerCase s.
Proof.
  induction s as [| c s IH]; [reflexivity | ].
  cbn [Text.toLowerCase]. rewrite lower_ascii_idem, IH. reflexivity.
Qed.

Lemma prefix_true_iff (sub s : string) :
  String.prefix sub s = true <-> exists post, s = sub +:+ post.
Proof.
  revert s. induction sub as [| c sub IH]; intros s.
  - split; [ | intros _; destruct s; reflexivity ].
    intros _. exists s. reflexivity.
  - destruct s as [| d s]; cbn [String.prefix].
    + split; [discriminate | ]. intros (post & H). discriminate.
    + destruct (Ascii.ascii_dec c d) as [-> | Hne].
      * rewrite IH. split.
        -- intros (post & ->). exists post. reflexivity.
        -- intros (post & H). injection H as ->. exists post. reflexivity.
      * split; [discriminate | ]. intros (post & H).
        injection H as H _. congruence.
Qed.

Lemma includes_true_iff (s sub : string) :
  Text.includes s sub = true <-> exists pre post, s = pre +:+ sub +:+ post.
Proof.
  induction s as [| c s IH].
  - cbn [Text.includes].
    destruct (String.prefix sub EmptyString) eqn:Hp.
    + split; [ | reflexivity ]. intros _.
      apply prefix_true_iff in Hp. destruct Hp as (post & Hp).
      exists EmptyString, post. exact Hp.
    + split; [discriminate | ]. intros (pre & post & H).
      destruct pre as [| p pre]; [ | discriminate ].
      assert (Ht : String.prefix sub EmptyString = true)
        by (apply prefix_true_iff; exists post; exact H).
      congruence.
  - cbn [Text.includes].
    destruct (String.prefix sub (String c s)) eqn:Hp.
    + split; [ | reflexivity ]. intros _.
      apply prefix_true_iff in Hp. destruct Hp as (post & Hp).
      exists EmptyString, post. exact Hp.
    + rewrite IH. split.
      * intros (pre & post & ->). exists (String c pre), post. reflexivity.
      * intros (pre & post & H). destruct pre as [| p pre].
        -- assert (Ht : String.prefix sub (String c s) = true)
             by (apply prefix_true_iff; exists post; exact H).
           congruence.
        -- injection H as _ H. exists pre, post. exact H.
Qed.

(** X21.  The table's search keeps the rows whose search text contains
    the query as a substring, both taken in lower case, in the order of
    the data; with an empty query or no search key it shows all the data.
    Two queries that differ only in case select the same rows. *)
Theorem filteredData_is_substring_search
    (T : Type) (field : T -> string -> value) (data : list T)
    (searchQuery : string) (searchKey : option (DataTable.SearchKey T)) :
  (searchQuery = EmptyString \/ DataTable.no_searchKey T searchKey = true ->
   DataTable.filteredData T field data searchQuery searchKey = data) /\
  sublist (DataTable.filteredData T field data searchQuery searchKey) data /\
  (forall sk row,
     searchQuery <> EmptyString -> searchKey = Some sk ->
     DataTable.no_searchKey T searchKey = false ->
     (In row (DataTable.filteredData T field data searchQuery searchKey) <->
      In row data /\
      exists pre post,
        Text.toLowerCase (DataTable.searchValue T field sk row)
        = pre +:+ Text.toLowerCase searchQuery +:+ post)) /\
  (forall other,
     other <> EmptyString -> searchQuery <> EmptyString ->
     Text.toLowerCase other = Text.toLowerCase searchQuery ->
     DataTable.filteredData T field data other searchKey
     = DataTable.filteredData T field data searchQuery searchKey).
Proof.
  unfold DataTable.filteredData. rewrite !truthy_VStr, !Bool.negb_involutive.
  split; [ | split; [ | split ] ].
  - intros [-> | H]; [reflexivity | ]. rewrite H, Bool.orb_true_r. reflexivity.
  - destruct (_ || _); [reflexivity | ].
    destruct searchKey as [sk | ]; [ | reflexivity ].
    induction data as [| row rows IH]; cbn [List.filter]; [constructor | ].
    destruct (Text.includes _ _);
      [apply sublist_skip | apply sublist_cons]; exact IH.
  - intros sk row Hq -> Hns.
    rewrite (string_eqb_empty_false _ Hq), Hns. cbn [orb].
    rewrite List.filter_In, includes_true_iff. reflexivity.
  - intros other Ho Hq Hlow.
    rewrite ?truthy_VStr, ?Bool.negb_involutive.
    rewrite (string_eqb_empty_false _ Hq), (string_eqb_empty_false _ Ho).
    rewrite Hlow. reflexivity.
Qed.

Lemma filteredData_is_substring_search_witness :
  DataTable.filteredData TransactionsPage.Transaction
    (fun _ _ => VUndefined)
    [TransactionsPage.mkTransaction "1" (inl "M-Pesa") 100 "REF-001"
       (Some "Completed") None None;
     TransactionsPage.mkTransaction "2" (inl "Airtel") 250 "REF-002"
       (Some "pending") None None]
    "M-PESA"
    (Some (DataTable.ByFn TransactionsPage.Transaction
             TransactionsPage.searchKey))
  = DataTable.filteredData TransactionsPage.Transaction
      (fun _ _ => VUndefined)
      [TransactionsPage.mkTransaction "1" (inl "M-Pesa") 100 "REF-001"
         (Some "Completed") None None;
       TransactionsPage.mkTransaction "2" (inl "Airtel") 250 "REF-002"
         (Some "pending") None None]
      "m-pesa"
      (Some (DataTable.ByFn TransactionsPage.Transaction
               TransactionsPage.searchKey)) /\
  In (TransactionsPage.mkTransaction "1" (inl "M-Pesa") 100 "REF-001"
        (Some "Completed") None None)
     (DataTable.filteredData TransactionsPage.Transaction
        (fun _ _ => VUndefined)
        [TransactionsPage.mkTransaction "1" (inl "M-Pesa") 100 "REF-001"
           (Some "Completed") None None;
         TransactionsPage.mkTransaction "2" (inl "Airtel") 250 "REF-002"
           (Some "pending") None None]
        "m-pesa"
        (Some (DataTable.ByFn TransactionsPage.Transaction
                 TransactionsPage.searchKey))) /\
  ~ In (TransactionsPage.mkTransaction "2" (inl "Airtel") 250 "REF-002"
          (Some "pending") None None)
       (DataTable.filteredData TransactionsPage.Transaction
          (fun _ _ => VUndefined)
          [TransactionsPage.mkTransaction "1" (inl "M-Pesa") 100 "REF-001"
             (Some "Completed") None None;
           TransactionsPage.mkTransaction "2" (inl "Airtel") 250 "REF-002"
             (Some "pending") None None]
          "m-pesa"
          (Some (DataTable.ByFn TransactionsPage.Transaction
                   TransactionsPage.searchKey))) /\
  DataTable.filteredData TransactionsPage.Transaction
    (fun _ _ => VUndefined)
    [TransactionsPage.mkTransaction "1" (inl "M-Pesa") 100 "REF-001"
       (Some "Completed") None None;
     TransactionsPage.mkTransaction "2" (inl "Airtel") 250 "REF-002"
       (Some "pending") None None]
    "M-PESA"
    (Some (DataTable.ByFn TransactionsPage.Transaction
             TransactionsPage.searchKey))
  = [TransactionsPage.mkTransaction "1" (inl "M-Pesa") 100 "REF-001"
       (Some "Completed") None None].
Proof.
  destruct (filteredData_is_substring_search TransactionsPage.Transaction
              (fun _ _ => VUndefined)
              [TransactionsPage.mkTransaction "1" (inl "M-Pesa") 100 "REF-001"
                 (Some "Completed") None None;
               TransactionsPage.mkTransaction "2" (inl "Airtel") 250 "REF-002"
                 (Some "pending") None None]
              "m-pesa"
              (Some (DataTable.ByFn TransactionsPage.Transaction
                       TransactionsPage.searchKey)))
    as (_ & _ & Hin & Hcase).
  split; [ | split; [ | split ] ].
  - apply Hcase; [discriminate | discriminate | reflexivity].
  - apply (Hin _ _ ltac:(discriminate) eq_refl eq_refl).
    split; [left; reflexivity | ].
    exists "ref-001 ", EmptyString. reflexivity.
  - intros H.
    apply (Hin _ _ ltac:(discriminate) eq_refl eq_refl) in H.
    destruct H as (_ & pre & post & H).
    assert (Hinc : Text.includes "ref-002 airtel" "m-pesa" = true).
    { apply includes_true_iff. exists pre, post. exact H. }
    discriminate Hinc.
  - reflexivity.
Defined.

Example search_transactions_by_provider :
  map TransactionsPage.id
    (DataTable.filteredData TransactionsPage.Transaction
       (fun _ _ => VUndefined)
       [TransactionsPage.mkTransaction "1" (inl "M-Pesa") 100 "REF-001"
          (Some "Completed") None None;
        TransactionsPage.mkTransaction "2"
          (inr (TransactionsPage.mkPaymentProvider "p" "Airtel Money" None None))
          250 "REF-002" (Some "pending") None None]
       "airtel"
       (Some (DataTable.ByFn TransactionsPage.Transaction
                TransactionsPage.searchKey)))
  = ["2"].
Proof. reflexivity. Qed.

Lemma set_add_In (s x : string) (acc : list string) :
  In x (TransactionsPage.set_add s acc) <-> x = s \/ In x acc.
Proof.
  unfold TransactionsPage.set_add.
  destruct (existsb (String.eqb s) acc) eqn:He.
  - apply existsb_exists in He. destruct He as (y & Hy & Heq).
    apply String.eqb_eq in Heq. subst y. split; [tauto | ].
    intros [-> | H]; assumption.
  - rewrite in_app_iff. cbn [In]. split.
    + intros [H | [H | []]]; [right; exact H | left; symmetry; exact H].
    + intros [-> | H]; [right; left; reflexivity | left; exact H].
Qed.

Lemma set_add_NoDup (s : string) (acc : list string) :
  List.NoDup acc -> List.NoDup (TransactionsPage.set_add s acc).
Proof.
  intros Hnd. unfold TransactionsPage.set_add.
  destruct (existsb (String.eqb s) acc) eqn:He; [exact Hnd | ].
  apply (Permutation_NoDup (Permutation_cons_append acc s)).
  constructor; [ | exact Hnd ].
  intros Hin.
  assert (Ht : existsb (String.eqb s) acc = true).
  { apply existsb_exists. exists s. split; [exact Hin | apply String.eqb_refl]. }
  congruence.
Qed.

Lemma collected_statuses
    (transactions : list TransactionsPage.Transaction) :
  forall (acc : list string),
    let statuses :=
      fold_left
        (fun acc tx =>
           match TransactionsPage.status tx with
           | Some s => if truthy (VStr s)
                       then TransactionsPage.set_add (Text.toLowerCase s) acc
                       else acc
           | None => acc
           end)
        transactions acc in
    (List.NoDup acc -> List.NoDup statuses) /\
    (forall x,
       In x statuses <->
       In x acc \/
       exists tx s0,
         In tx transactions /\ TransactionsPage.status tx = Some s0 /\
         s0 <> EmptyString /\ x = Text.toLowerCase s0).
Proof.
  induction transactions as [| tx txs IH]; intros acc; cbn [fold_left].
  - split; [tauto | ]. intros x. split; [tauto | ].
    intros [H | (tx & s0 & [] & _)]. exact H.
  - cbv zeta in IH.
    destruct (TransactionsPage.status tx) as [s | ] eqn:Hs.
    + destruct (truthy (VStr s)) eqn:Ht.
      * destruct (IH (TransactionsPage.set_add (Text.toLowerCase s) acc))
          as [IHnd IHin].
        split.
        -- intros Hnd. apply IHnd, set_add_NoDup, Hnd.
        -- intros x. rewrite IHin, set_add_In. split.
           ++ intros [[-> | H] | (tx' & s0 & Hin & Hst & Hne & Hx)].
              ** right. exists tx, s. repeat split; try assumption.
                 --- left. reflexivity.
                 --- apply truthy_VStr_nonempty. exact Ht.
              ** left. exact H.
              ** right. exists tx', s0. repeat split; try assumption.
                 right. exact Hin.
           ++ intros [H | (tx' & s0 & [<- | Hin] & Hst & Hne & Hx)].
              ** left. right. exact H.
              ** left. left. congruence.
              ** right. exists tx', s0. repeat split; assumption.
      * destruct (IH acc) as [IHnd IHin]. split; [exact IHnd | ].
        intros x. rewrite IHin. split.
        -- intros [H | (tx' & s0 & Hin & Hst & Hne & Hx)]; [left; exact H | ].
           right. exists tx', s0. repeat split; try assumption.
           right. exact Hin.
        -- intros [H | (tx' & s0 & [<- | Hin] & Hst & Hne & Hx)].
           ++ left. exact H.
           ++ exfalso. rewrite Hs in Hst. injection Hst as <-.
              apply String.eqb_neq in Hne. simpl in Ht. rewrite Hne in Ht.
              discriminate.
           ++ right. exists tx', s0. repeat split; assumption.
    + destruct (IH acc) as [IHnd IHin]. split; [exact IHnd | ].
      intros x. rewrite IHin. split.
      * intros [H | (tx' & s0 & Hin & Hst & Hne & Hx)]; [left; exact H | ].
        right. exists tx', s0. repeat split; try assumption.
        right. exact Hin.
      * intros [H | (tx' & s0 & [<- | Hin] & Hst & Hne & Hx)].
        -- left. exact H.
        -- congruence.
        -- right. exists tx', s0. repeat split; assumption.
Qed.

(** X22.  The status dropdown of the transactions page lists, without
    repetition, the lower-cased statuses that occur (non-empty) among the
    transactions.  The choice "all" shows every transaction; any other
    choice shows, in order, the transactions whose status equals it up to
    case.  Every listed status selects at least one transaction. *)
Theorem status_options_select_something
    (transactions : list TransactionsPage.Transaction) :
  List.NoDup (TransactionsPage.uniqueStatuses transactions) /\
  (forall s,
     In s (TransactionsPage.uniqueStatuses transactions) <->
     exists tx s0,
       In tx transactions /\ TransactionsPage.status tx = Some s0 /\
       s0 <> EmptyString /\ s = Text.toLowerCase s0) /\
  TransactionsPage.filteredTransactions transactions "all" = transactions /\
  (forall s tx,
     s <> "all" ->
     (In tx (TransactionsPage.filteredTransactions transactions s) <->
      In tx transactions /\
      Text.toLowerCase (TransactionsPage.status_or_empty tx)
      = Text.toLowerCase s)) /\
  (forall s,
     In s (TransactionsPage.uniqueStatuses transactions) ->
     TransactionsPage.filteredTransactions transactions s <> []).
Proof.
  destruct (collected_statuses transactions []) as [Hnd Hin].
  cbv zeta in Hnd, Hin.
  assert (Hmem : forall s,
            In s (TransactionsPage.uniqueStatuses transactions) <->
            exists tx s0,
              In tx transactions /\ TransactionsPage.status tx = Some s0 /\
              s0 <> EmptyString /\ s = Text.toLowerCase s0).
  { intros s. unfold TransactionsPage.uniqueStatuses. cbv zeta.
    split.
    - intros H. apply (Permutation_in _ (sort_by_perm _ _)) in H.
      apply Hin in H. destruct H as [[] | H]. exact H.
    - intros H.
      apply (Permutation_in _ (Permutation_sym (sort_by_perm _ _))).
      apply Hin. right. exact H. }
  assert (Hfilter : forall s tx,
            s <> "all" ->
            (In tx (TransactionsPage.filteredTransactions transactions s) <->
             In tx transactions /\
             Text.toLowerCase (TransactionsPage.status_or_empty tx)
             = Text.toLowerCase s)).
  { intros s tx Hs. unfold TransactionsPage.filteredTransactions.
    apply String.eqb_neq in Hs. rewrite Hs.
    rewrite List.filter_In, String.eqb_eq. reflexivity. }
  split; [ | split; [exact Hmem | split; [reflexivity | split; [exact Hfilter | ]]]].
  - unfold TransactionsPage.uniqueStatuses. cbv zeta.
    apply (Permutation_NoDup (Permutation_sym (sort_by_perm _ _))).
    apply Hnd. constructor.
  - intros s Hs. apply Hmem in Hs.
    destruct Hs as (tx & s0 & Htx & Hst & Hne & ->).
    destruct (String.eqb_spec (Text.toLowerCase s0) "all") as [Hall | Hnot].
    + rewrite Hall. cbn. intros Hnil. rewrite Hnil in Htx. destruct Htx.
    + intros Hnil.
      assert (Hk : In tx (TransactionsPage.filteredTransactions transactions
                            (Text.toLowerCase s0))).
      { apply Hfilter; [exact Hnot | ]. split; [exact Htx | ].
        unfold TransactionsPage.status_or_empty. rewrite Hst.
        symmetry. apply toLowerCase_idem. }
      rewrite Hnil in Hk. destruct Hk.
Qed.

Lemma status_options_select_something_witness :
  TransactionsPage.uniqueStatuses
    [TransactionsPage.mkTransaction "1" (inl "M-Pesa") 100 "REF-001"
       (Some "Pending") None None;
     TransactionsPage.mkTransaction "2" (inl "Airtel") 250 "REF-002"
       (Some "completed") None None;
     TransactionsPage.mkTransaction "3" (inl "Airtel") 80 "REF-003"
       (Some "PENDING") None None;
     TransactionsPage.mkTransaction "4" (inl "Airtel") 80 "REF-004"
       None None None]
  = ["completed"; "pending"] /\
  TransactionsPage.filteredTransactions
    [TransactionsPage.mkTransaction "1" (inl "M-Pesa") 100 "REF-001"
       (Some "Pending") None None;
     TransactionsPage.mkTransaction "2" (inl "Airtel") 250 "REF-002"
       (Some "completed") None None;
     TransactionsPage.mkTransaction "3" (inl "Airtel") 80 "REF-003"
       (Some "PENDING") None None;
     TransactionsPage.mkTransaction "4" (inl "Airtel") 80 "REF-004"
       None None None]
    "pending" <> [].
Proof.
  split; [reflexivity | ].
  apply status_options_select_something.
  right. left. reflexivity.
Defined.
